(** * specdrift: the parse, normalize, diff, classify pipeline

    A shallow embedding of the core of specdrift (app/core/parser.py,
    normalizer.py, differ.py, classifier.py, rules.py, app/models/change.py
    and app/services/diff_service.py) together with the properties of its
    specification.

    Decoded documents are trees of Python values.  Mappings are association
    lists in insertion order, because the differ reports changes in the key
    order of the documents.  Python exceptions are values of [exn]; a
    function that can raise returns a [result].  The differ appends to
    [self.changes]; it is embedded in a state and exception monad over that
    list.

    Boundaries of the embedding:
    - text is a byte string; [lower], [upper] and [strip] act on ASCII
      (every method name and format name is ASCII, and no other character
      lower-cases to one of their letters); Python's [str.strip] also
      removes whitespace that is not ASCII, so the properties of blank
      contents are stated for ASCII contents;
    - numbers are integers; a mapping has string keys, as in every JSON
      document.  A YAML mapping can hold a key that is not a text (an
      unquoted status code is a number): on such a key [method.lower()] and
      [status_code.startswith] raise, and these failures are outside the
      embedding.  The properties that say when a comparison returns are
      properties of documents whose keys are texts;
    - [json.loads], [yaml.safe_load] and the builtin [str] are library code:
      they are section variables.  A decoder returns a value or raises its
      own decoding error; another exception of a decoder, which [parse]
      reports as a failure to parse, is outside the embedding. *)

From Stdlib Require Import String Ascii List ZArith Bool Lia DecimalString.
Import ListNotations.
Open Scope string_scope.
Open Scope list_scope.

(** ** Python values *)

#[warnings="-register-all"]
Inductive value : Type :=
| VNone : value
| VBool : bool -> value
| VInt : Z -> value
| VStr : string -> value
| VList : list value -> value
| VDict : list (string * value) -> value.

Inductive exn : Type :=
| ParseError (msg : string)
| KeyError (key : value)
| AttributeError (attr : string)
| TypeError (msg : string)
| IndexError (msg : string)
| ValueError (prefix : string) (cause : exn).

(** A computation that returns or raises. *)
Definition result (A : Type) : Type := (exn + A)%type.

Definition Ok {A : Type} (a : A) : result A := inr a.
Definition Raise {A : Type} (e : exn) : result A := inl e.

Definition rbind {A B : Type} (r : result A) (k : A -> result B) : result B :=
  match r with
  | inl e => inl e
  | inr a => k a
  end.

Declare Scope result_scope.
Delimit Scope result_scope with result.
Notation "x <- r ;; k" := (rbind r (fun x => k))
  (at level 100, r at next level, right associativity) : result_scope.

(** ** Ordered dictionaries *)

Section Dict.
Context {K V : Type} (eqb : K -> K -> bool).

Fixpoint dict_get (k : K) (d : list (K * V)) : option V :=
  match d with
  | [] => None
  | (k', v) :: d' => if eqb k' k then Some v else dict_get k d'
  end.

Definition dict_mem (k : K) (d : list (K * V)) : bool :=
  match dict_get k d with
  | Some _ => true
  | None => false
  end.

(** [d[k] = v]: an existing key keeps its position (and its key object),
    a new key goes last. *)
Fixpoint dict_set (k : K) (v : V) (d : list (K * V)) : list (K * V) :=
  match d with
  | [] => [(k, v)]
  | (k', v') :: d' =>
      if eqb k' k then (k', v) :: d' else (k', v') :: dict_set k v d'
  end.

Definition dict_keys (d : list (K * V)) : list K := map fst d.
End Dict.

Definition sget {V : Type} := @dict_get string V String.eqb.
Definition smem {V : Type} := @dict_mem string V String.eqb.
Definition sset {V : Type} := @dict_set string V String.eqb.

(** ** Builtins *)

Definition is_nil {A : Type} (l : list A) : bool :=
  match l with
  | [] => true
  | _ :: _ => false
  end.

(** Truth value testing, as [bool(v)]. *)
Definition truthy (v : value) : bool :=
  match v with
  | VNone => false
  | VBool b => b
  | VInt z => negb (Z.eqb z 0)
  | VStr s => negb (String.eqb s "")
  | VList l => negb (is_nil l)
  | VDict d => negb (is_nil d)
  end.

Definition is_dict (v : value) : bool :=
  match v with
  | VDict _ => true
  | _ => false
  end.

Definition hashable (v : value) : bool :=
  match v with
  | VList _ | VDict _ => false
  | _ => true
  end.

(** [a == b].  [True == 1]; lists compare element by element; mappings
    of the same size compare as sets of items (the keys of a mapping are
    distinct). *)
Fixpoint py_eq (a b : value) {struct a} : bool :=
  match a, b with
  | VNone, VNone => true
  | VBool x, VBool y => Bool.eqb x y
  | VBool x, VInt y => Z.eqb (Z.b2z x) y
  | VInt x, VBool y => Z.eqb x (Z.b2z y)
  | VInt x, VInt y => Z.eqb x y
  | VStr x, VStr y => String.eqb x y
  | VList xs, VList ys =>
      (fix go (xs ys : list value) {struct xs} : bool :=
         match xs, ys with
         | [], [] => true
         | x :: xs', y :: ys' => py_eq x y && go xs' ys'
         | _, _ => false
         end) xs ys
  | VDict d1, VDict d2 =>
      Nat.eqb (length d1) (length d2) &&
      (fix go (d : list (string * value)) {struct d} : bool :=
         match d with
         | [] => true
         | (k, v) :: d' =>
             existsb (fun kw => String.eqb (fst kw) k && py_eq v (snd kw)) d2
             && go d'
         end) d1
  | _, _ => false
  end.

Definition string_chars (s : string) : list value :=
  map (fun c => VStr (String c EmptyString)) (list_ascii_of_string s).

(** [iter(v)]: the elements of a list, the keys of a mapping, the
    characters of a string. *)
Definition py_iter (v : value) : result (list value) :=
  match v with
  | VList l => Ok l
  | VDict d => Ok (map (fun kv => VStr (fst kv)) d)
  | VStr s => Ok (string_chars s)
  | _ => Raise (TypeError "object is not iterable")
  end.

Fixpoint is_substring (t s : string) : bool :=
  String.prefix t s ||
  match s with
  | EmptyString => false
  | String _ s' => is_substring t s'
  end.

(** [x in c]. *)
Definition py_in (x c : value) : result bool :=
  match c with
  | VDict d =>
      match x with
      | VStr k => Ok (smem k d)
      | VList _ | VDict _ => Raise (TypeError "unhashable type")
      | _ => Ok false
      end
  | VList l => Ok (existsb (py_eq x) l)
  | VStr s =>
      match x with
      | VStr t => Ok (is_substring t s)
      | _ => Raise (TypeError "'in <string>' requires string as left operand")
      end
  | _ => Raise (TypeError "argument is not iterable")
  end.

Definition index_of (i : Z) (len : nat) : option nat :=
  let n := Z.of_nat len in
  if (0 <=? i)%Z && (i <? n)%Z then Some (Z.to_nat i)
  else if (i <? 0)%Z && (0 <=? i + n)%Z then Some (Z.to_nat (i + n))
  else None.

Definition seq_item (i : Z) (l : list value) : result value :=
  match index_of i (length l) with
  | Some n =>
      match nth_error l n with
      | Some v => Ok v
      | None => Raise (IndexError "index out of range")
      end
  | None => Raise (IndexError "index out of range")
  end.

(** [c[k]]. *)
Definition py_getitem (c k : value) : result value :=
  match c with
  | VDict d =>
      match k with
      | VStr s =>
          match sget s d with
          | Some v => Ok v
          | None => Raise (KeyError k)
          end
      | VList _ | VDict _ => Raise (TypeError "unhashable type")
      | _ => Raise (KeyError k)
      end
  | VList l =>
      match k with
      | VInt i => seq_item i l
      | VBool b => seq_item (Z.b2z b) l
      | _ => Raise (TypeError "list indices must be integers or slices")
      end
  | VStr s =>
      match k with
      | VInt i => seq_item i (string_chars s)
      | VBool b => seq_item (Z.b2z b) (string_chars s)
      | _ => Raise (TypeError "string indices must be integers")
      end
  | _ => Raise (TypeError "object is not subscriptable")
  end.

(** [o.get(k, default)]: only a mapping has the method. *)
Definition py_get (o : value) (k : string) (default : value) : result value :=
  match o with
  | VDict d =>
      match sget k d with
      | Some v => Ok v
      | None => Ok default
      end
  | _ => Raise (AttributeError "get")
  end.

(** [o.items()]. *)
Definition py_items (o : value) : result (list (string * value)) :=
  match o with
  | VDict d => Ok d
  | _ => Raise (AttributeError "items")
  end.

(** [set(v)]: the elements must be hashable. *)
Definition py_set (v : value) : result (list value) :=
  match py_iter v with
  | inl e => inl e
  | inr xs =>
      if forallb hashable xs then Ok xs else Raise (TypeError "unhashable type")
  end.

(** [x in s] for a set [s]. *)
Definition py_in_set (x : value) (s : list value) : result bool :=
  if hashable x then Ok (existsb (py_eq x) s)
  else Raise (TypeError "unhashable type").

(** ** Text *)

Definition is_upper (c : ascii) : bool :=
  let n := nat_of_ascii c in (65 <=? n)%nat && (n <=? 90)%nat.

Definition is_lower (c : ascii) : bool :=
  let n := nat_of_ascii c in (97 <=? n)%nat && (n <=? 122)%nat.

Definition lower_char (c : ascii) : ascii :=
  if is_upper c then ascii_of_nat (nat_of_ascii c + 32) else c.

Definition upper_char (c : ascii) : ascii :=
  if is_lower c then ascii_of_nat (nat_of_ascii c - 32) else c.

Fixpoint lower (s : string) : string :=
  match s with
  | EmptyString => EmptyString
  | String c s' => String (lower_char c) (lower s')
  end.

Fixpoint upper (s : string) : string :=
  match s with
  | EmptyString => EmptyString
  | String c s' => String (upper_char c) (upper s')
  end.

(** The ASCII characters for which [str.isspace] holds. *)
Definition is_space (c : ascii) : bool :=
  let n := nat_of_ascii c in
  ((9 <=? n)%nat && (n <=? 13)%nat) || ((28 <=? n)%nat && (n <=? 32)%nat).

Fixpoint lstrip (s : string) : string :=
  match s with
  | EmptyString => EmptyString
  | String c s' => if is_space c then lstrip s' else s
  end.

Fixpoint rstrip (s : string) : string :=
  match s with
  | EmptyString => EmptyString
  | String c s' =>
      match rstrip s' with
      | EmptyString => if is_space c then EmptyString else String c EmptyString
      | t => String c t
      end
  end.

Definition strip (s : string) : string := rstrip (lstrip s).

Definition startswith (s p : string) : bool := String.prefix p s.

(** ** app/core/rules.py *)

Module Rules.

Definition BREAKING_RULES : list (string * string) :=
  [ ("endpoint_removed", "Endpoint removed");
    ("method_removed", "HTTP method removed");
    ("required_parameter_added", "Required request parameter added");
    ("parameter_removed", "Parameter removed");
    ("parameter_type_changed", "Parameter type changed");
    ("required_field_added", "Required request body field added");
    ("field_removed", "Request/response field removed");
    ("field_type_changed", "Field type changed");
    ("enum_value_removed", "Enum value removed");
    ("success_response_removed", "Success response (2xx) removed") ].

Definition POTENTIALLY_BREAKING_RULES : list (string * string) :=
  [ ("non_2xx_response_removed", "Non-2xx response removed");
    ("enum_value_added", "Enum value added");
    ("default_value_removed", "Default value removed") ].

Definition NON_BREAKING_RULES : list (string * string) :=
  [ ("endpoint_added", "New endpoint");
    ("method_added", "New HTTP method");
    ("optional_parameter_added", "New optional parameter");
    ("optional_field_added", "New optional request field");
    ("response_field_added", "New response field");
    ("metadata_changed", "Metadata-only changes") ].

Definition classify_change (rule_type : string) : string :=
  if smem rule_type BREAKING_RULES then "breaking"
  else if smem rule_type POTENTIALLY_BREAKING_RULES then "potentially_breaking"
  else if smem rule_type NON_BREAKING_RULES then "non_breaking"
  else "potentially_breaking".

(** [table.get(k) or rest]: a missing or empty message falls through. *)
Definition get_or (table : list (string * string)) (k : string)
    (rest : string) : string :=
  match sget k table with
  | Some m => if String.eqb m "" then rest else m
  | None => rest
  end.

Definition get_rule_message (rule_type : string) : string :=
  get_or BREAKING_RULES rule_type
    (get_or POTENTIALLY_BREAKING_RULES rule_type
       (get_or NON_BREAKING_RULES rule_type "Unknown change")).

End Rules.

(** ** app/models/change.py *)

(** The dataclass does not check its annotations: [path] and [field] hold
    whatever key the differ was iterating over. *)
Record Change : Type := mkChange {
  type : string;
  category : string;
  path : value;
  method : option string;
  field : option value;
  message : string
}.

Definition opt_str (o : option string) : value :=
  match o with
  | Some s => VStr s
  | None => VNone
  end.

Definition opt_val (o : option value) : value :=
  match o with
  | Some v => v
  | None => VNone
  end.

(** [Change.to_dict], that is [dataclasses.asdict]. *)
Definition to_dict (c : Change) : value :=
  VDict [ ("type", VStr (type c));
          ("category", VStr (category c));
          ("path", path c);
          ("method", opt_str (method c));
          ("field", opt_val (field c));
          ("message", VStr (message c)) ].

(** ** app/core/classifier.py *)

Module Classifier.
Import Rules.

Definition classify_endpoint_removal (path : value) : Change :=
  mkChange "breaking" "endpoint" path None None
    (get_rule_message "endpoint_removed").

Definition classify_endpoint_addition (path : value) : Change :=
  mkChange "non_breaking" "endpoint" path None None
    (get_rule_message "endpoint_added").

Definition classify_method_removal (path : value) (method : string) : Change :=
  mkChange "breaking" "method" path (Some (upper method)) None
    (get_rule_message "method_removed").

Definition classify_method_addition (path : value) (method : string) : Change :=
  mkChange "non_breaking" "method" path (Some (upper method)) None
    (get_rule_message "method_added").

Definition classify_parameter_change (path : value) (method : string)
    (param_name : value) (change_type : string) (is_required : value) : Change :=
  if String.eqb change_type "removed" then
    mkChange "breaking" "parameter" path (Some (upper method))
      (Some param_name) (get_rule_message "parameter_removed")
  else if String.eqb change_type "added" then
    if truthy is_required then
      mkChange "breaking" "parameter" path (Some (upper method))
        (Some param_name) (get_rule_message "required_parameter_added")
    else
      mkChange "non_breaking" "parameter" path (Some (upper method))
        (Some param_name) (get_rule_message "optional_parameter_added")
  else if String.eqb change_type "type_changed" then
    mkChange "breaking" "parameter" path (Some (upper method))
      (Some param_name) (get_rule_message "parameter_type_changed")
  else
    mkChange "potentially_breaking" "parameter" path (Some (upper method))
      (Some param_name) "Parameter changed".

Definition classify_schema_change (path : value) (method : string)
    (field_name : value) (change_type : string) (is_required : value) : Change :=
  if String.eqb change_type "removed" then
    mkChange "breaking" "schema" path (Some (upper method))
      (Some field_name) (get_rule_message "field_removed")
  else if String.eqb change_type "added" then
    if truthy is_required then
      mkChange "breaking" "schema" path (Some (upper method))
        (Some field_name) (get_rule_message "required_field_added")
    else
      mkChange "non_breaking" "schema" path (Some (upper method))
        (Some field_name) (get_rule_message "optional_field_added")
  else if String.eqb change_type "type_changed" then
    mkChange "breaking" "schema" path (Some (upper method))
      (Some field_name) (get_rule_message "field_type_changed")
  else
    mkChange "potentially_breaking" "schema" path (Some (upper method))
      (Some field_name) "Field changed".

Definition classify_response_change (path : value) (method : string)
    (status_code : string) (change_type : string) : Change :=
  let field := Some (VStr ("Response " ++ status_code)) in
  if String.eqb change_type "removed" then
    if startswith status_code "2" then
      mkChange "breaking" "response" path (Some (upper method)) field
        (get_rule_message "success_response_removed")
    else
      mkChange "potentially_breaking" "response" path (Some (upper method))
        field (get_rule_message "non_2xx_response_removed")
  else if String.eqb change_type "added" then
    mkChange "non_breaking" "response" path (Some (upper method)) field
      "New response status"
  else
    mkChange "potentially_breaking" "response" path (Some (upper method))
      field "Response changed".

End Classifier.

(** ** app/core/parser.py *)

Module Parser.
Section WithDecoders.
(** [json.loads] and [yaml.safe_load]: the decoded value, or the text of
    the [JSONDecodeError] / [YAMLError]. *)
Variable json_loads : string -> string + value.
Variable yaml_safe_load : string -> string + value.

Definition _validate_spec (spec : value) : result unit :=
  (openapi_version <- py_get spec "openapi" VNone ;;
   swagger_version <- py_get spec "swagger" VNone ;;
   if negb (truthy openapi_version) && negb (truthy swagger_version) then
     Raise (ParseError
       "Specification must include 'openapi' (v3.x) or 'swagger' (v2.0) field")
   else
     info <- py_get spec "info" VNone ;;
     if negb (truthy info) then
       Raise (ParseError "Specification must include 'info' field")
     else
       paths <- py_get spec "paths" VNone ;;
       if negb (truthy paths) then
         Raise (ParseError "Specification must include 'paths' field")
       else Ok tt)%result.

(** The [ParseError] for an unsupported file type is raised inside the
    [try] and re-wrapped by its last handler. *)
Definition decode (content file_type : string) : result value :=
  if String.eqb (lower file_type) "json" then
    match json_loads content with
    | inl e => Raise (ParseError ("Invalid JSON: " ++ e))
    | inr spec => Ok spec
    end
  else if String.eqb (lower file_type) "yaml"
          || String.eqb (lower file_type) "yml" then
    match yaml_safe_load content with
    | inl e => Raise (ParseError ("Invalid YAML: " ++ e))
    | inr spec => Ok spec
    end
  else
    Raise (ParseError ("Failed to parse specification: "
                       ++ "Unsupported file type: " ++ file_type)).

Definition parse (content file_type : string) : result value :=
  if String.eqb content "" || String.eqb (strip content) "" then
    Raise (ParseError "Specification is empty")
  else
    (spec <- decode content file_type ;;
     if negb (is_dict spec) then
       Raise (ParseError "Specification must be a JSON object")
     else
       _ <- _validate_spec spec ;;
       Ok spec)%result.
End WithDecoders.

Definition detect_format (content : string) : string :=
  let content := strip content in
  if startswith content "{" then "json" else "yaml".

End Parser.

(** ** app/core/normalizer.py *)

Module Normalizer.

Definition methods : list string :=
  ["get"; "post"; "put"; "delete"; "patch"; "options"; "head"].

Definition is_method (s : string) : bool := existsb (String.eqb s) methods.

(** The inner loop of [_normalize_paths_openapi3] and
    [_normalize_paths_swagger2]: [normalized[path][method.lower()] =
    operation] for each item whose lower-cased key is a method. *)
Definition normalize_path_item (items : list (string * value))
    : list (string * value) :=
  fold_left
    (fun acc kv =>
       if is_method (lower (fst kv)) then sset (lower (fst kv)) (snd kv) acc
       else acc)
    items [].

Fixpoint normalize_paths_loop (items : list (string * value))
    (normalized : list (string * value)) : result (list (string * value)) :=
  match items with
  | [] => Ok normalized
  | (path, path_item) :: rest =>
      (ops <- py_items path_item ;;
       normalize_paths_loop rest
         (sset path (VDict (normalize_path_item ops)) normalized))%result
  end.

Definition _normalize_paths_openapi3 (paths : value) : result value :=
  (items <- py_items paths ;;
   normalized <- normalize_paths_loop items [] ;;
   Ok (VDict normalized))%result.

Definition _normalize_paths_swagger2 (paths : value) : result value :=
  (items <- py_items paths ;;
   normalized <- normalize_paths_loop items [] ;;
   Ok (VDict normalized))%result.

Definition _normalize_openapi_3 (spec : value) : result value :=
  (version <- py_get spec "openapi" (VStr "3.0.0") ;;
   info <- py_get spec "info" (VDict []) ;;
   raw <- py_get spec "paths" (VDict []) ;;
   paths <- _normalize_paths_openapi3 raw ;;
   components <- py_get spec "components" (VDict []) ;;
   Ok (VDict [ ("version", version); ("info", info); ("paths", paths);
               ("components", components) ]))%result.

Definition _normalize_swagger_2 (spec : value) : result value :=
  (version <- py_get spec "swagger" (VStr "2.0") ;;
   info <- py_get spec "info" (VDict []) ;;
   raw <- py_get spec "paths" (VDict []) ;;
   paths <- _normalize_paths_swagger2 raw ;;
   definitions <- py_get spec "definitions" (VDict []) ;;
   Ok (VDict [ ("version", version); ("info", info); ("paths", paths);
               ("definitions", definitions) ]))%result.

Definition normalize (spec : value) : result value :=
  (is_swagger_2 <- py_in (VStr "swagger") spec ;;
   is_openapi_3 <- py_in (VStr "openapi") spec ;;
   if is_swagger_2 then _normalize_swagger_2 spec
   else if is_openapi_3 then _normalize_openapi_3 spec
   else Ok spec)%result.

(** [params]: the four locations, each a dictionary from a parameter name
    (any hashable value) to its record. *)
Definition params_t : Type := list (string * list (value * value)).

Definition empty_params : params_t :=
  [ ("query", []); ("path", []); ("header", []); ("body", []) ].

(** [params[param_in][param_name] = info]: the right-hand side is already
    evaluated; [params[param_in]] raises for an unhashable or unknown
    location, the store for an unhashable name. *)
Definition params_store (params : params_t) (param_in param_name info : value)
    : result params_t :=
  match param_in with
  | VList _ | VDict _ => Raise (TypeError "unhashable type")
  | VStr loc =>
      match sget loc params with
      | None => Raise (KeyError param_in)
      | Some inner =>
          if hashable param_name then
            Ok (sset loc (dict_set py_eq param_name info inner) params)
          else Raise (TypeError "unhashable type")
      end
  | _ => Raise (KeyError param_in)
  end.

Fixpoint parameters_loop (is_openapi3 : bool) (ps : list value)
    (params : params_t) : result params_t :=
  match ps with
  | [] => Ok params
  | param :: rest =>
      (param_in <- py_get param "in" VNone ;;
       param_name <- py_get param "name" VNone ;;
       if truthy param_in && truthy param_name then
         required <- py_get param "required" (VBool false) ;;
         info <- (if is_openapi3 then
                    schema <- py_get param "schema" (VDict []) ;;
                    Ok (VDict [("required", required); ("schema", schema)])
                  else
                    ty <- py_get param "type" VNone ;;
                    Ok (VDict [("required", required); ("type", ty)])) ;;
         params' <- params_store params param_in param_name info ;;
         parameters_loop is_openapi3 rest params'
       else parameters_loop is_openapi3 rest params)%result
  end.

Fixpoint content_loop (request_body : value) (items : list (string * value))
    (params : params_t) : result params_t :=
  match items with
  | [] => Ok params
  | (content_type, content_spec) :: rest =>
      (schema <- py_get content_spec "schema" (VDict []) ;;
       required <- py_get request_body "required" (VBool false) ;;
       params' <- params_store params (VStr "body") (VStr content_type)
                    (VDict [("required", required); ("schema", schema)]) ;;
       content_loop request_body rest params')%result
  end.

Definition extract_parameters (operation : value) (is_openapi3 : bool)
    : result params_t :=
  (declared <- py_get operation "parameters" (VList []) ;;
   ps <- py_iter declared ;;
   params <- parameters_loop is_openapi3 ps empty_params ;;
   if is_openapi3 then
     request_body <- py_get operation "requestBody" (VDict []) ;;
     if truthy request_body then
       content <- py_get request_body "content" (VDict []) ;;
       items <- py_items content ;;
       content_loop request_body items params
     else Ok params
   else Ok params)%result.

Definition extract_responses (operation : value)
    : result (list (string * value)) :=
  (declared <- py_get operation "responses" (VDict []) ;;
   items <- py_items declared ;;
   Ok (fold_left (fun responses kv => sset (fst kv) (snd kv) responses)
         items []))%result.

End Normalizer.

(** ** app/core/differ.py *)

(** The differ's methods return nothing and append to [self.changes]: a
    computation takes the list of changes so far and returns its value with
    the new list, or raises (the list is then lost with the call). *)
Definition M (A : Type) : Type := list Change -> result (A * list Change).

Definition ret {A : Type} (a : A) : M A := fun s => Ok (a, s).

Definition bind {A B : Type} (m : M A) (k : A -> M B) : M B :=
  fun s =>
    match m s with
    | inl e => inl e
    | inr (a, s') => k a s'
    end.

Definition lift {A : Type} (r : result A) : M A :=
  fun s =>
    match r with
    | inl e => inl e
    | inr a => Ok (a, s)
    end.

(** [self.changes.append(c)] *)
Definition append (c : Change) : M unit := fun s => Ok (tt, s ++ [c]).

(** [self.changes = []] *)
Definition reset : M unit := fun _ => Ok (tt, []).

(** [self.changes] *)
Definition get_changes : M (list Change) := fun s => Ok (s, s).

Declare Scope differ_scope.
Delimit Scope differ_scope with differ.
Notation "x <- m ;; k" := (bind m (fun x => k))
  (at level 100, m at next level, right associativity) : differ_scope.
Notation "m ;; k" := (bind m (fun _ => k))
  (at level 100, right associativity) : differ_scope.

(** [for x in xs: body] *)
Fixpoint for_each {A : Type} (xs : list A) (body : A -> M unit) : M unit :=
  match xs with
  | [] => ret tt
  | x :: xs' => bind (body x) (fun _ => for_each xs' body)
  end.

Module Differ.
Import Classifier Normalizer.

Section WithStr.
(** The builtin [str]. *)
Variable py_str : value -> string.

Definition nonempty (s : string) : bool := negb (String.eqb s "").

(** [d[k]] for a dictionary of the differ's own. *)
Definition item {K V : Type} (eqb : K -> K -> bool) (key_of : K -> value)
    (k : K) (d : list (K * V)) : result V :=
  match dict_get eqb k d with
  | Some v => Ok v
  | None => Raise (KeyError (key_of k))
  end.

Definition _diff_endpoints (old_paths new_paths : value) : M unit :=
  (olds <- lift (py_iter old_paths) ;;
   for_each olds (fun path =>
     present <- lift (py_in path new_paths) ;;
     if present then ret tt
     else append (classify_endpoint_removal path)) ;;
   news <- lift (py_iter new_paths) ;;
   for_each news (fun path =>
     present <- lift (py_in path old_paths) ;;
     if present then ret tt
     else append (classify_endpoint_addition path)))%differ.

(** [str(p.get("schema") or p.get("type", ""))] *)
Definition param_type (p : value) : result string :=
  (schema <- py_get p "schema" VNone ;;
   if truthy schema then Ok (py_str schema)
   else
     ty <- py_get p "type" (VStr "") ;;
     Ok (py_str ty))%result.

Definition _diff_parameters (path : value) (method : string)
    (old_op new_op : value) (is_openapi3 : bool) : M unit :=
  (old_params <- lift (extract_parameters old_op is_openapi3) ;;
   new_params <- lift (extract_parameters new_op is_openapi3) ;;
   for_each ["query"; "path"; "header"] (fun param_in =>
     let old_in_params :=
       match sget param_in old_params with Some d => d | None => [] end in
     let new_in_params :=
       match sget param_in new_params with Some d => d | None => [] end in
     for_each (dict_keys old_in_params) (fun param_name =>
       if dict_mem py_eq param_name new_in_params then ret tt
       else append (classify_parameter_change path method param_name
                      "removed" (VBool false))) ;;
     for_each (dict_keys new_in_params) (fun param_name =>
       if dict_mem py_eq param_name old_in_params then ret tt
       else
         new_param <- lift (item py_eq id param_name new_in_params) ;;
         is_required <- lift (py_get new_param "required" (VBool false)) ;;
         append (classify_parameter_change path method param_name
                   "added" is_required)) ;;
     for_each (dict_keys old_in_params) (fun param_name =>
       if dict_mem py_eq param_name new_in_params then
         old_param <- lift (item py_eq id param_name old_in_params) ;;
         new_param <- lift (item py_eq id param_name new_in_params) ;;
         old_type <- lift (param_type old_param) ;;
         new_type <- lift (param_type new_param) ;;
         if negb (String.eqb old_type new_type)
            && nonempty old_type && nonempty new_type
         then append (classify_parameter_change path method param_name
                        "type_changed" (VBool false))
         else ret tt
       else ret tt)))%differ.

Definition _diff_schema (path : value) (method : string)
    (old_schema new_schema : value) (location : string) : M unit :=
  (old_props <- lift (py_get old_schema "properties" (VDict [])) ;;
   new_props <- lift (py_get new_schema "properties" (VDict [])) ;;
   old_required <- lift (rbind (py_get old_schema "required" (VList [])) py_set) ;;
   new_required <- lift (rbind (py_get new_schema "required" (VList [])) py_set) ;;
   olds <- lift (py_iter old_props) ;;
   for_each olds (fun prop_name =>
     present <- lift (py_in prop_name new_props) ;;
     if present then ret tt
     else append (classify_schema_change path method prop_name
                    "removed" (VBool false))) ;;
   news <- lift (py_iter new_props) ;;
   for_each news (fun prop_name =>
     present <- lift (py_in prop_name old_props) ;;
     if present then ret tt
     else
       is_required <- lift (py_in_set prop_name new_required) ;;
       append (classify_schema_change path method prop_name
                 "added" (VBool is_required))) ;;
   olds' <- lift (py_iter old_props) ;;
   for_each olds' (fun prop_name =>
     present <- lift (py_in prop_name new_props) ;;
     if present then
       old_prop <- lift (py_getitem old_props prop_name) ;;
       old_prop_type <- lift (py_get old_prop "type" (VStr "")) ;;
       new_prop <- lift (py_getitem new_props prop_name) ;;
       new_prop_type <- lift (py_get new_prop "type" (VStr "")) ;;
       if negb (String.eqb (py_str old_prop_type) (py_str new_prop_type))
          && nonempty (py_str old_prop_type)
          && nonempty (py_str new_prop_type)
       then append (classify_schema_change path method prop_name
                      "type_changed" (VBool false))
       else ret tt
     else ret tt))%differ.

(** The loop of [_extract_schema_from_request_body]: the first schema
    that is true. *)
Fixpoint first_schema (items : list (string * value)) : result value :=
  match items with
  | [] => Ok (VDict [])
  | (content_type, content_spec) :: rest =>
      (schema <- py_get content_spec "schema" (VDict []) ;;
       if truthy schema then Ok schema else first_schema rest)%result
  end.

Definition _extract_schema_from_request_body (request_body : value)
    : result value :=
  if negb (truthy request_body) then Ok (VDict [])
  else
    (content <- py_get request_body "content" (VDict []) ;;
     items <- py_items content ;;
     first_schema items)%result.

Definition _diff_request_body (path : value) (method : string)
    (old_op new_op : value) : M unit :=
  (old_body <- lift (py_get old_op "requestBody" (VDict [])) ;;
   new_body <- lift (py_get new_op "requestBody" (VDict [])) ;;
   if negb (truthy old_body) && negb (truthy new_body) then ret tt
   else
     old_schema <- lift (_extract_schema_from_request_body old_body) ;;
     new_schema <- lift (_extract_schema_from_request_body new_body) ;;
     if negb (truthy old_schema) || negb (truthy new_schema) then ret tt
     else _diff_schema path method old_schema new_schema "body")%differ.

Definition _diff_responses (path : value) (method : string)
    (old_op new_op : value) : M unit :=
  (old_responses <- lift (extract_responses old_op) ;;
   new_responses <- lift (extract_responses new_op) ;;
   for_each (dict_keys old_responses) (fun status_code =>
     if smem status_code new_responses then ret tt
     else append (classify_response_change path method status_code
                    "removed")) ;;
   for_each (dict_keys new_responses) (fun status_code =>
     if smem status_code old_responses then ret tt
     else append (classify_response_change path method status_code
                    "added")))%differ.

Definition _diff_operation (path : value) (method : string)
    (old_op new_op : value) : M unit :=
  (has_parameters <- lift (py_in (VStr "parameters") old_op) ;;
   is_openapi3 <- (if has_parameters : bool then ret true
                   else lift (py_in (VStr "requestBody") old_op)) ;;
   _diff_parameters path method old_op new_op is_openapi3 ;;
   (if is_openapi3 : bool then _diff_request_body path method old_op new_op
    else ret tt) ;;
   _diff_responses path method old_op new_op)%differ.

(** The dictionary comprehension that selects the methods of a path
    item. *)
Definition select_methods (items : list (string * value))
    : list (string * value) :=
  filter (fun kv => is_dict (snd kv) && is_method (lower (fst kv))) items.

Definition _diff_operations (old_paths new_paths : value) : M unit :=
  (olds <- lift (py_iter old_paths) ;;
   for_each olds (fun path =>
     present <- lift (py_in path new_paths) ;;
     if negb present then ret tt
     else
       old_path_item <- lift (py_getitem old_paths path) ;;
       new_path_item <- lift (py_getitem new_paths path) ;;
       old_items <- lift (py_items old_path_item) ;;
       new_items <- lift (py_items new_path_item) ;;
       let old_methods := select_methods old_items in
       let new_methods := select_methods new_items in
       for_each (dict_keys old_methods) (fun method =>
         if smem method new_methods then ret tt
         else append (classify_method_removal path method)) ;;
       for_each (dict_keys new_methods) (fun method =>
         if smem method old_methods then ret tt
         else append (classify_method_addition path method)) ;;
       for_each (dict_keys old_methods) (fun method =>
         if smem method new_methods then
           old_op <- lift (item String.eqb VStr method old_methods) ;;
           new_op <- lift (item String.eqb VStr method new_methods) ;;
           _diff_operation path method old_op new_op
         else ret tt)))%differ.

Definition diff_body (old_spec new_spec : value) : M (list Change) :=
  (reset ;;
   old_normalized <- lift (normalize old_spec) ;;
   new_normalized <- lift (normalize new_spec) ;;
   old_paths <- lift (py_get old_normalized "paths" (VDict [])) ;;
   new_paths <- lift (py_get new_normalized "paths" (VDict [])) ;;
   _diff_endpoints old_paths new_paths ;;
   _diff_operations old_paths new_paths ;;
   get_changes)%differ.

(** [Differ().diff(old_spec, new_spec)]: a fresh differ starts with no
    changes. *)
Definition diff (old_spec new_spec : value) : result (list Change) :=
  match diff_body old_spec new_spec [] with
  | inl e => inl e
  | inr (changes, _) => Ok changes
  end.
End WithStr.
End Differ.

(** ** app/services/diff_service.py *)

Record DiffResult : Type := mkDiffResult {
  summary : list (string * Z);
  changes : list value
}.

Module DiffService.
Import Parser.

(** [summary[k] += 1] *)
Definition incr (k : string) (summary : list (string * Z))
    : list (string * Z) :=
  match sget k summary with
  | Some n => sset k (n + 1)%Z summary
  | None => summary
  end.

Definition _build_result (changes : list Change) : DiffResult :=
  let summary :=
    fold_left
      (fun summary change =>
         if String.eqb (type change) "breaking" then
           incr "breaking" summary
         else if String.eqb (type change) "potentially_breaking" then
           incr "potentially_breaking" summary
         else if String.eqb (type change) "non_breaking" then
           incr "non_breaking" summary
         else summary)
      changes
      [ ("breaking", 0%Z); ("potentially_breaking", 0%Z);
        ("non_breaking", 0%Z) ] in
  mkDiffResult summary (map to_dict changes).

(** The default of [old_format] and of [new_format]. *)
Definition default_format : string := "json".

Section WithLibraries.
Variable json_loads : string -> string + value.
Variable yaml_safe_load : string -> string + value.
Variable py_str : value -> string.

Definition resolve_format (format content : string) : string :=
  if String.eqb format "" || String.eqb format "auto"
  then detect_format content else format.

Definition compare_specs (old_content new_content old_format new_format
    : string) : result DiffResult :=
  let old_format := resolve_format old_format old_content in
  let new_format := resolve_format new_format new_content in
  match
    (old_spec <- parse json_loads yaml_safe_load old_content old_format ;;
     new_spec <- parse json_loads yaml_safe_load new_content new_format ;;
     changes <- Differ.diff py_str old_spec new_spec ;;
     Ok (_build_result changes))%result
  with
  | inr result => Ok result
  | inl (ParseError msg) =>
      Raise (ValueError "Specification parsing error: " (ParseError msg))
  | inl e => Raise (ValueError "Unexpected error during comparison: " e)
  end.

(** [compare_specs(old_content, new_content)] *)
Definition compare_specs_default (old_content new_content : string)
    : result DiffResult :=
  compare_specs old_content new_content default_format default_format.
End WithLibraries.
End DiffService.

(** ** Vocabulary of the properties *)

(** What a computation of the differ adds to the list of changes: whenever
    [m] returns [a] from a list [s], the new list is [s ++ out] with
    [R a out]. *)
Definition emits {A : Type} (m : M A) (R : A -> list Change -> Prop) : Prop :=
  forall s a s', m s = inr (a, s') -> exists out, s' = s ++ out /\ R a out.

Definition severities : list string :=
  ["breaking"; "potentially_breaking"; "non_breaking"].


(** A change of the endpoint step. *)
Definition endpoint_level (c : Change) : Prop :=
  category c = "endpoint" /\ method c = None /\ field c = None /\
  In (type c) severities.

(** A change of the method step for [path] and the method key [m]. *)
Definition method_level (p : value) (m : string) (c : Change) : Prop :=
  category c = "method" /\ path c = p /\ method c = Some (upper m) /\
  In (type c) severities.

(** A change found inside the operation of [path] under the method key
    [m]. *)
Definition operation_level (p : value) (m : string) (c : Change) : Prop :=
  In (category c) ["parameter"; "schema"; "response"] /\ path c = p /\
  method c = Some (upper m) /\ In (type c) severities.

(** [summary[k]] of a result. *)
Definition count (k : string) (r : DiffResult) : Z :=
  match sget k (summary r) with
  | Some n => n
  | None => 0%Z
  end.

(** The membership tests of the differ's loops, on a run that returned. *)
Definition absent_from (c x : value) : bool :=
  match py_in x c with
  | inr false => true
  | _ => false
  end.

Definition present_in (c x : value) : bool :=
  match py_in x c with
  | inr true => true
  | _ => false
  end.

(** The [paths] the differ walks: those of the normalized document. *)
Definition paths_of (spec : value) : result value :=
  (normalized <- Normalizer.normalize spec ;;
   py_get normalized "paths" (VDict []))%result.

(** [paths[p].items()] *)
Definition path_items (paths p : value) : result (list (string * value)) :=
  rbind (py_getitem paths p) py_items.

Definition endpoint_changes (old_paths new_paths : value)
    (olds news : list value) : list Change :=
  map Classifier.classify_endpoint_removal (filter (absent_from new_paths) olds)
  ++ map Classifier.classify_endpoint_addition
       (filter (absent_from old_paths) news).

Definition method_changes (p : value) (old_methods new_methods
    : list (string * value)) : list Change :=
  map (Classifier.classify_method_removal p)
    (filter (fun m => negb (smem m new_methods)) (dict_keys old_methods))
  ++ map (Classifier.classify_method_addition p)
       (filter (fun m => negb (smem m old_methods)) (dict_keys new_methods)).

Definition common_methods (old_methods new_methods : list (string * value))
    : list string :=
  filter (fun m => smem m new_methods) (dict_keys old_methods).

(** What the differ emits for one path present in both documents: the
    method changes of the path, then, for each method of both in the old
    key order, the changes inside its operation. *)
Definition path_block (old_paths new_paths p : value) (block : list Change)
    : Prop :=
  exists old_items new_items op_blocks,
    path_items old_paths p = inr old_items /\
    path_items new_paths p = inr new_items /\
    block = method_changes p (Differ.select_methods old_items)
              (Differ.select_methods new_items) ++ concat op_blocks /\
    Forall2 (fun m ops => Forall (operation_level p m) ops)
      (common_methods (Differ.select_methods old_items)
         (Differ.select_methods new_items))
      op_blocks.

(** The order of the changes of a comparison: the endpoint changes, then
    one block per path present in both documents, in the old key order. *)
Definition diff_shape (old_paths new_paths : value) (cs : list Change)
    : Prop :=
  exists olds news blocks,
    py_iter old_paths = inr olds /\
    py_iter new_paths = inr news /\
    cs = endpoint_changes old_paths new_paths olds news ++ concat blocks /\
    Forall2 (path_block old_paths new_paths)
      (filter (present_in new_paths) olds) blocks.

(** A change as the differ builds it: of the endpoint step, or carrying a
    method key [m] of a path item. *)
Definition keyed_change (c : Change) : Prop :=
  exists p m, Normalizer.is_method (lower m) = true /\
              (method_level p m c \/ operation_level p m c).

Definition well_formed_change (c : Change) : Prop :=
  endpoint_level c \/ keyed_change c.




(** ** Sample documents and library functions for the examples *)

(** A printer in the manner of [str], for the examples only: it does not
    escape quotes. *)
Fixpoint sample_repr (v : value) : string :=
  match v with
  | VNone => "None"
  | VBool true => "True"
  | VBool false => "False"
  | VInt z => DecimalString.NilZero.string_of_int (Z.to_int z)
  | VStr s => String.append "'" (String.append s "'")
  | VList l =>
      String.append "[" (String.append (String.concat ", " (map sample_repr l)) "]")
  | VDict d =>
      String.append "{"
        (String.append
           (String.concat ", "
              (map (fun kv : string * value =>
                      match kv with
                      | (k, x) =>
                          String.append "'"
                            (String.append k (String.append "': " (sample_repr x)))
                      end) d))
           "}")
  end.

Definition sample_str (v : value) : string :=
  match v with
  | VStr s => s
  | _ => sample_repr v
  end.

Definition ok_response : value :=
  VDict [("200", VDict [("description", VStr "OK")])].

Definition id_parameter (ty : string) : value :=
  VDict [("name", VStr "id"); ("in", VStr "query");
         ("schema", VDict [("type", VStr ty)])].

Definition info_v1 : value :=
  VDict [("title", VStr "API"); ("version", VStr "1.0.0")].

(** [/users] (GET with a query parameter) and [/posts] (GET). *)
Definition api_v1 : value :=
  VDict [("openapi", VStr "3.0.0"); ("info", info_v1);
         ("paths", VDict [
            ("/users", VDict [
               ("get", VDict [("parameters", VList [id_parameter "string"]);
                              ("responses", ok_response)])]);
            ("/posts", VDict [
               ("get", VDict [("responses", ok_response)])])])].

(** [/posts] is gone, [/users] gains POST and the parameter changes type. *)
Definition api_v2 : value :=
  VDict [("openapi", VStr "3.0.0"); ("info", info_v1);
         ("paths", VDict [
            ("/users", VDict [
               ("get", VDict [("parameters", VList [id_parameter "integer"]);
                              ("responses", ok_response)]);
               ("post", VDict [
                  ("responses",
                   VDict [("201", VDict [("description", VStr "Created")])])])])])].

Definition api_v1_yaml : string :=
"openapi: 3.0.0
info: {title: API, version: 1.0.0}
paths:
  /users:
    get:
      parameters: [{name: id, in: query, schema: {type: string}}]
      responses: {'200': {description: OK}}
  /posts:
    get:
      responses: {'200': {description: OK}}
".

Definition api_v2_yaml : string :=
"openapi: 3.0.0
info: {title: API, version: 1.0.0}
paths:
  /users:
    get:
      parameters: [{name: id, in: query, schema: {type: integer}}]
      responses: {'200': {description: OK}}
    post:
      responses: {'201': {description: Created}}
".

(** Scenario 6 of the specification: no [paths]. *)
Definition no_paths : value :=
  VDict [("swagger", VStr "2.0"); ("info", info_v1)].

Definition no_paths_yaml : string :=
"swagger: '2.0'
info: {title: API, version: 1.0.0}
".

(** An OpenAPI v3 document with a cookie parameter. *)
Definition cookie_operation : value :=
  VDict [("parameters",
          VList [VDict [("name", VStr "sid"); ("in", VStr "cookie");
                        ("schema", VDict [("type", VStr "string")])]]);
         ("responses", ok_response)].

Definition cookie_api : value :=
  VDict [("openapi", VStr "3.0.0"); ("info", info_v1);
         ("paths", VDict [("/session", VDict [("get", cookie_operation)])])].

Definition cookie_api_yaml : string :=
"openapi: 3.0.0
info: {title: API, version: 1.0.0}
paths:
  /session:
    get:
      parameters: [{name: sid, in: cookie, schema: {type: string}}]
      responses: {'200': {description: OK}}
".

(** A Swagger v2 operation with a form parameter. *)
Definition form_operation : value :=
  VDict [("parameters",
          VList [VDict [("name", VStr "file"); ("in", VStr "formData");
                        ("type", VStr "file")]]);
         ("responses", ok_response)].

(** A document whose path item is a text, not a mapping. *)
Definition text_item_api : value :=
  VDict [("openapi", VStr "3.0.0"); ("info", info_v1);
         ("paths", VDict [("/users", VStr "listed elsewhere")])].

Definition text_item_api_yaml : string :=
"openapi: 3.0.0
info: {title: API, version: 1.0.0}
paths:
  /users: listed elsewhere
".

(** Two documents with [/notes]; the first also has [/gone], the second
    describes the request body of [/notes] by a text. *)
Definition notes_api : value :=
  VDict [("openapi", VStr "3.0.0"); ("info", info_v1);
         ("paths", VDict [
            ("/gone", VDict [("get", VDict [("responses", ok_response)])]);
            ("/notes", VDict [("post", VDict [("responses", ok_response)])])])].

Definition notes_api_yaml : string :=
"openapi: 3.0.0
info: {title: API, version: 1.0.0}
paths:
  /gone:
    get:
      responses: {'200': {description: OK}}
  /notes:
    post:
      responses: {'200': {description: OK}}
".

Definition wiki_notes_api : value :=
  VDict [("openapi", VStr "3.0.0"); ("info", info_v1);
         ("paths", VDict [
            ("/notes", VDict [
               ("post", VDict [("requestBody", VStr "see the wiki");
                               ("responses", ok_response)])])])].

Definition wiki_notes_api_yaml : string :=
"openapi: 3.0.0
info: {title: API, version: 1.0.0}
paths:
  /notes:
    post:
      requestBody: see the wiki
      responses: {'200': {description: OK}}
".

Definition sample_yaml_texts : list (string * value) :=
  [ (api_v1_yaml, api_v1); (api_v2_yaml, api_v2); (no_paths_yaml, no_paths);
    (cookie_api_yaml, cookie_api); (text_item_api_yaml, text_item_api);
    (notes_api_yaml, notes_api); (wiki_notes_api_yaml, wiki_notes_api) ].

(** The YAML decoder on the sample texts. *)
Definition sample_yaml_safe_load (content : string) : string + value :=
  match sget content sample_yaml_texts with
  | Some spec => inr spec
  | None => inl "could not find expected ':'"
  end.

(** None of the sample texts is JSON. *)
Definition sample_json_loads (content : string) : string + value :=
  inl "Expecting value: line 1 column 1 (char 0)".

(** The paths a comparison reports as removed and as added endpoints. *)
Definition is_endpoint_removed (c : Change) : bool :=
  String.eqb (category c) "endpoint" && String.eqb (type c) "breaking".

Definition is_endpoint_added (c : Change) : bool :=
  String.eqb (category c) "endpoint" && String.eqb (type c) "non_breaking".

Definition removed_paths (cs : list Change) : list value :=
  map path (filter is_endpoint_removed cs).

Definition added_paths (cs : list Change) : list value :=
  map path (filter is_endpoint_added cs).

(** The duality as the specification words it: for every pair of documents
    the parser accepts, both comparisons report, and the paths reported as
    removed by one are those reported as added by the other. *)
Definition duality_as_specified (json_loads yaml_safe_load
    : string -> string + value) (py_str : value -> string) : Prop :=
  forall (a b format_a format_b : string) (A B : value),
    Parser.parse json_loads yaml_safe_load a format_a = Ok A ->
    Parser.parse json_loads yaml_safe_load b format_b = Ok B ->
    exists cs1 cs2,
      Differ.diff py_str A B = Ok cs1 /\
      Differ.diff py_str B A = Ok cs2 /\
      (forall p, In p (removed_paths cs1) <-> In p (added_paths cs2)) /\
      (forall p, In p (added_paths cs1) <-> In p (removed_paths cs2)).

(** The step a change belongs to, and the order in which the steps are
    listed: endpoints, then methods, then operations. *)
Definition step_rank (c : Change) : nat :=
  if String.eqb (category c) "endpoint" then 0
  else if String.eqb (category c) "method" then 1
  else 2.

Fixpoint in_step_order (cs : list Change) : bool :=
  match cs with
  | [] => true
  | c :: rest =>
      forallb (fun c' => Nat.leb (step_rank c) (step_rank c')) rest
      && in_step_order rest
  end.

(** Two paths in both documents: [/a] loses a response, [/b] gains a
    method. *)
Definition two_paths_old : value :=
  VDict [("openapi", VStr "3.0.0"); ("info", info_v1);
         ("paths", VDict [
            ("/a", VDict [
               ("get", VDict [
                  ("responses",
                   VDict [("200", VDict [("description", VStr "OK")]);
                          ("404", VDict [("description", VStr "Missing")])])])]);
            ("/b", VDict [
               ("get", VDict [("responses", ok_response)])])])].

Definition two_paths_new : value :=
  VDict [("openapi", VStr "3.0.0"); ("info", info_v1);
         ("paths", VDict [
            ("/a", VDict [
               ("get", VDict [("responses", ok_response)])]);
            ("/b", VDict [
               ("get", VDict [("responses", ok_response)]);
               ("post", VDict [("responses", ok_response)])])])].

(** ** The reasons of the parser's failures *)

Definition MissingVersionDiscriminator : exn :=
  ParseError
    "Specification must include 'openapi' (v3.x) or 'swagger' (v2.0) field".

Definition MissingInfo : exn :=
  ParseError "Specification must include 'info' field".

Definition MissingPaths : exn :=
  ParseError "Specification must include 'paths' field".

(** [spec.get(k)] *)
Definition value_at (k : string) (d : list (string * value)) : value :=
  match sget k d with
  | Some v => v
  | None => VNone
  end.

Definition blank (content : string) : bool :=
  String.eqb content "" || String.eqb (strip content) "".

(** Validation as the specification words it: decided by the presence of
    the keys. *)
Definition validation_by_key_presence : Prop :=
  forall d : list (string * value),
    smem "openapi" d || smem "swagger" d = true ->
    (Parser._validate_spec (VDict d) = Raise MissingInfo <->
     smem "info" d = false) /\
    (Parser._validate_spec (VDict d) = Raise MissingPaths <->
     smem "paths" d = false).

(** A document with an empty [info]. *)
Definition empty_info : list (string * value) :=
  [("openapi", VStr "3.0.0"); ("info", VDict []);
   ("paths", VDict [("/users", VDict [])])].

(** ** Path items *)

(** The value of the last item, in the order of the source, whose
    lower-cased key is [m]. *)
Definition last_with_lower (m : string) (items : list (string * value))
    : option value :=
  sget m (rev (map (fun kv => (lower (fst kv), snd kv)) items)).

(** Normalization as the specification words it: only records are kept. *)
Definition keeps_records_only : Prop :=
  forall (items : list (string * value)) (m : string) (v : value),
    sget m (Normalizer.normalize_path_item items) = Some v -> is_dict v = true.

(** A path item without its entries whose value is not a record. *)
Definition records_of_item (item : value) : value :=
  match item with
  | VDict items => VDict (filter (fun kv => is_dict (snd kv)) items)
  | _ => item
  end.

(** Paths without the entries of their items whose value is not a
    record. *)
Definition records_only (paths : value) : value :=
  match paths with
  | VDict entries =>
      VDict (map (fun entry => (fst entry, records_of_item (snd entry))) entries)
  | _ => paths
  end.

(** A path item whose [get] is a text. *)
Definition text_method_paths : value :=
  VDict [("/users", VDict [("summary", VStr "Users"); ("get", VStr "see wiki")])].

(** A path item with [GET], [post] and [get]. *)
Definition mixed_case_paths : value :=
  VDict [("/users", VDict [("GET", VDict [("summary", VStr "first")]);
                           ("post", VDict []);
                           ("$ref", VStr "#/x");
                           ("get", VDict [("summary", VStr "last")])])].

(** ** Request bodies *)

(** [content_spec.get("schema", {})] for a record. *)
Definition schema_of (content_spec : value) : value :=
  match content_spec with
  | VDict d =>
      match sget "schema" d with
      | Some s => s
      | None => VDict []
      end
  | _ => VDict []
  end.

(** The schema of the first declared content type whose schema is true. *)
Definition chosen_schema (content : list (string * value)) : option value :=
  option_map (fun kv => schema_of (snd kv))
    (find (fun kv => truthy (schema_of (snd kv))) content).

(** The schema of the first declared content type, as the specification
    words the choice. *)
Definition first_declared_schema (content : list (string * value))
    : option value :=
  match content with
  | [] => None
  | kv :: _ =>
      if truthy (schema_of (snd kv)) then Some (schema_of (snd kv)) else None
  end.

(** The content types an operation declares for its request body, when the
    request body has the shape of the dialect: absent or false, or a record
    whose [content], if any, is a record of records. *)
Definition body_content (op : value) : option (list (string * value)) :=
  match op with
  | VDict d =>
      match sget "requestBody" d with
      | None => Some []
      | Some body =>
          if truthy body then
            match body with
            | VDict b =>
                match sget "content" b with
                | None => Some []
                | Some (VDict c) =>
                    if forallb (fun kv => is_dict (snd kv)) c then Some c
                    else None
                | Some _ => None
                end
            | _ => None
            end
          else Some []
      end
  | _ => None
  end.

Definition user_schema (required : list string) : value :=
  VDict [("type", VStr "object");
         ("properties",
          VDict (map (fun name => (name, VDict [("type", VStr "string")]))
                   required));
         ("required", VList (map VStr required))].

(** An operation whose first content type declares no schema. *)
Definition two_types_operation (required : list string) : value :=
  VDict [("requestBody",
          VDict [("content",
                  VDict [("text/plain", VDict []);
                         ("application/json",
                          VDict [("schema", user_schema required)])])]);
         ("responses", ok_response)].

(** No change satisfies [nothing]: a computation all of whose changes
    satisfy it emits none. *)
Definition nothing : Change -> Prop := fun _ => False.

(** * Further vocabulary *)

(** ** Rules and messages *)

(** The rule identifiers the classifier looks up. *)
Definition used_rules : list string :=
  [ "endpoint_removed"; "endpoint_added"; "method_removed"; "method_added";
    "parameter_removed"; "required_parameter_added";
    "optional_parameter_added"; "parameter_type_changed";
    "field_removed"; "required_field_added"; "optional_field_added";
    "field_type_changed"; "success_response_removed";
    "non_2xx_response_removed" ].

(** A change built from a rule: it has the message of the rule and the
    severity of the bucket of the rule. *)
Definition rule_based (c : Change) : Prop :=
  exists rule, In rule used_rules /\
    message c = Rules.get_rule_message rule /\
    type c = Rules.classify_change rule.

(** The one change the classifier builds without a rule. *)
Definition added_response (c : Change) : Prop :=
  category c = "response" /\ type c = "non_breaking" /\
  message c = "New response status".

Definition classified (c : Change) : Prop := rule_based c \/ added_response c.

(** The messages of the rules no code path looks up, and of the fallback
    branches of the classifier and of the table. *)
Definition unused_messages : list string :=
  [ "Enum value removed"; "Enum value added"; "Default value removed";
    "New response field"; "Metadata-only changes";
    "Parameter changed"; "Field changed"; "Response changed";
    "Unknown change" ].

(** The number of changes of severity [k]. *)
Definition count_type (k : string) (cs : list Change) : Z :=
  Z.of_nat (length (filter (fun c => String.eqb (type c) k) cs)).

(** ** Texts and formats *)

Definition all_space (s : string) : bool :=
  forallb is_space (list_ascii_of_string s).

(** A text of ASCII characters only: on such a text the whitespace of
    [strip] is all the whitespace Python's [str.strip] removes. *)
Definition is_ascii (s : string) : bool :=
  forallb (fun c => (nat_of_ascii c <? 128)%nat) (list_ascii_of_string s).

Definition EmptyInput : exn := ParseError "Specification is empty".

Definition supported_format (file_type : string) : bool :=
  existsb (String.eqb (lower file_type)) ["json"; "yaml"; "yml"].

(** ** Normalized documents *)

Definition mapping_of_mappings (v : value) : bool :=
  match v with
  | VDict entries => forallb (fun kv => is_dict (snd kv)) entries
  | _ => false
  end.

Definition items_of (v : value) : list (string * value) :=
  match v with
  | VDict d => d
  | _ => []
  end.

(** [spec.get(k, default)] *)
Definition value_or (k : string) (default : value) (d : list (string * value))
    : value :=
  match sget k d with
  | Some v => v
  | None => default
  end.

(** The normalized paths of a mapping of mappings. *)
Definition normalized_entries (entries : list (string * value))
    : list (string * value) :=
  fold_left
    (fun acc kv =>
       sset (fst kv) (VDict (Normalizer.normalize_path_item (items_of (snd kv))))
         acc)
    entries [].

(** The normalized form of a document with a version key. *)
Definition normalized_document (d : list (string * value)) : value :=
  let paths :=
    VDict (normalized_entries (items_of (value_or "paths" (VDict []) d))) in
  if smem "swagger" d then
    VDict [ ("version", value_or "swagger" (VStr "2.0") d);
            ("info", value_or "info" (VDict []) d);
            ("paths", paths);
            ("definitions", value_or "definitions" (VDict []) d) ]
  else
    VDict [ ("version", value_or "openapi" (VStr "3.0.0") d);
            ("info", value_or "info" (VDict []) d);
            ("paths", paths);
            ("components", value_or "components" (VDict []) d) ].

(** ** Sample operations *)

(** An operation with the given status codes and descriptions. *)
Definition listed_responses (codes : list (string * string)) : value :=
  VDict [("responses",
          VDict (map (fun cd => (fst cd, VDict [("description", VStr (snd cd))]))
                   codes))].

(** ** What the differ reads *)

(** Two results of [normalize] from which the differ reads the same paths,
    or which are the same failure. *)
Definition same_paths (r r' : result value) : Prop :=
  match r, r' with
  | inl e, inl e' => e = e'
  | inr n, inr n' =>
      py_get n "paths" (VDict []) = py_get n' "paths" (VDict [])
  | _, _ => False
  end.


(** ** Documents the differ can walk *)

(** A computation of the differ that returns from every list of changes,
    with a value satisfying [Q]. *)
Definition returns {A : Type} (m : M A) (Q : A -> Prop) : Prop :=
  forall s, exists a s', m s = inr (a, s') /\ Q a.

Definition known_location (v : value) : bool :=
  match v with
  | VStr s => existsb (String.eqb s) ["query"; "path"; "header"; "body"]
  | _ => false
  end.

(** A declared parameter: a record that either lacks a location or a name
    (and is skipped), or has one of the four locations and a hashable
    name. *)
Definition parameter_ok (param : value) : bool :=
  match param with
  | VDict d =>
      negb (truthy (value_at "in" d) && truthy (value_at "name" d))
      || (known_location (value_at "in" d) && hashable (value_at "name" d))
  | _ => false
  end.

Definition parameters_ok (op : list (string * value)) : bool :=
  match sget "parameters" op with
  | None => true
  | Some (VList ps) => forallb parameter_ok ps
  | Some _ => false
  end.

(** A schema: a record whose [properties], if any, are a record of records
    and whose [required], if any, is a list of hashable values. *)
Definition schema_ok (schema : value) : bool :=
  match schema with
  | VDict d =>
      match sget "properties" d with
      | None => true
      | Some (VDict props) => forallb (fun kv => is_dict (snd kv)) props
      | Some _ => false
      end
      && match sget "required" d with
         | None => true
         | Some (VList names) => forallb hashable names
         | Some _ => false
         end
  | _ => false
  end.

Definition request_body_ok (op : list (string * value)) : bool :=
  match body_content (VDict op) with
  | Some content =>
      forallb (fun kv => negb (truthy (schema_of (snd kv)))
                         || schema_ok (schema_of (snd kv))) content
  | None => false
  end.

Definition responses_ok (op : list (string * value)) : bool :=
  match sget "responses" op with
  | None => true
  | Some (VDict _) => true
  | Some _ => false
  end.

Definition operation_ok (v : value) : bool :=
  match v with
  | VDict op => parameters_ok op && request_body_ok op && responses_ok op
  | _ => false
  end.

(** A path item: a record whose record-valued methods are operations of the
    shape above. *)
Definition path_item_ok (v : value) : bool :=
  match v with
  | VDict items =>
      forallb (fun kv => negb (is_dict (snd kv)
                               && Normalizer.is_method (lower (fst kv)))
                         || operation_ok (snd kv)) items
  | _ => false
  end.

Definition paths_ok (v : value) : bool :=
  match v with
  | VDict entries => forallb (fun kv => path_item_ok (snd kv)) entries
  | _ => false
  end.

(** A document with a version key whose paths have the shape above. *)
Definition document_ok (v : value) : bool :=
  match v with
  | VDict d =>
      (smem "swagger" d || smem "openapi" d)
      && paths_ok (value_or "paths" (VDict []) d)
  | _ => false
  end.

(** The four locations of [params], each with records as values. *)
Definition params_ok (params : Normalizer.params_t) : Prop :=
  (forall loc, In loc ["query"; "path"; "header"; "body"] ->
               exists inner, sget loc params = Some inner) /\
  Forall (fun entry => Forall (fun nv => is_dict (snd nv) = true) (snd entry))
    params.

(** ** Failures *)

(** The exceptions the builtins raise on a value of the wrong shape. *)
Definition runtime_error (e : exn) : bool :=
  match e with
  | KeyError _ | AttributeError _ | TypeError _ | IndexError _ => true
  | ParseError _ | ValueError _ _ => false
  end.

(** A computation that raises nothing but those. *)
Definition fails_at_runtime {A : Type} (r : result A) : Prop :=
  forall e, r = inl e -> runtime_error e = true.

Definition run_fails_at_runtime {A : Type} (m : M A) : Prop :=
  forall s e, m s = inl e -> runtime_error e = true.

(** [compare_specs], step by step: the old content is parsed, then the new
    one, then the documents are compared. *)
Definition comparison_steps (parse_old parse_new : result value)
    (diff : value -> value -> result (list Change)) : result DiffResult :=
  match parse_old with
  | inl e => Raise (ValueError "Specification parsing error: " e)
  | inr old_spec =>
      match parse_new with
      | inl e => Raise (ValueError "Specification parsing error: " e)
      | inr new_spec =>
          match diff old_spec new_spec with
          | inl e => Raise (ValueError "Unexpected error during comparison: " e)
          | inr changes => Ok (DiffService._build_result changes)
          end
      end
  end.

(** ** Parameters of the body location *)

(** Two [params] that differ at most in what the [body] location holds. *)
Definition same_outside_body (p1 p2 : Normalizer.params_t) : Prop :=
  (forall loc, loc <> "body" -> sget loc p1 = sget loc p2) /\
  smem "body" p1 = true /\ smem "body" p2 = true.

(** Two extractions that raise the same exception, or return [params] that
    differ at most in the [body] location. *)
Definition same_extraction (r1 r2 : result Normalizer.params_t) : Prop :=
  match r1, r2 with
  | inl e1, inl e2 => e1 = e2
  | inr p1, inr p2 => same_outside_body p1 p2
  | _, _ => False
  end.

(** An operation with its declared parameters set to [ps]. *)
Definition with_parameters (ps : list value) (op : list (string * value))
    : value :=
  VDict (sset "parameters" (VList ps) op).

(** A Swagger 2 body parameter, carrying the schema of the request. *)
Definition body_parameter (required : list string)
    : list (string * value) :=
  [("name", VStr "user"); ("in", VStr "body"); ("required", VBool true);
   ("schema", user_schema required)].

(** A Swagger 2 operation that creates a user. *)
Definition create_user (ps : list value) : value :=
  with_parameters ps [("responses", ok_response)].

(** ** What the schema check reads *)

(** [props[k].get("type", "")] *)
Definition property_type (props : list (string * value)) (k : string)
    : result value :=
  (prop <- py_getitem (VDict props) (VStr k) ;;
   py_get prop "type" (VStr ""))%result.

(** The names of the properties of a schema, in their order, each with what
    reading its type gives. *)
Definition declared_types (schema : list (string * value))
    : list (string * result value) :=
  map (fun kv => (fst kv, py_get (snd kv) "type" (VStr "")))
    (items_of (value_or "properties" (VDict []) schema)).

(** Two schemas whose properties are records with the same names and
    types, and whose [required] entries are the same. *)
Definition same_names_and_types (s1 s2 : list (string * value)) : Prop :=
  is_dict (value_or "properties" (VDict []) s1) = true /\
  is_dict (value_or "properties" (VDict []) s2) = true /\
  declared_types s1 = declared_types s2 /\
  sget "required" s1 = sget "required" s2.

(** Two schemas of a user that differ in everything but the names and the
    types of their properties. *)
Definition described_user : list (string * value) :=
  [("type", VStr "object");
   ("description", VStr "A user");
   ("properties",
    VDict [("name", VDict [("type", VStr "string"); ("maxLength", VInt 80)]);
           ("role", VDict [("type", VStr "string");
                           ("enum", VList [VStr "admin"; VStr "guest"])])]);
   ("required", VList [VStr "name"])].

Definition plain_user : list (string * value) :=
  [("properties",
    VDict [("name", VDict [("type", VStr "string")]);
           ("role", VDict [("type", VStr "string");
                           ("enum", VList [VStr "admin"])])]);
   ("required", VList [VStr "name"])].

(** ** What the parameter check reads *)

(** Two dictionaries of one location with the same names, in the same
    order, and the same types. *)
Definition same_types (py_str : value -> string)
    (d1 d2 : list (value * value)) : Prop :=
  Forall2 (fun a b => fst a = fst b /\
                      Differ.param_type py_str (snd a)
                      = Differ.param_type py_str (snd b)) d1 d2.

Definition same_typed_params (py_str : value -> string)
    (p1 p2 : Normalizer.params_t) : Prop :=
  Forall2 (fun e1 e2 => fst e1 = fst e2 /\ same_types py_str (snd e1) (snd e2))
    p1 p2.

Definition same_typed_extraction (py_str : value -> string)
    (r1 r2 : result Normalizer.params_t) : Prop :=
  match r1, r2 with
  | inl e1, inl e2 => e1 = e2
  | inr p1, inr p2 => same_typed_params py_str p1 p2
  | _, _ => False
  end.

(** Two declared parameters with the same location, name, schema and
    type; their other entries ([required], [description], ...) are free. *)
Definition same_location_name_type (param1 param2 : list (string * value))
    : Prop :=
  Forall (fun k => sget k param1 = sget k param2)
    ["in"; "name"; "schema"; "type"].

(** A query parameter, optional or required. *)
Definition limit_parameter (required : bool) : list (string * value) :=
  [("name", VStr "limit"); ("in", VStr "query"); ("required", VBool required);
   ("schema", VDict [("type", VStr "integer")])].

(** * Properties *)

(** ** Reasoning about the differ's computations *)

Lemma emits_weaken {A : Type} (m : M A) (R R' : A -> list Change -> Prop) :
  emits m R -> (forall a out, R a out -> R' a out) -> emits m R'.
Proof.
  intros Hm Himp s a s' Hrun.
  destruct (Hm s a s' Hrun) as (out & -> & HR). eauto.
Qed.

Lemma emits_ret {A : Type} (a : A) : emits (ret a) (fun b out => b = a /\ out = []).
Proof.
  intros s b s' Hrun. unfold ret, Ok in Hrun. inversion Hrun; subst.
  exists []. rewrite app_nil_r. auto.
Qed.

Lemma emits_lift {A : Type} (r : result A) :
  emits (lift r) (fun a out => r = inr a /\ out = []).
Proof.
  intros s a s' Hrun. unfold lift in Hrun. destruct r as [e | x]; [discriminate |].
  unfold Ok in Hrun. inversion Hrun; subst. exists []. rewrite app_nil_r. auto.
Qed.

Lemma emits_append (c : Change) : emits (append c) (fun _ out => out = [c]).
Proof.
  intros s a s' Hrun. unfold append, Ok in Hrun. inversion Hrun; subst. eauto.
Qed.

Lemma emits_bind {A B : Type} (m : M A) (k : A -> M B)
    (R1 : A -> list Change -> Prop) (R2 : A -> B -> list Change -> Prop) :
  emits m R1 ->
  (forall a, emits (k a) (R2 a)) ->
  emits (bind m k)
    (fun b out => exists a o1 o2, out = o1 ++ o2 /\ R1 a o1 /\ R2 a b o2).
Proof.
  intros Hm Hk s b s'' Hrun. unfold bind in Hrun.
  destruct (m s) as [e | [a s']] eqn:Em; [discriminate |].
  destruct (Hm _ _ _ Em) as (o1 & -> & H1).
  destruct (Hk a _ _ _ Hrun) as (o2 & -> & H2).
  exists (o1 ++ o2). rewrite app_assoc. split; [reflexivity |].
  exists a, o1, o2. auto.
Qed.

Lemma emits_for_each {A : Type} (xs : list A) (body : A -> M unit)
    (Q : A -> list Change -> Prop) :
  (forall x, In x xs -> emits (body x) (fun _ out => Q x out)) ->
  emits (for_each xs body)
    (fun _ out => exists outs, out = concat outs /\ Forall2 Q xs outs).
Proof.
  induction xs as [| x xs IH]; intros Hbody.
  - intros s a s' Hrun. simpl in Hrun. unfold ret, Ok in Hrun.
    inversion Hrun; subst. exists []. rewrite app_nil_r. split; [reflexivity |].
    exists []. split; [reflexivity | constructor].
  - simpl for_each.
    eapply emits_weaken.
    + apply emits_bind with (R1 := fun _ out => Q x out)
                            (R2 := fun _ _ out => exists outs,
                                       out = concat outs /\ Forall2 Q xs outs).
      * apply Hbody. left; reflexivity.
      * intros _. apply IH. intros y Hy. apply Hbody. right; exact Hy.
    + intros [] out (a & o1 & o2 & -> & H1 & outs & -> & H2).
      exists (o1 :: outs). split; [reflexivity | constructor; assumption].
Qed.

(** The same rules for a property of every emitted change. *)
Section EmitsAll.
Variable P : Change -> Prop.

Definition all_changes {A : Type} (_ : A) (out : list Change) : Prop :=
  Forall P out.

Lemma all_ret {A : Type} (a : A) : emits (ret a) all_changes.
Proof.
  eapply emits_weaken; [apply emits_ret |].
  intros b out [_ ->]. constructor.
Qed.

Lemma all_lift {A : Type} (r : result A) : emits (lift r) all_changes.
Proof.
  eapply emits_weaken; [apply emits_lift |].
  intros b out [_ ->]. constructor.
Qed.

Lemma all_append (c : Change) : P c -> emits (append c) all_changes.
Proof.
  intros Hc. eapply emits_weaken; [apply emits_append |].
  intros b out ->. repeat constructor. exact Hc.
Qed.

Lemma all_bind {A B : Type} (m : M A) (k : A -> M B) :
  emits m all_changes -> (forall a, emits (k a) all_changes) ->
  emits (bind m k) all_changes.
Proof.
  intros Hm Hk. eapply emits_weaken.
  - apply emits_bind with (R1 := all_changes) (R2 := fun _ => all_changes);
      assumption.
  - intros b out (a & o1 & o2 & -> & H1 & H2). apply Forall_app. split; assumption.
Qed.

Lemma all_for_each {A : Type} (xs : list A) (body : A -> M unit) :
  (forall x, In x xs -> emits (body x) all_changes) ->
  emits (for_each xs body) all_changes.
Proof.
  intros Hbody. eapply emits_weaken.
  - apply emits_for_each with (Q := fun _ out => Forall P out). exact Hbody.
  - intros [] out (outs & -> & Houts). unfold all_changes. clear Hbody.
    induction Houts as [| x o xs' outs' Ho _ IH]; simpl.
    + constructor.
    + apply Forall_app. split; assumption.
Qed.
End EmitsAll.

Ltac step_all :=
  match goal with
  | |- emits (bind _ _) _ => apply all_bind; [| intros ?]
  | |- emits (lift _) _ => apply all_lift
  | |- emits (ret _) _ => apply all_ret
  | |- emits (for_each _ _) _ => apply all_for_each; intros ? ?
  | |- emits (append _) _ => apply all_append
  | |- emits (if ?b then _ else _) _ => destruct b
  | |- emits (match ?o with Some _ => _ | None => _ end) _ => destruct o
  end.

Ltac solve_level :=
  unfold operation_level, method_level, endpoint_level, severities,
    Classifier.classify_endpoint_removal, Classifier.classify_endpoint_addition,
    Classifier.classify_method_removal, Classifier.classify_method_addition,
    Classifier.classify_parameter_change, Classifier.classify_schema_change,
    Classifier.classify_response_change;
  simpl;
  repeat match goal with
         | |- context [if ?b then _ else _] => destruct b; simpl
         end;
  intuition auto.

(** ** The operation step *)

Section OperationStep.
Variable py_str : value -> string.
Variables (p : value) (m : string).

Lemma diff_parameters_level old_op new_op is_openapi3 :
  emits (Differ._diff_parameters py_str p m old_op new_op is_openapi3)
    (all_changes (operation_level p m)).
Proof.
  unfold Differ._diff_parameters. cbv zeta. repeat step_all; solve_level.
Qed.

Lemma diff_schema_level old_schema new_schema location :
  emits (Differ._diff_schema py_str p m old_schema new_schema location)
    (all_changes (operation_level p m)).
Proof.
  unfold Differ._diff_schema. repeat step_all; solve_level.
Qed.

Lemma diff_request_body_level old_op new_op :
  emits (Differ._diff_request_body py_str p m old_op new_op)
    (all_changes (operation_level p m)).
Proof.
  unfold Differ._diff_request_body. repeat step_all.
  apply diff_schema_level.
Qed.

Lemma diff_responses_level old_op new_op :
  emits (Differ._diff_responses p m old_op new_op)
    (all_changes (operation_level p m)).
Proof.
  unfold Differ._diff_responses. repeat step_all; solve_level.
Qed.

Lemma diff_operation_level old_op new_op :
  emits (Differ._diff_operation py_str p m old_op new_op)
    (all_changes (operation_level p m)).
Proof.
  unfold Differ._diff_operation. repeat step_all;
    first [ apply diff_parameters_level | apply diff_request_body_level
          | apply diff_responses_level ].
Qed.
End OperationStep.

(** ** Loops that report the keys of one side missing from the other *)

Lemma for_each_missing {A : Type} (xs : list A) (test : A -> result bool)
    (f : A -> Change) :
  emits
    (for_each xs (fun x =>
       bind (lift (test x)) (fun present =>
         if present : bool then ret tt else append (f x))))
    (fun _ out =>
       out = map f (filter (fun x => match test x with
                                     | inr false => true
                                     | _ => false
                                     end) xs)).
Proof.
  induction xs as [| x xs IH]; intros s a s' Hrun; simpl in Hrun.
  - unfold ret, Ok in Hrun. inversion Hrun; subst. exists [].
    rewrite app_nil_r. auto.
  - unfold bind at 1 in Hrun. unfold bind at 1, lift in Hrun. simpl.
    destruct (test x) as [e | [|]]; try discriminate; simpl in Hrun.
    + apply IH in Hrun. exact Hrun.
    + apply IH in Hrun. destruct Hrun as (out & -> & ->).
      exists (f x :: map f (filter (fun x0 => match test x0 with
                                             | inr false => true
                                             | _ => false
                                             end) xs)).
      rewrite <- app_assoc. auto.
Qed.

Lemma for_each_unless {A : Type} (xs : list A) (test : A -> bool)
    (f : A -> Change) :
  emits
    (for_each xs (fun x => if test x then ret tt else append (f x)))
    (fun _ out => out = map f (filter (fun x => negb (test x)) xs)).
Proof.
  induction xs as [| x xs IH]; intros s a s' Hrun; simpl in Hrun.
  - unfold ret, Ok in Hrun. inversion Hrun; subst. exists [].
    rewrite app_nil_r. auto.
  - unfold bind at 1 in Hrun. simpl.
    destruct (test x); simpl in Hrun |- *.
    + apply IH in Hrun. exact Hrun.
    + unfold append, Ok in Hrun. apply IH in Hrun.
      destruct Hrun as (out & -> & ->).
      eexists. rewrite <- app_assoc. split; reflexivity.
Qed.

(** ** The endpoint step *)

Lemma diff_endpoints_shape (old_paths new_paths : value) :
  emits (Differ._diff_endpoints old_paths new_paths)
    (fun _ out => exists olds news,
       py_iter old_paths = inr olds /\ py_iter new_paths = inr news /\
       out = endpoint_changes old_paths new_paths olds news).
Proof.
  unfold Differ._diff_endpoints. eapply emits_weaken.
  - eapply emits_bind; [apply emits_lift | intros olds].
    eapply emits_bind; [apply for_each_missing | intros ?].
    eapply emits_bind; [apply emits_lift | intros news].
    apply for_each_missing.
  - simpl. intros [] out H.
    destruct H as (olds & o1 & o2 & E1 & [Holds E2] & u & o3 & o4 & E3 & E4 & H).
    destruct H as (news & o5 & o6 & E5 & [Hnews E6] & E7).
    subst. exists olds, news. repeat split; try assumption.
Qed.

(** ** Loops that visit the keys common to both sides *)

Lemma concat_skipping {A : Type} (t : A -> bool)
    (Q : A -> list Change -> Prop) (xs : list A) (outs : list (list Change)) :
  Forall2 (fun x o => if t x then Q x o else o = []) xs outs ->
  exists blocks, concat outs = concat blocks /\ Forall2 Q (filter t xs) blocks.
Proof.
  induction 1 as [| x o xs outs Ho _ (blocks & Hc & Hb)]; simpl.
  - exists []. split; [reflexivity | constructor].
  - destruct (t x).
    + exists (o :: blocks). simpl. rewrite Hc. split; [reflexivity |].
      constructor; assumption.
    + subst o. exists blocks. split; assumption.
Qed.

Lemma for_each_when {A : Type} (xs : list A) (t : A -> bool)
    (body : A -> M unit) (Q : A -> list Change -> Prop) :
  (forall x, In x xs ->
     emits (body x) (fun _ o => if t x then Q x o else o = [])) ->
  emits (for_each xs body)
    (fun _ out => exists blocks,
       out = concat blocks /\ Forall2 Q (filter t xs) blocks).
Proof.
  intros Hbody. eapply emits_weaken.
  - apply emits_for_each
      with (Q := fun x o => if t x then Q x o else o = []). exact Hbody.
  - intros [] out (outs & -> & Houts).
    destruct (concat_skipping t Q xs outs Houts) as (blocks & Hc & Hb).
    exists blocks. split; assumption.
Qed.

(** ** The method and operation steps *)

Lemma item_found {V : Type} (k : string) (d : list (string * V)) (v : V) :
  Differ.item String.eqb VStr k d = inr v -> sget k d = Some v.
Proof.
  unfold Differ.item, sget. destruct (dict_get String.eqb k d); intros H.
  - inversion H. reflexivity.
  - discriminate.
Qed.

Section OperationsStep.
Variable py_str : value -> string.

Lemma common_operations_shape (p : value)
    (old_methods new_methods : list (string * value)) :
  emits
    (for_each (dict_keys old_methods) (fun method =>
       if smem method new_methods then
         bind (lift (Differ.item String.eqb VStr method old_methods))
           (fun old_op =>
              bind (lift (Differ.item String.eqb VStr method new_methods))
                (fun new_op =>
                   Differ._diff_operation py_str p method old_op new_op))
       else ret tt))
    (fun _ out => exists op_blocks,
       out = concat op_blocks /\
       Forall2 (fun m ops => Forall (operation_level p m) ops)
         (common_methods old_methods new_methods) op_blocks).
Proof.
  unfold common_methods.
  apply for_each_when
    with (t := fun m => smem m new_methods)
         (Q := fun m ops => Forall (operation_level p m) ops).
  intros method _. destruct (smem method new_methods).
  - repeat step_all. apply diff_operation_level.
  - eapply emits_weaken; [apply emits_ret |]. intros _ out [_ ->]. reflexivity.
Qed.

Lemma diff_operations_shape (old_paths new_paths : value) :
  emits (Differ._diff_operations py_str old_paths new_paths)
    (fun _ out => exists olds blocks,
       py_iter old_paths = inr olds /\
       out = concat blocks /\
       Forall2 (path_block old_paths new_paths)
         (filter (present_in new_paths) olds) blocks).
Proof.
  unfold Differ._diff_operations. eapply emits_weaken.
  - eapply emits_bind; [apply emits_lift | intros olds].
    apply for_each_when
      with (t := present_in new_paths)
           (Q := path_block old_paths new_paths).
    intros p _ s a s' Hrun.
    unfold bind at 1 in Hrun. unfold lift at 1 in Hrun.
    unfold present_in.
    destruct (py_in p new_paths) as [e | present]; [discriminate |].
    simpl in Hrun. destruct present; simpl in Hrun.
    + revert s a s' Hrun. cbv zeta.
      match goal with
      | |- forall s a s', ?body s = inr (a, s') -> _ =>
          change (emits body
                    (fun _ out => path_block old_paths new_paths p out))
      end.
      eapply emits_weaken.
      * eapply emits_bind; [apply emits_lift | intros old_path_item].
        eapply emits_bind; [apply emits_lift | intros new_path_item].
        eapply emits_bind; [apply emits_lift | intros old_items].
        eapply emits_bind; [apply emits_lift | intros new_items].
        eapply emits_bind; [apply for_each_unless | intros ?].
        eapply emits_bind; [apply for_each_unless | intros ?].
        apply common_operations_shape.
      * simpl. intros [] out H.
        destruct H as (opi & o1 & o2 & E1 & [Hopi E2] & H).
        destruct H as (npi & o3 & o4 & E3 & [Hnpi E4] & H).
        destruct H as (oi & o5 & o6 & E5 & [Hoi E6] & H).
        destruct H as (ni & o7 & o8 & E7 & [Hni E8] & H).
        destruct H as (u1 & o9 & o10 & E9 & E10 & H).
        destruct H as (u2 & o11 & o12 & E11 & E12 & op_blocks & E13 & Hops).
        subst. exists oi, ni, op_blocks. unfold path_items, rbind.
        rewrite Hopi, Hnpi. simpl. repeat split; try assumption.
        unfold method_changes. rewrite <- app_assoc. reflexivity.
    + unfold ret, Ok in Hrun. inversion Hrun; subst. exists [].
      rewrite app_nil_r. auto.
  - simpl. intros [] out (olds & o1 & o2 & -> & [Holds ->] & blocks & -> & Hb).
    exists olds, blocks. auto.
Qed.
End OperationsStep.

(** ** The whole comparison *)

Lemma diff_returns_shape (py_str : value -> string) (old_spec new_spec : value)
    (cs : list Change) :
  Differ.diff py_str old_spec new_spec = inr cs ->
  exists old_paths new_paths,
    paths_of old_spec = inr old_paths /\
    paths_of new_spec = inr new_paths /\
    diff_shape old_paths new_paths cs.
Proof.
  unfold Differ.diff, Differ.diff_body, paths_of. intros H.
  unfold bind at 1, reset in H. simpl in H.
  unfold bind at 1, lift at 1 in H.
  destruct (Normalizer.normalize old_spec) as [e | on]; [discriminate |].
  simpl in H. unfold bind at 1, lift at 1 in H.
  destruct (Normalizer.normalize new_spec) as [e | nn]; [discriminate |].
  simpl in H. unfold bind at 1, lift at 1 in H.
  destruct (py_get on "paths" (VDict [])) as [e | old_paths] eqn:Eo;
    [discriminate |].
  simpl in H. unfold bind at 1, lift at 1 in H.
  destruct (py_get nn "paths" (VDict [])) as [e | new_paths] eqn:En;
    [discriminate |].
  simpl in H. unfold bind at 1 in H.
  destruct (Differ._diff_endpoints old_paths new_paths []) as [e | [u s1]] eqn:E1;
    [discriminate |].
  unfold bind at 1 in H.
  destruct (Differ._diff_operations py_str old_paths new_paths s1)
    as [e | [u' s2]] eqn:E2; [discriminate |].
  unfold get_changes, Ok in H. inversion H; subst cs.
  apply diff_endpoints_shape in E1.
  destruct E1 as (o1 & -> & olds & news & Holds & Hnews & ->).
  apply diff_operations_shape in E2.
  destruct E2 as (o2 & -> & olds' & blocks & Holds' & -> & Hblocks).
  rewrite Holds in Holds'. inversion Holds'; subst olds'.
  exists old_paths, new_paths. simpl.
  split; [exact Eo | split; [exact En |]].
  exists olds, news, blocks. auto.
Qed.

(** ** Every change comes from the classifier *)

Lemma selected_is_method (items : list (string * value)) (m : string) :
  In m (dict_keys (Differ.select_methods items)) ->
  Normalizer.is_method (lower m) = true.
Proof.
  unfold dict_keys, Differ.select_methods. intros H.
  apply in_map_iff in H. destruct H as ([k v] & <- & Hin).
  apply filter_In in Hin. destruct Hin as [_ Hf]. simpl in Hf |- *.
  apply andb_true_iff in Hf. tauto.
Qed.

Lemma endpoint_changes_level (old_paths new_paths : value)
    (olds news : list value) :
  Forall endpoint_level (endpoint_changes old_paths new_paths olds news).
Proof.
  unfold endpoint_changes. apply Forall_app. split;
    apply Forall_forall; intros c Hc; apply in_map_iff in Hc;
    destruct Hc as (x & <- & _); solve_level.
Qed.

Lemma method_changes_level (p : value)
    (old_items new_items : list (string * value)) :
  Forall keyed_change
    (method_changes p (Differ.select_methods old_items)
       (Differ.select_methods new_items)).
Proof.
  unfold method_changes. apply Forall_app. split;
    apply Forall_forall; intros c Hc; apply in_map_iff in Hc;
    destruct Hc as (m & <- & Hm); apply filter_In in Hm; destruct Hm as [Hm _];
    exists p, m; (split; [eapply selected_is_method; exact Hm |]);
    left; solve_level.
Qed.

Lemma path_block_keyed (old_paths new_paths p : value)
    (block : list Change) :
  path_block old_paths new_paths p block -> Forall keyed_change block.
Proof.
  intros (old_items & new_items & op_blocks & _ & _ & -> & Hops).
  apply Forall_app. split; [apply method_changes_level |].
  unfold common_methods in Hops.
  remember (filter (fun m => smem m (Differ.select_methods new_items))
              (dict_keys (Differ.select_methods old_items))) as ms eqn:Ems.
  assert (Hms : forall m, In m ms -> Normalizer.is_method (lower m) = true).
  { intros m Hm. subst ms. apply filter_In in Hm.
    eapply selected_is_method. apply Hm. }
  clear Ems. induction Hops as [| m ops ms obs Ho _ IH]; simpl.
  - constructor.
  - apply Forall_app. split.
    + eapply Forall_impl; [| exact Ho]. intros c Hc. exists p, m.
      split; [apply Hms; left; reflexivity | right; exact Hc].
    + apply IH. intros m' Hm'. apply Hms. right; exact Hm'.
Qed.

Lemma shape_well_formed (old_paths new_paths : value) (cs : list Change) :
  diff_shape old_paths new_paths cs -> Forall well_formed_change cs.
Proof.
  intros (olds & news & blocks & _ & _ & -> & Hb).
  apply Forall_app. split.
  - eapply Forall_impl; [| apply endpoint_changes_level].
    intros c Hc. left; exact Hc.
  - induction Hb as [| p block ps blocks Hp _ IH]; simpl.
    + constructor.
    + apply Forall_app. split; [| exact IH].
      eapply Forall_impl; [| eapply path_block_keyed; exact Hp].
      intros c Hc. right; exact Hc.
Qed.

Lemma diff_well_formed (py_str : value -> string) (old_spec new_spec : value)
    (cs : list Change) :
  Differ.diff py_str old_spec new_spec = inr cs -> Forall well_formed_change cs.
Proof.
  intros H. apply diff_returns_shape in H.
  destruct H as (old_paths & new_paths & _ & _ & Hshape).
  eapply shape_well_formed. exact Hshape.
Qed.

Lemma well_formed_severity (c : Change) :
  well_formed_change c -> In (type c) severities.
Proof.
  unfold well_formed_change, keyed_change, endpoint_level, method_level,
    operation_level.
  intros [H | (p & m & _ & [H | H])]; tauto.
Qed.

(** ** Upper-cased method names *)










(** ** The summary *)

Lemma summary_counts (cs : list Change) (a b c : Z) :
  Forall (fun x => In (type x) severities) cs ->
  exists a' b' c',
    fold_left
      (fun summary change =>
         if String.eqb (type change) "breaking" then
           DiffService.incr "breaking" summary
         else if String.eqb (type change) "potentially_breaking" then
           DiffService.incr "potentially_breaking" summary
         else if String.eqb (type change) "non_breaking" then
           DiffService.incr "non_breaking" summary
         else summary)
      cs
      [("breaking", a); ("potentially_breaking", b); ("non_breaking", c)]
    = [("breaking", a'); ("potentially_breaking", b'); ("non_breaking", c')]
    /\ (a' + b' + c' = a + b + c + Z.of_nat (length cs))%Z.
Proof.
  intros H. revert a b c.
  induction H as [| x cs Hx _ IH]; intros a b c.
  - exists a, b, c. simpl. split; [reflexivity | lia].
  - cbn [fold_left length].
    unfold severities in Hx. simpl in Hx.
    destruct Hx as [E | [E | [E | []]]]; rewrite <- E; cbn [String.eqb Ascii.eqb Bool.eqb];
      unfold DiffService.incr; simpl;
      match goal with
      | |- context [fold_left _ cs ?init] =>
          match init with
          | [(_, ?a0); (_, ?b0); (_, ?c0)] =>
              destruct (IH a0 b0 c0) as (a' & b' & c' & Hf & Hs)
          end
      end;
      exists a', b', c'; (split; [exact Hf | lia]).
Qed.

Lemma build_result_partition (cs : list Change) :
  Forall (fun x => In (type x) severities) cs ->
  (count "breaking" (DiffService._build_result cs)
   + count "potentially_breaking" (DiffService._build_result cs)
   + count "non_breaking" (DiffService._build_result cs)
   = Z.of_nat (length (changes (DiffService._build_result cs))))%Z.
Proof.
  intros H. unfold DiffService._build_result, count. simpl summary. simpl changes.
  destruct (summary_counts cs 0 0 0 H) as (a & b & c & Hf & Hs).
  rewrite Hf. rewrite length_map. simpl. lia.
Qed.

Section Comparison.
Variable json_loads : string -> string + value.
Variable yaml_safe_load : string -> string + value.
Variable py_str : value -> string.

(** A comparison that returns went through both parses and the differ. *)
Lemma compare_specs_returns (old_content new_content old_format new_format
    : string) (r : DiffResult) :
  DiffService.compare_specs json_loads yaml_safe_load py_str
    old_content new_content old_format new_format = inr r ->
  exists old_spec new_spec cs,
    Parser.parse json_loads yaml_safe_load old_content
      (DiffService.resolve_format old_format old_content) = inr old_spec /\
    Parser.parse json_loads yaml_safe_load new_content
      (DiffService.resolve_format new_format new_content) = inr new_spec /\
    Differ.diff py_str old_spec new_spec = inr cs /\
    r = DiffService._build_result cs.
Proof.
  unfold DiffService.compare_specs. cbv zeta. intros H.
  destruct (Parser.parse json_loads yaml_safe_load old_content _)
    as [e | old_spec] eqn:Eold; simpl in H.
  { destruct e; discriminate. }
  destruct (Parser.parse json_loads yaml_safe_load new_content _)
    as [e | new_spec] eqn:Enew; simpl in H.
  { destruct e; discriminate. }
  destruct (Differ.diff py_str old_spec new_spec) as [e | cs] eqn:Ediff;
    simpl in H.
  { destruct e; discriminate. }
  unfold Ok in H. inversion H. exists old_spec, new_spec, cs.
  split; [reflexivity |]. split; [reflexivity |].
  split; [exact Ediff | reflexivity].
Qed.

(** C1. When [compare_specs] returns, the three counts of the summary add
    up to the number of changes returned. *)
Theorem summary_partitions_changes (old_content new_content old_format
    new_format : string) (r : DiffResult) :
  DiffService.compare_specs json_loads yaml_safe_load py_str
    old_content new_content old_format new_format = inr r ->
  (count "breaking" r + count "potentially_breaking" r
   + count "non_breaking" r = Z.of_nat (length (changes r)))%Z.
Proof.
  intros H. apply compare_specs_returns in H.
  destruct H as (old_spec & new_spec & cs & _ & _ & Hdiff & ->).
  apply build_result_partition. apply diff_well_formed in Hdiff.
  eapply Forall_impl; [| exact Hdiff]. exact well_formed_severity.
Qed.
End Comparison.

Lemma summary_partitions_changes_witness :
  exists r,
    DiffService.compare_specs sample_json_loads sample_yaml_safe_load sample_str
      api_v1_yaml api_v2_yaml "yaml" "auto" = inr r /\
    length (changes r) = 3 /\
    (count "breaking" r + count "potentially_breaking" r
     + count "non_breaking" r = Z.of_nat (length (changes r)))%Z.
Proof.
  eexists. split; [vm_compute; reflexivity |]. split; [reflexivity |].
  apply (summary_partitions_changes sample_json_loads sample_yaml_safe_load
           sample_str api_v1_yaml api_v2_yaml "yaml" "auto").
  vm_compute. reflexivity.
Defined.

(** ** Endpoints removed and added *)

Lemma filter_none {A : Type} (f : A -> bool) (l : list A) :
  Forall (fun x => f x = false) l -> filter f l = [].
Proof.
  induction 1 as [| x l Hx _ IH]; simpl; [reflexivity |].
  rewrite Hx. exact IH.
Qed.

Lemma filter_all {A : Type} (f : A -> bool) (l : list A) :
  Forall (fun x => f x = true) l -> filter f l = l.
Proof.
  induction 1 as [| x l Hx _ IH]; simpl; [reflexivity |].
  rewrite Hx, IH. reflexivity.
Qed.

Lemma keyed_not_endpoint (c : Change) :
  keyed_change c -> String.eqb (category c) "endpoint" = false.
Proof.
  unfold keyed_change, method_level, operation_level.
  intros (p & m & _ & [(Hc & _) | (Hc & _)]).
  - rewrite Hc. reflexivity.
  - simpl in Hc. destruct Hc as [E | [E | [E | []]]]; rewrite <- E; reflexivity.
Qed.

Lemma blocks_not_endpoint (old_paths new_paths : value) (ps : list value)
    (blocks : list (list Change)) :
  Forall2 (path_block old_paths new_paths) ps blocks ->
  Forall (fun c => String.eqb (category c) "endpoint" = false) (concat blocks).
Proof.
  induction 1 as [| p block ps blocks Hp _ IH]; simpl; [constructor |].
  apply Forall_app. split; [| exact IH].
  eapply Forall_impl; [| eapply path_block_keyed; exact Hp].
  exact keyed_not_endpoint.
Qed.

Lemma shape_removed_paths (old_paths new_paths : value) (cs : list Change) :
  diff_shape old_paths new_paths cs ->
  exists olds news,
    py_iter old_paths = inr olds /\ py_iter new_paths = inr news /\
    removed_paths cs = filter (absent_from new_paths) olds /\
    added_paths cs = filter (absent_from old_paths) news.
Proof.
  intros (olds & news & blocks & Holds & Hnews & -> & Hb).
  exists olds, news. split; [exact Holds |]. split; [exact Hnews |].
  apply blocks_not_endpoint in Hb.
  unfold removed_paths, added_paths, endpoint_changes.
  rewrite !filter_app, !map_app.
  split.
  - rewrite (filter_all is_endpoint_removed (map _ (filter (absent_from new_paths) olds))).
    2:{ apply Forall_forall. intros c Hc. apply in_map_iff in Hc.
        destruct Hc as (x & <- & _). reflexivity. }
    rewrite (filter_none is_endpoint_removed (map _ (filter (absent_from old_paths) news))).
    2:{ apply Forall_forall. intros c Hc. apply in_map_iff in Hc.
        destruct Hc as (x & <- & _). reflexivity. }
    rewrite (filter_none is_endpoint_removed (concat blocks)).
    2:{ eapply Forall_impl; [| exact Hb]. intros c Hc.
        unfold is_endpoint_removed. rewrite Hc. reflexivity. }
    simpl. rewrite !app_nil_r, map_map. simpl. apply map_id.
  - rewrite (filter_none is_endpoint_added (map _ (filter (absent_from new_paths) olds))).
    2:{ apply Forall_forall. intros c Hc. apply in_map_iff in Hc.
        destruct Hc as (x & <- & _). reflexivity. }
    rewrite (filter_all is_endpoint_added (map _ (filter (absent_from old_paths) news))).
    2:{ apply Forall_forall. intros c Hc. apply in_map_iff in Hc.
        destruct Hc as (x & <- & _). reflexivity. }
    rewrite (filter_none is_endpoint_added (concat blocks)).
    2:{ eapply Forall_impl; [| exact Hb]. intros c Hc.
        unfold is_endpoint_added. rewrite Hc. reflexivity. }
    simpl. rewrite !app_nil_r, map_map. simpl. apply map_id.
Qed.

(** C8, as the code has it.  When the comparisons of (A, B) and of (B, A)
    both return, the paths reported as removed endpoints by the first are,
    in the same order, the paths reported as added endpoints by the second,
    and the paths reported as added by the first are those reported as
    removed by the second. *)
Theorem removal_addition_duality (py_str : value -> string) (A B : value)
    (cs1 cs2 : list Change) :
  Differ.diff py_str A B = inr cs1 ->
  Differ.diff py_str B A = inr cs2 ->
  removed_paths cs1 = added_paths cs2 /\ added_paths cs1 = removed_paths cs2.
Proof.
  intros H1 H2.
  apply diff_returns_shape in H1. destruct H1 as (pa & pb & Ha & Hb & S1).
  apply diff_returns_shape in H2. destruct H2 as (pb' & pa' & Hb' & Ha' & S2).
  rewrite Ha in Ha'. inversion Ha'; subst pa'.
  rewrite Hb in Hb'. inversion Hb'; subst pb'.
  apply shape_removed_paths in S1.
  destruct S1 as (ia & ib & Hia & Hib & R1 & A1).
  apply shape_removed_paths in S2.
  destruct S2 as (ib' & ia' & Hib' & Hia' & R2 & A2).
  rewrite Hia in Hia'. inversion Hia'; subst ia'.
  rewrite Hib in Hib'. inversion Hib'; subst ib'.
  rewrite R1, A1, R2, A2. split; reflexivity.
Qed.

Lemma removal_addition_duality_witness :
  exists cs1 cs2,
    Differ.diff sample_str api_v1 api_v2 = inr cs1 /\
    Differ.diff sample_str api_v2 api_v1 = inr cs2 /\
    removed_paths cs1 = [VStr "/posts"] /\
    removed_paths cs1 = added_paths cs2 /\ added_paths cs1 = removed_paths cs2.
Proof.
  eexists. eexists.
  split; [vm_compute; reflexivity |]. split; [vm_compute; reflexivity |].
  split; [reflexivity |].
  apply (removal_addition_duality sample_str api_v1 api_v2);
    vm_compute; reflexivity.
Defined.

(** C8, as the specification words it, fails: of two documents the parser
    accepts, one comparison reports a removed endpoint and the other raises,
    because the shape of an operation is read off the old side; no added
    endpoint is reported to match the removed one. *)
Lemma duality_counterexample :
  Parser.parse sample_json_loads sample_yaml_safe_load notes_api_yaml "yaml"
  = Ok notes_api /\
  Parser.parse sample_json_loads sample_yaml_safe_load wiki_notes_api_yaml "yaml"
  = Ok wiki_notes_api /\
  Differ.diff sample_str notes_api wiki_notes_api
  = Ok [Classifier.classify_endpoint_removal (VStr "/gone")] /\
  Differ.diff sample_str wiki_notes_api notes_api
  = Raise (AttributeError "get") /\
  ~ duality_as_specified sample_json_loads sample_yaml_safe_load sample_str.
Proof.
  repeat (split; [vm_compute; reflexivity |]).
  intros H.
  destruct (H notes_api_yaml wiki_notes_api_yaml "yaml" "yaml"
              notes_api wiki_notes_api eq_refl eq_refl)
    as (cs1 & cs2 & _ & Hraise & _).
  vm_compute in Hraise. discriminate Hraise.
Qed.

(** ** The order of the changes *)

Lemma rbind_ok {A B : Type} (r : result A) (k : A -> result B) (b : B) :
  rbind r k = inr b -> exists a, r = inr a /\ k a = inr b.
Proof.
  destruct r as [e | a]; simpl; intros H; [discriminate | eauto].
Qed.

Ltac rbind_inv H :=
  repeat match type of H with
         | rbind _ _ = inr _ =>
             let a := fresh "a" in
             let Ha := fresh "Ha" in
             apply rbind_ok in H; destruct H as (a & Ha & H)
         end.

Lemma normalized_paths_mapping (raw v : value) :
  Normalizer._normalize_paths_openapi3 raw = inr v \/
  Normalizer._normalize_paths_swagger2 raw = inr v ->
  exists entries, v = VDict entries.
Proof.
  unfold Normalizer._normalize_paths_openapi3,
    Normalizer._normalize_paths_swagger2.
  intros [H | H]; rbind_inv H; inversion H; eauto.
Qed.

(** The paths of a document with a version key are a mapping: the differ
    walks them in key order. *)
Lemma paths_of_versioned (d : list (string * value)) (paths : value) :
  smem "swagger" d || smem "openapi" d = true ->
  paths_of (VDict d) = inr paths ->
  exists entries, paths = VDict entries.
Proof.
  unfold paths_of, Normalizer.normalize. simpl. intros Hv H.
  apply rbind_ok in H. destruct H as (n & Hn & H).
  destruct (smem "swagger" d).
  - unfold Normalizer._normalize_swagger_2 in Hn. rbind_inv Hn.
    inversion Hn; subst n. simpl in H. inversion H; subst.
    eapply normalized_paths_mapping. right. eassumption.
  - simpl in Hv. rewrite Hv in Hn.
    unfold Normalizer._normalize_openapi_3 in Hn. rbind_inv Hn.
    inversion Hn; subst n. simpl in H. inversion H; subst.
    eapply normalized_paths_mapping. left. eassumption.
Qed.

(** C3, as the code has it.  The changes of a comparison are, in this
    order: the endpoint removals in the old key order, the endpoint
    additions in the new key order, and then one block per path of both
    documents, in the old key order; the block of a path holds its method
    removals, its method additions and then the changes inside each method
    of both sides.  The method changes of a path therefore come after the
    operation changes of the paths before it. *)
Theorem diff_emission_order (py_str : value -> string)
    (old_spec new_spec : value) (cs : list Change) :
  Differ.diff py_str old_spec new_spec = inr cs ->
  exists old_paths new_paths olds news blocks,
    paths_of old_spec = inr old_paths /\
    paths_of new_spec = inr new_paths /\
    py_iter old_paths = inr olds /\
    py_iter new_paths = inr news /\
    cs = map Classifier.classify_endpoint_removal
           (filter (absent_from new_paths) olds)
         ++ map Classifier.classify_endpoint_addition
              (filter (absent_from old_paths) news)
         ++ concat blocks /\
    Forall2 (path_block old_paths new_paths)
      (filter (present_in new_paths) olds) blocks.
Proof.
  intros H. apply diff_returns_shape in H.
  destruct H as (old_paths & new_paths & Ho & Hn & Hshape).
  destruct Hshape as (olds & news & blocks & Holds & Hnews & -> & Hb).
  exists old_paths, new_paths, olds, news, blocks.
  unfold endpoint_changes. rewrite <- app_assoc. auto 10.
Qed.

Lemma diff_emission_order_witness :
  exists cs old_paths new_paths olds news blocks,
    Differ.diff sample_str two_paths_old two_paths_new = inr cs /\
    paths_of two_paths_old = inr old_paths /\
    paths_of two_paths_new = inr new_paths /\
    py_iter old_paths = inr olds /\
    py_iter new_paths = inr news /\
    cs = map Classifier.classify_endpoint_removal
           (filter (absent_from new_paths) olds)
         ++ map Classifier.classify_endpoint_addition
              (filter (absent_from old_paths) news)
         ++ concat blocks /\
    Forall2 (path_block old_paths new_paths)
      (filter (present_in new_paths) olds) blocks.
Proof.
  eexists.
  destruct (diff_emission_order sample_str two_paths_old two_paths_new
              _ eq_refl)
    as (old_paths & new_paths & olds & news & blocks & H).
  exists old_paths, new_paths, olds, news, blocks.
  split; [reflexivity | exact H].
Defined.

(** C3, as the specification words it, fails: on the sample the response
    change of [/a] is reported before the method change of [/b]. *)
Lemma step_order_counterexample :
  exists c1 c2,
    Differ.diff sample_str two_paths_old two_paths_new = inr [c1; c2] /\
    category c1 = "response" /\ category c2 = "method" /\
    in_step_order [c1; c2] = false.
Proof.
  eexists. eexists. split; [vm_compute; reflexivity |].
  repeat split; reflexivity.
Qed.

(** ** The parser's validation *)

Lemma validate_spec_cases (d : list (string * value)) :
  Parser._validate_spec (VDict d) =
  if negb (truthy (value_at "openapi" d)) && negb (truthy (value_at "swagger" d))
  then Raise MissingVersionDiscriminator
  else if negb (truthy (value_at "info" d)) then Raise MissingInfo
  else if negb (truthy (value_at "paths" d)) then Raise MissingPaths
  else Ok tt.
Proof.
  unfold Parser._validate_spec, value_at, py_get, rbind.
  destruct (sget "openapi" d) as [o |], (sget "swagger" d) as [s |],
    (sget "info" d) as [i |], (sget "paths" d) as [p |]; simpl;
    repeat match goal with
           | |- context [truthy ?v] => is_var v; destruct (truthy v); simpl
           end;
    reflexivity.
Qed.

(** C6, as the specification words it, fails: a document whose [info] is
    present but empty is rejected for its [info]. *)
Lemma validation_by_key_presence_counterexample :
  ~ validation_by_key_presence.
Proof.
  intros H. destruct (H empty_info eq_refl) as [[Hinfo _] _].
  specialize (Hinfo eq_refl). discriminate Hinfo.
Qed.

Section Validation.
Variable json_loads : string -> string + value.
Variable yaml_safe_load : string -> string + value.

(** C6, as the code has it.  For a decoded mapping whose [openapi] or
    [swagger] value is true, [parse] fails for [info] exactly when the
    value of [info] is missing or false (empty), fails for [paths] exactly
    when [info] is true and the value of [paths] is missing or false, and
    returns the document, whole, exactly when both are true. *)
Theorem parse_missing_info_paths (content file_type : string)
    (d : list (string * value)) :
  blank content = false ->
  Parser.decode json_loads yaml_safe_load content file_type = inr (VDict d) ->
  truthy (value_at "openapi" d) || truthy (value_at "swagger" d) = true ->
  let parsed := Parser.parse json_loads yaml_safe_load content file_type in
  (parsed = Raise MissingInfo <-> truthy (value_at "info" d) = false) /\
  (parsed = Raise MissingPaths <->
   truthy (value_at "info" d) = true /\ truthy (value_at "paths" d) = false) /\
  (parsed = Ok (VDict d) <->
   truthy (value_at "info" d) = true /\ truthy (value_at "paths" d) = true) /\
  (forall spec, parsed = Ok spec -> spec = VDict d).
Proof.
  intros Hblank Hdec Hver. unfold Parser.parse. fold (blank content).
  rewrite Hblank, Hdec. simpl. rewrite validate_spec_cases.
  apply orb_true_iff in Hver.
  assert (Hv : negb (truthy (value_at "openapi" d))
               && negb (truthy (value_at "swagger" d)) = false).
  { destruct Hver as [-> | ->]; simpl; [reflexivity | apply andb_false_r]. }
  rewrite Hv.
  destruct (truthy (value_at "info" d)), (truthy (value_at "paths" d));
    simpl; unfold MissingInfo, MissingPaths, Raise, Ok;
    repeat split; intros; try discriminate; try tauto;
    try match goal with
        | H : _ /\ _ |- _ => destruct H; discriminate
        end;
    try match goal with
        | H : inr _ = inr _ |- _ => inversion H; reflexivity
        end.
Qed.
End Validation.

Lemma parse_missing_info_paths_witness :
  Parser.parse sample_json_loads sample_yaml_safe_load no_paths_yaml "yaml"
  = Raise MissingPaths.
Proof.
  apply (parse_missing_info_paths sample_json_loads sample_yaml_safe_load
           no_paths_yaml "yaml" [("swagger", VStr "2.0"); ("info", info_v1)]);
    try reflexivity.
  split; reflexivity.
Defined.

(** ** Formats *)

Lemma detect_format_json (content : string) :
  Parser.detect_format content = "json" <->
  startswith (strip content) "{" = true.
Proof.
  unfold Parser.detect_format. destruct (startswith (strip content) "{").
  - tauto.
  - split; intros H; discriminate H.
Qed.

Lemma resolve_format_auto (content : string) :
  DiffService.resolve_format "auto" content = Parser.detect_format content /\
  DiffService.resolve_format "" content = Parser.detect_format content.
Proof. split; reflexivity. Qed.

(** C7 on the code.  The formats default to "json", not to "auto": a call
    without formats does not consult the detector, and a YAML text that the
    detector recognizes and that compares under "auto" is rejected as
    invalid JSON. *)
Theorem default_format_is_json :
  DiffService.default_format = "json" /\
  Parser.detect_format api_v1_yaml = "yaml" /\
  DiffService.resolve_format DiffService.default_format api_v1_yaml = "json" /\
  DiffService.resolve_format "auto" api_v1_yaml = "yaml" /\
  DiffService.compare_specs_default sample_json_loads sample_yaml_safe_load
    sample_str api_v1_yaml api_v2_yaml
  = Raise (ValueError "Specification parsing error: "
             (ParseError
                "Invalid JSON: Expecting value: line 1 column 1 (char 0)")) /\
  exists r,
    DiffService.compare_specs sample_json_loads sample_yaml_safe_load
      sample_str api_v1_yaml api_v2_yaml "auto" "auto" = Ok r /\
    length (changes r) = 3.
Proof.
  repeat (split; [vm_compute; reflexivity |]).
  eexists. split; [vm_compute; reflexivity | reflexivity].
Qed.

(** ** Normalized path items *)

Lemma sget_sset {V : Type} (k m : string) (v : V) (d : list (string * V)) :
  sget m (sset k v d) = if String.eqb k m then Some v else sget m d.
Proof.
  unfold sget, sset. induction d as [| [k' v'] d IH]; simpl.
  - reflexivity.
  - destruct (String.eqb k' k) eqn:Ek; simpl.
    + apply String.eqb_eq in Ek. subst k'.
      destruct (String.eqb k m); reflexivity.
    + destruct (String.eqb k' m) eqn:Em.
      * apply String.eqb_eq in Em. subst m.
        rewrite String.eqb_sym, Ek. reflexivity.
      * exact IH.
Qed.

Lemma sget_app {V : Type} (m : string) (d1 d2 : list (string * V)) :
  sget m (d1 ++ d2) =
  match sget m d1 with
  | Some v => Some v
  | None => sget m d2
  end.
Proof.
  unfold sget. induction d1 as [| [k v] d1 IH]; simpl.
  - reflexivity.
  - destruct (String.eqb k m); [reflexivity | exact IH].
Qed.

Lemma last_with_lower_cons (m k : string) (v : value)
    (items : list (string * value)) :
  last_with_lower m ((k, v) :: items) =
  match last_with_lower m items with
  | Some w => Some w
  | None => if String.eqb (lower k) m then Some v else None
  end.
Proof.
  unfold last_with_lower. simpl. rewrite sget_app. reflexivity.
Qed.

Lemma normalize_path_item_from (items acc : list (string * value))
    (m : string) :
  sget m
    (fold_left
       (fun acc kv =>
          if Normalizer.is_method (lower (fst kv))
          then sset (lower (fst kv)) (snd kv) acc else acc)
       items acc) =
  match (if Normalizer.is_method m then last_with_lower m items else None) with
  | Some v => Some v
  | None => sget m acc
  end.
Proof.
  revert acc. induction items as [| [k v] items IH]; intros acc.
  - simpl. unfold last_with_lower. simpl.
    destruct (Normalizer.is_method m); reflexivity.
  - cbn [fold_left fst snd]. rewrite IH. rewrite last_with_lower_cons.
    destruct (Normalizer.is_method m) eqn:Hm.
    + destruct (last_with_lower m items); [reflexivity |].
      destruct (String.eqb (lower k) m) eqn:Ek.
      * apply String.eqb_eq in Ek. rewrite Ek, Hm.
        rewrite sget_sset, String.eqb_refl. reflexivity.
      * destruct (Normalizer.is_method (lower k)); [| reflexivity].
        rewrite sget_sset, Ek. reflexivity.
    + destruct (Normalizer.is_method (lower k)) eqn:Hk; [| reflexivity].
      rewrite sget_sset.
      destruct (String.eqb (lower k) m) eqn:Ek; [| reflexivity].
      apply String.eqb_eq in Ek. rewrite Ek in Hk. congruence.
Qed.

Lemma normalize_path_item_lookup (items : list (string * value)) (m : string) :
  sget m (Normalizer.normalize_path_item items) =
  if Normalizer.is_method m then last_with_lower m items else None.
Proof.
  unfold Normalizer.normalize_path_item. rewrite normalize_path_item_from.
  destruct (Normalizer.is_method m); [| reflexivity].
  destruct (last_with_lower m items); reflexivity.
Qed.

Lemma normalize_paths_loop_lookup (entries acc n : list (string * value)) :
  Normalizer.normalize_paths_loop entries acc = inr n ->
  forall p,
    match sget p (rev entries) with
    | None => sget p n = sget p acc
    | Some item =>
        exists items, item = VDict items /\
          sget p n = Some (VDict (Normalizer.normalize_path_item items))
    end.
Proof.
  revert acc. induction entries as [| [q qi] entries IH]; intros acc H p.
  - simpl in H. inversion H. reflexivity.
  - simpl in H. apply rbind_ok in H. destruct H as (ops & Hops & H).
    destruct qi; try discriminate. simpl in Hops. inversion Hops; subst ops.
    specialize (IH _ H p). simpl rev. rewrite sget_app.
    destruct (sget p (rev entries)) as [item |]; [exact IH |].
    rewrite IH, sget_sset. unfold sget at 1. simpl.
    destruct (String.eqb q p); [eauto | reflexivity].
Qed.

(** C9, as the specification words it, fails: a method key whose value is
    not a record is kept by both normalizations. *)
Lemma keeps_records_only_counterexample :
  Normalizer._normalize_paths_openapi3 text_method_paths
  = Ok (VDict [("/users", VDict [("get", VStr "see wiki")])]) /\
  Normalizer._normalize_paths_swagger2 text_method_paths
  = Ok (VDict [("/users", VDict [("get", VStr "see wiki")])]) /\
  is_dict (VStr "see wiki") = false /\
  ~ keeps_records_only.
Proof.
  repeat (split; [reflexivity |]).
  intros H.
  specialize (H [("summary", VStr "Users"); ("get", VStr "see wiki")]
                "get" (VStr "see wiki") eq_refl).
  discriminate H.
Qed.

(** ** Request bodies *)

Section RequestBody.
Variable py_str : value -> string.

Lemma chosen_schema_true (content : list (string * value)) (s : value) :
  chosen_schema content = Some s -> truthy s = true.
Proof.
  unfold chosen_schema.
  destruct (find (fun kv => truthy (schema_of (snd kv))) content) as [kv |] eqn:E;
    simpl; intros H; [| discriminate].
  inversion H; subst s. apply find_some in E. apply E.
Qed.

Lemma first_schema_chosen (content : list (string * value)) :
  forallb (fun kv => is_dict (snd kv)) content = true ->
  Differ.first_schema content =
  Ok (match chosen_schema content with
      | Some s => s
      | None => VDict []
      end).
Proof.
  unfold chosen_schema.
  induction content as [| [ct spec] content IH]; intros H.
  - reflexivity.
  - simpl in H. apply andb_true_iff in H. destruct H as [Hspec Hrest].
    destruct spec as [| | | | | d]; try discriminate.
    assert (Hs : schema_of (VDict d) =
                 match sget "schema" d with Some s => s | None => VDict [] end)
      by reflexivity.
    cbn [Differ.first_schema find snd py_get rbind]. rewrite Hs.
    destruct (sget "schema" d) as [s |]; cbn [rbind Ok].
    + destruct (truthy s);
        [cbn [option_map snd]; rewrite Hs; reflexivity | apply IH; exact Hrest].
    + cbn. apply IH; exact Hrest.
Qed.

Lemma extract_schema_chosen (op : value) (content : list (string * value)) :
  body_content op = Some content ->
  exists body,
    py_get op "requestBody" (VDict []) = Ok body /\
    (truthy body = false -> content = []) /\
    Differ._extract_schema_from_request_body body =
    Ok (match chosen_schema content with
        | Some s => s
        | None => VDict []
        end).
Proof.
  unfold body_content, Differ._extract_schema_from_request_body.
  destruct op as [| | | | | d]; try discriminate.
  cbn [py_get].
  destruct (sget "requestBody" d) as [body |].
  - destruct (truthy body) eqn:Hb; cbn [negb].
    + destruct body as [| | | | | b]; try discriminate.
      cbn [py_get rbind].
      destruct (sget "content" b) as [c |] eqn:Ec; cbn [rbind Ok].
      * destruct c as [| | | | | c]; try discriminate.
        destruct (forallb (fun kv => is_dict (snd kv)) c) eqn:Hc;
          [| discriminate].
        intros H; inversion H; subst content.
        exists (VDict b). rewrite Hb.
        split; [reflexivity |]. split; [discriminate |].
        cbn [negb py_get]. rewrite Ec. cbn [py_items rbind Ok].
        apply first_schema_chosen. exact Hc.
      * intros H; inversion H; subst content.
        exists (VDict b). rewrite Hb.
        split; [reflexivity |]. split; [discriminate |].
        cbn [negb py_get]. rewrite Ec. reflexivity.
    + intros H; inversion H; subst content. exists body. rewrite Hb.
      repeat split; reflexivity.
  - intros H; inversion H; subst content. exists (VDict []).
    repeat split; reflexivity.
Qed.
(** C4, as the code has it.  For operations whose request bodies have the
    shape of the dialect, request-body diffing takes on each side the schema
    of the first declared content type whose schema is true (non-empty),
    passing over the content types before it and ignoring those after it,
    and diffs exactly these two schemas; if either side has no such content
    type, it emits nothing. *)
Theorem request_body_chosen_schemas (p : value) (m : string)
    (old_op new_op : value) (old_content new_content : list (string * value))
    (s : list Change) :
  body_content old_op = Some old_content ->
  body_content new_op = Some new_content ->
  Differ._diff_request_body py_str p m old_op new_op s =
  match chosen_schema old_content, chosen_schema new_content with
  | Some old_schema, Some new_schema =>
      Differ._diff_schema py_str p m old_schema new_schema "body" s
  | _, _ => Ok (tt, s)
  end.
Proof.
  intros Ho Hn.
  destruct (extract_schema_chosen _ _ Ho) as (old_body & Hgo & Heo & Hxo).
  destruct (extract_schema_chosen _ _ Hn) as (new_body & Hgn & Hen & Hxn).
  unfold Differ._diff_request_body.
  unfold bind at 1. unfold lift at 1. rewrite Hgo. simpl.
  unfold bind at 1. unfold lift at 1. rewrite Hgn. simpl.
  destruct (truthy old_body) eqn:Hbo; simpl.
  - unfold bind at 1. unfold lift at 1. rewrite Hxo. simpl.
    unfold bind at 1. unfold lift at 1. rewrite Hxn. simpl.
    destruct (chosen_schema old_content) as [so |] eqn:Eo;
      destruct (chosen_schema new_content) as [sn |] eqn:En; simpl.
    + rewrite (chosen_schema_true _ _ Eo), (chosen_schema_true _ _ En).
      reflexivity.
    + rewrite orb_true_r. reflexivity.
    + reflexivity.
    + reflexivity.
  - rewrite (Heo eq_refl). simpl.
    destruct (truthy new_body) eqn:Hbn; simpl; [| reflexivity].
    unfold bind at 1. unfold lift at 1. rewrite Hxo. simpl.
    unfold bind at 1. unfold lift at 1. rewrite Hxn. simpl.
    rewrite (Heo eq_refl). simpl. reflexivity.
Qed.
End RequestBody.

Lemma request_body_chosen_schemas_witness :
  exists c,
    Differ._diff_request_body sample_str (VStr "/users") "post"
      (two_types_operation ["name"]) (two_types_operation ["name"; "email"]) []
    = Ok (tt, [c]) /\
    category c = "schema" /\ type c = "breaking" /\
    field c = Some (VStr "email").
Proof.
  pose proof (request_body_chosen_schemas sample_str (VStr "/users") "post"
                (two_types_operation ["name"])
                (two_types_operation ["name"; "email"]) _ _ []
                eq_refl eq_refl) as H.
  eexists. split; [rewrite H; vm_compute; reflexivity |].
  repeat split; reflexivity.
Defined.

(** C4, as the specification words it, fails: the first declared content
    type of either side has no schema, and yet a body change is reported,
    from the schemas of the second content type. *)
Lemma first_content_type_counterexample :
  exists old_content new_content c,
    body_content (two_types_operation ["name"]) = Some old_content /\
    body_content (two_types_operation ["name"; "email"]) = Some new_content /\
    first_declared_schema old_content = None /\
    first_declared_schema new_content = None /\
    Differ._diff_request_body sample_str (VStr "/users") "post"
      (two_types_operation ["name"]) (two_types_operation ["name"; "email"]) []
    = Ok (tt, [c]) /\
    category c = "schema" /\ field c = Some (VStr "email").
Proof.
  eexists. eexists. eexists.
  split; [reflexivity |]. split; [reflexivity |].
  split; [reflexivity |]. split; [reflexivity |].
  split; [vm_compute; reflexivity |]. split; reflexivity.
Qed.

(** ** Comparing a document with itself *)

Lemma value_induction (P : value -> Prop) :
  P VNone ->
  (forall b, P (VBool b)) ->
  (forall z, P (VInt z)) ->
  (forall s, P (VStr s)) ->
  (forall l, Forall P l -> P (VList l)) ->
  (forall d, Forall (fun kv => P (snd kv)) d -> P (VDict d)) ->
  forall v, P v.
Proof.
  intros HN HB HI HS HL HD. fix IH 1. intros [| b | z | s | l | d].
  - exact HN.
  - apply HB.
  - apply HI.
  - apply HS.
  - apply HL. induction l as [| x l IHl]; constructor; [apply IH | exact IHl].
  - apply HD. induction d as [| [k x] d IHd]; constructor;
      [apply IH | exact IHd].
Qed.

Lemma py_eq_refl (v : value) : py_eq v v = true.
Proof.
  induction v as [| b | z | s | l Hl | d Hd] using value_induction; simpl.
  - reflexivity.
  - apply Bool.eqb_reflx.
  - apply Z.eqb_refl.
  - apply String.eqb_refl.
  - induction Hl as [| x l Hx _ IH]; [reflexivity |]. rewrite Hx. exact IH.
  - rewrite Nat.eqb_refl. simpl.
    assert (Hgo : forall d1, Forall (fun kv => py_eq (snd kv) (snd kv) = true) d1 ->
              incl d1 d ->
              (fix go (d0 : list (string * value)) : bool :=
                 match d0 with
                 | [] => true
                 | (k, v) :: d' =>
                     existsb (fun kw => String.eqb (fst kw) k && py_eq v (snd kw)) d
                     && go d'
                 end) d1 = true).
    { induction 1 as [| [k v] d1 Hv _ IH]; intros Hincl; [reflexivity |].
      apply andb_true_iff. split.
      - apply existsb_exists. exists (k, v). split.
        + apply Hincl. left; reflexivity.
        + simpl. rewrite String.eqb_refl. exact Hv.
      - apply IH. intros kv Hkv. apply Hincl. right; exact Hkv. }
    apply Hgo; [exact Hd | apply incl_refl].
Qed.

Lemma dict_mem_key {K V : Type} (eqb : K -> K -> bool) (k : K)
    (d : list (K * V)) :
  (forall x, eqb x x = true) -> In k (dict_keys d) ->
  exists v, dict_get eqb k d = Some v.
Proof.
  intros Hrefl. unfold dict_keys.
  induction d as [| [k' v'] d IH]; simpl; intros Hin; [contradiction |].
  destruct (eqb k' k) eqn:E; [eauto |].
  destruct Hin as [-> | Hin]; [rewrite Hrefl in E; discriminate | auto].
Qed.

Lemma char_is_substring (c : ascii) (s : string) :
  In c (list_ascii_of_string s) -> is_substring (String c EmptyString) s = true.
Proof.
  induction s as [| a s IH]; simpl; intros Hin; [contradiction |].
  destruct Hin as [-> | Hin].
  - destruct (ascii_dec c c) as [_ | Hne]; [| contradiction].
    destruct s; reflexivity.
  - rewrite (IH Hin). apply orb_true_r.
Qed.

Lemma iter_present (c x : value) (xs : list value) :
  py_iter c = inr xs -> In x xs -> py_in x c = inr true.
Proof.
  destruct c as [| b | z | s | l | d]; simpl; intros H Hin;
    try discriminate; inversion H; subst xs; clear H.
  - unfold string_chars in Hin. apply in_map_iff in Hin.
    destruct Hin as (ch & <- & Hch). rewrite (char_is_substring _ _ Hch).
    reflexivity.
  - assert (Hex : existsb (py_eq x) l = true).
    { apply existsb_exists. exists x. split; [exact Hin | apply py_eq_refl]. }
    rewrite Hex. reflexivity.
  - apply in_map_iff in Hin. destruct Hin as ([k v] & <- & Hkv). simpl.
    unfold smem, dict_mem.
    destruct (dict_mem_key String.eqb k d String.eqb_refl) as (w & ->).
    + unfold dict_keys. apply in_map_iff. exists (k, v). auto.
    + reflexivity.
Qed.

Lemma all_bind_lift (P : Change -> Prop) {A B : Type} (r : result A)
    (k : A -> M B) :
  (forall a, r = inr a -> emits (k a) (all_changes P)) ->
  emits (bind (lift r) k) (all_changes P).
Proof.
  intros Hk s b s' Hrun. unfold bind, lift in Hrun.
  destruct r as [e | a]; [discriminate |]. simpl in Hrun.
  exact (Hk a eq_refl s b s' Hrun).
Qed.

Ltac same_result H1 H2 x :=
  rewrite H1 in H2; injection H2 as H2; subst x.

Section SelfDiff.
Variable py_str : value -> string.


Lemma self_schema (p : value) (m : string) (schema : value) (location : string) :
  emits (Differ._diff_schema py_str p m schema schema location)
    (all_changes nothing).
Proof.
  unfold Differ._diff_schema.
  apply all_bind_lift; intros props Hp.
  apply all_bind_lift; intros props' Hp'. same_result Hp Hp' props'.
  apply all_bind_lift; intros old_required _.
  apply all_bind_lift; intros new_required _.
  apply all_bind_lift; intros olds Ho.
  apply all_bind; [| intros _].
  { apply all_for_each. intros x Hx. apply all_bind_lift. intros present Hpr.
    rewrite (iter_present _ _ _ Ho Hx) in Hpr. inversion Hpr. apply all_ret. }
  apply all_bind_lift; intros news Hn.
  apply all_bind; [| intros _].
  { apply all_for_each. intros x Hx. apply all_bind_lift. intros present Hpr.
    rewrite (iter_present _ _ _ Hn Hx) in Hpr. inversion Hpr. apply all_ret. }
  apply all_bind_lift; intros olds' Ho'.
  apply all_for_each. intros x Hx. apply all_bind_lift. intros present Hpr.
  rewrite (iter_present _ _ _ Ho' Hx) in Hpr. inversion Hpr.
  apply all_bind_lift; intros old_prop H1.
  apply all_bind_lift; intros old_type H2.
  apply all_bind_lift; intros new_prop H3. same_result H1 H3 new_prop.
  apply all_bind_lift; intros new_type H4. same_result H2 H4 new_type.
  rewrite String.eqb_refl. simpl. apply all_ret.
Qed.

Lemma self_request_body (p : value) (m : string) (op : value) :
  emits (Differ._diff_request_body py_str p m op op) (all_changes nothing).
Proof.
  unfold Differ._diff_request_body.
  apply all_bind_lift; intros body Hb.
  apply all_bind_lift; intros body' Hb'. same_result Hb Hb' body'.
  destruct (negb (truthy body) && negb (truthy body)); [apply all_ret |].
  apply all_bind_lift; intros schema Hs.
  apply all_bind_lift; intros schema' Hs'. same_result Hs Hs' schema'.
  destruct (negb (truthy schema) || negb (truthy schema)); [apply all_ret |].
  apply self_schema.
Qed.

Lemma self_responses (p : value) (m : string) (op : value) :
  emits (Differ._diff_responses p m op op) (all_changes nothing).
Proof.
  unfold Differ._diff_responses.
  apply all_bind_lift; intros responses Hr.
  apply all_bind_lift; intros responses' Hr'. same_result Hr Hr' responses'.
  assert (Hkeys : forall code, In code (dict_keys responses) ->
                    smem code responses = true).
  { intros code Hc. unfold smem, dict_mem.
    destruct (dict_mem_key String.eqb code responses String.eqb_refl Hc)
      as (w & ->). reflexivity. }
  apply all_bind; [| intros _]; apply all_for_each; intros code Hc;
    rewrite (Hkeys code Hc); apply all_ret.
Qed.

Lemma self_parameters (p : value) (m : string) (op : value) (is_openapi3 : bool) :
  emits (Differ._diff_parameters py_str p m op op is_openapi3)
    (all_changes nothing).
Proof.
  unfold Differ._diff_parameters.
  apply all_bind_lift; intros params Hp.
  apply all_bind_lift; intros params' Hp'. same_result Hp Hp' params'.
  apply all_for_each. intros param_in _. cbv zeta.
  set (in_params := match sget param_in params with
                    | Some d => d
                    | None => []
                    end).
  assert (Hkeys : forall name, In name (dict_keys in_params) ->
                    exists info, dict_get py_eq name in_params = Some info).
  { intros name Hn. apply dict_mem_key; [exact py_eq_refl | exact Hn]. }
  apply all_bind; [| intros _; apply all_bind; [| intros _]];
    apply all_for_each; intros name Hn;
    destruct (Hkeys name Hn) as (info & Hinfo);
    unfold dict_mem; rewrite Hinfo.
  - apply all_ret.
  - apply all_ret.
  - apply all_bind_lift; intros old_param H1.
    apply all_bind_lift; intros new_param H2. same_result H1 H2 new_param.
    apply all_bind_lift; intros old_type H3.
    apply all_bind_lift; intros new_type H4. same_result H3 H4 new_type.
    rewrite String.eqb_refl. simpl. apply all_ret.
Qed.

Lemma self_operation (p : value) (m : string) (op : value) :
  emits (Differ._diff_operation py_str p m op op) (all_changes nothing).
Proof.
  unfold Differ._diff_operation.
  apply all_bind_lift; intros has_parameters _.
  apply all_bind; [destruct has_parameters; [apply all_ret | apply all_lift] |].
  intros is_openapi3.
  apply all_bind; [apply self_parameters | intros _].
  apply all_bind; [| intros _; apply self_responses].
  destruct is_openapi3; [apply self_request_body | apply all_ret].
Qed.


Lemma nothing_emitted (out : list Change) : Forall nothing out -> out = [].
Proof.
  destruct out as [| c out]; [reflexivity |].
  intros H. inversion H as [| c' out' Hc _]. destruct Hc.
Qed.

Lemma all_get_changes (P : Change -> Prop) : emits get_changes (all_changes P).
Proof.
  intros s a s' H. unfold get_changes, Ok in H. injection H as <- <-.
  exists []. rewrite app_nil_r. split; [reflexivity | constructor].
Qed.

Lemma bind_returns_state {A : Type} (m : M A) (k : A -> M (list Change)) :
  (forall x s a s', k x s = inr (a, s') -> a = s') ->
  forall s a s', bind m k s = inr (a, s') -> a = s'.
Proof.
  intros Hk s a s' H. unfold bind in H.
  destruct (m s) as [e | [x s1]]; [discriminate |]. eapply Hk. exact H.
Qed.

Lemma diff_body_returns_state (old_spec new_spec : value) (s cs s' : list Change) :
  Differ.diff_body py_str old_spec new_spec s = inr (cs, s') -> cs = s'.
Proof.
  unfold Differ.diff_body.
  repeat (apply bind_returns_state; intros ?).
  intros s0 a s1 H. unfold get_changes, Ok in H. injection H as <- <-.
  reflexivity.
Qed.

End SelfDiff.

Section SelfComparison.
Variable json_loads : string -> string + value.
Variable yaml_safe_load : string -> string + value.
Variable py_str : value -> string.

End SelfComparison.



(** ** Parameter locations *)

(** C5 on the code.  [params[param_in]] is a plain subscript: a parameter
    in a location other than query, path, header and body, such as a cookie
    parameter of OpenAPI v3 or a form parameter of Swagger v2, raises
    [KeyError] in [extract_parameters]; the differ lets it through and the
    comparison of a document the parser accepts ends in the handler for
    unexpected errors. *)
Theorem unknown_location_raises (py_str : value -> string) :
  Parser.parse sample_json_loads sample_yaml_safe_load cookie_api_yaml "yaml"
  = Ok cookie_api /\
  Normalizer.extract_parameters cookie_operation true
  = Raise (KeyError (VStr "cookie")) /\
  Normalizer.extract_parameters form_operation false
  = Raise (KeyError (VStr "formData")) /\
  Differ.diff py_str cookie_api cookie_api = Raise (KeyError (VStr "cookie")) /\
  DiffService.compare_specs sample_json_loads sample_yaml_safe_load py_str
    cookie_api_yaml cookie_api_yaml "yaml" "yaml"
  = Raise (ValueError "Unexpected error during comparison: "
             (KeyError (VStr "cookie"))).
Proof. repeat split; vm_compute; reflexivity. Qed.

(** ** The gate of request-body diffing *)

(** An old operation with neither a [parameters] nor a [requestBody] key is
    diffed as a Swagger v2 operation: its request body is not looked at. *)
Lemma operation_without_body_key (py_str : value -> string) (p : value)
    (m : string) (d : list (string * value)) (new_op : value)
    (s : list Change) :
  smem "parameters" d = false ->
  smem "requestBody" d = false ->
  Differ._diff_operation py_str p m (VDict d) new_op s =
  bind (Differ._diff_parameters py_str p m (VDict d) new_op false)
    (fun _ => Differ._diff_responses p m (VDict d) new_op) s.
Proof.
  intros Hp Hb. unfold Differ._diff_operation.
  unfold bind at 1. unfold lift at 1. simpl. rewrite Hp.
  unfold bind at 1. unfold lift at 1. simpl. rewrite Hb. simpl.
  unfold bind.
  destruct (Differ._diff_parameters py_str p m (VDict d) new_op false s)
    as [e | [u s1]]; reflexivity.
Qed.

(** ** The scenarios of the specification *)

(** Scenarios 1, 3 and 4: a removed endpoint, a new method and a changed
    parameter type, in the order of emission. *)
Example scenario_removed_added_changed :
  Differ.diff sample_str api_v1 api_v2 =
  Ok [ mkChange "breaking" "endpoint" (VStr "/posts") None None
         "Endpoint removed";
       mkChange "non_breaking" "method" (VStr "/users") (Some "POST") None
         "New HTTP method";
       mkChange "breaking" "parameter" (VStr "/users") (Some "GET")
         (Some (VStr "id")) "Parameter type changed" ].
Proof. vm_compute. reflexivity. Qed.

(** Scenario 2: a required field added to the request body. *)
Example scenario_required_field :
  Differ._diff_operation sample_str (VStr "/users") "post"
    (two_types_operation ["name"]) (two_types_operation ["name"; "email"]) []
  = Ok (tt, [ mkChange "breaking" "schema" (VStr "/users") (Some "POST")
                (Some (VStr "email")) "Required request body field added" ]).
Proof. vm_compute. reflexivity. Qed.

(** Scenario 5: a text that does not decode. *)
Example scenario_malformed_input :
  DiffService.compare_specs sample_json_loads sample_yaml_safe_load sample_str
    "not json" "{}" "json" "json"
  = Raise (ValueError "Specification parsing error: "
             (ParseError
                "Invalid JSON: Expecting value: line 1 column 1 (char 0)")).
Proof. vm_compute. reflexivity. Qed.

(** * Further properties *)

(** ** The rules table *)

Lemma smem_In {V : Type} (k : string) (d : list (string * V)) :
  smem k d = true -> In k (dict_keys d).
Proof.
  unfold smem, dict_mem, dict_keys.
  induction d as [| [k' v] d IH]; simpl; [discriminate |].
  destruct (String.eqb k' k) eqn:E.
  - apply String.eqb_eq in E. auto.
  - intros H. right. apply IH. exact H.
Qed.

Lemma smem_false_sget {V : Type} (k : string) (d : list (string * V)) :
  smem k d = false -> sget k d = None.
Proof.
  unfold smem, dict_mem, sget. destruct (dict_get String.eqb k d);
    [discriminate | reflexivity].
Qed.

(** X1. The three tables are disjoint and hold no empty message: an
    identifier of a table is classified by that table and gets the message
    stored there; an identifier of no table is potentially breaking with the
    message for unknown changes. *)
Theorem rules_lookup (rule : string) :
  (smem rule Rules.BREAKING_RULES = true ->
   Rules.classify_change rule = "breaking" /\
   sget rule Rules.BREAKING_RULES = Some (Rules.get_rule_message rule)) /\
  (smem rule Rules.POTENTIALLY_BREAKING_RULES = true ->
   Rules.classify_change rule = "potentially_breaking" /\
   sget rule Rules.POTENTIALLY_BREAKING_RULES
   = Some (Rules.get_rule_message rule)) /\
  (smem rule Rules.NON_BREAKING_RULES = true ->
   Rules.classify_change rule = "non_breaking" /\
   sget rule Rules.NON_BREAKING_RULES = Some (Rules.get_rule_message rule)) /\
  (smem rule Rules.BREAKING_RULES = false ->
   smem rule Rules.POTENTIALLY_BREAKING_RULES = false ->
   smem rule Rules.NON_BREAKING_RULES = false ->
   Rules.classify_change rule = "potentially_breaking" /\
   Rules.get_rule_message rule = "Unknown change").
Proof.
  repeat split.
  1-6: apply smem_In in H; simpl in H;
    repeat (destruct H as [<- | H]; [vm_compute; reflexivity |]);
    contradiction.
  - unfold Rules.classify_change. rewrite H, H0, H1. reflexivity.
  - unfold Rules.get_rule_message, Rules.get_or.
    rewrite !smem_false_sget by assumption. reflexivity.
Qed.

Lemma rules_lookup_witness :
  Rules.classify_change "enum_value_added" = "potentially_breaking" /\
  sget "enum_value_added" Rules.POTENTIALLY_BREAKING_RULES
  = Some (Rules.get_rule_message "enum_value_added").
Proof.
  apply (rules_lookup "enum_value_added"). reflexivity.
Defined.

(** ** The classifier and the rules *)

Ltac use_rule r :=
  left; exists r; split; [simpl; tauto | split; reflexivity].

Ltac solve_classified :=
  unfold classified, rule_based, added_response,
    Classifier.classify_endpoint_removal, Classifier.classify_endpoint_addition,
    Classifier.classify_method_removal, Classifier.classify_method_addition,
    Classifier.classify_parameter_change, Classifier.classify_schema_change,
    Classifier.classify_response_change;
  simpl;
  repeat match goal with
         | |- context [if ?b then _ else _] => destruct b; simpl
         end;
  first [ right; repeat split; reflexivity
        | use_rule "endpoint_removed" | use_rule "endpoint_added"
        | use_rule "method_removed" | use_rule "method_added"
        | use_rule "parameter_removed" | use_rule "required_parameter_added"
        | use_rule "optional_parameter_added"
        | use_rule "parameter_type_changed"
        | use_rule "field_removed" | use_rule "required_field_added"
        | use_rule "optional_field_added" | use_rule "field_type_changed"
        | use_rule "success_response_removed"
        | use_rule "non_2xx_response_removed" ].

Section Classified.
Variable py_str : value -> string.

Lemma diff_endpoints_classified (old_paths new_paths : value) :
  emits (Differ._diff_endpoints old_paths new_paths) (all_changes classified).
Proof.
  unfold Differ._diff_endpoints. repeat step_all; solve_classified.
Qed.

Lemma diff_operation_classified (p : value) (m : string) (old_op new_op : value) :
  emits (Differ._diff_operation py_str p m old_op new_op)
    (all_changes classified).
Proof.
  unfold Differ._diff_operation, Differ._diff_parameters,
    Differ._diff_request_body, Differ._diff_schema, Differ._diff_responses.
  cbv zeta. repeat step_all; solve_classified.
Qed.

Lemma diff_operations_classified (old_paths new_paths : value) :
  emits (Differ._diff_operations py_str old_paths new_paths)
    (all_changes classified).
Proof.
  unfold Differ._diff_operations. cbv zeta.
  repeat first [ apply diff_operation_classified | step_all ];
    solve_classified.
Qed.

Lemma diff_classified (old_spec new_spec : value) (cs : list Change) :
  Differ.diff py_str old_spec new_spec = inr cs -> Forall classified cs.
Proof.
  unfold Differ.diff. intros H.
  destruct (Differ.diff_body py_str old_spec new_spec []) as [e | [cs' s']] eqn:Hrun;
    [discriminate |].
  injection H as <-.
  rewrite (diff_body_returns_state _ _ _ _ _ _ Hrun).
  unfold Differ.diff_body in Hrun. unfold bind at 1, reset in Hrun.
  simpl in Hrun.
  assert (Hall : emits
      (bind (lift (Normalizer.normalize old_spec)) (fun old_normalized =>
       bind (lift (Normalizer.normalize new_spec)) (fun new_normalized =>
       bind (lift (py_get old_normalized "paths" (VDict []))) (fun old_paths =>
       bind (lift (py_get new_normalized "paths" (VDict []))) (fun new_paths =>
       bind (Differ._diff_endpoints old_paths new_paths) (fun _ =>
       bind (Differ._diff_operations py_str old_paths new_paths) (fun _ =>
       get_changes)))))))
      (all_changes classified)).
  { repeat first [ apply diff_endpoints_classified
                 | apply diff_operations_classified
                 | apply all_get_changes | step_all ]. }
  destruct (Hall _ _ _ Hrun) as (out & -> & Hout). exact Hout.
Qed.
End Classified.

(** X2. The severities the classifier writes down agree with the rules
    table: every change of a comparison has the message of a rule the
    classifier looks up and the severity of the bucket of that rule, except
    an added response, which is non-breaking with a message of its own. *)
Theorem changes_follow_rules (py_str : value -> string)
    (old_spec new_spec : value) (cs : list Change) :
  Differ.diff py_str old_spec new_spec = inr cs -> Forall classified cs.
Proof. apply diff_classified. Qed.

Lemma changes_follow_rules_witness :
  exists cs, Differ.diff sample_str api_v1 api_v2 = inr cs /\
             length cs = 3 /\ Forall classified cs.
Proof.
  eexists. split; [vm_compute; reflexivity |]. split; [reflexivity |].
  apply (changes_follow_rules sample_str api_v1 api_v2). vm_compute. reflexivity.
Defined.

Lemma classified_message_used (c : Change) :
  classified c -> ~ In (message c) unused_messages.
Proof.
  intros [(rule & Hrule & Hmsg & _) | (_ & _ & Hmsg)]; rewrite Hmsg.
  - simpl in Hrule.
    repeat (destruct Hrule as [<- | Hrule];
            [vm_compute; intuition discriminate |]).
    contradiction.
  - simpl. intuition discriminate.
Qed.

(** X3. No comparison reports a change with the message of one of the five
    rules that are in the table but looked up nowhere (enum values, default
    values, response fields, metadata), nor with a fallback message of the
    classifier or of the table. *)
Theorem unused_messages_never_reported (py_str : value -> string)
    (old_spec new_spec : value) (cs : list Change) :
  Differ.diff py_str old_spec new_spec = inr cs ->
  Forall (fun c => ~ In (message c) unused_messages) cs.
Proof.
  intros H. apply diff_classified in H.
  eapply Forall_impl; [| exact H]. exact classified_message_used.
Qed.

Lemma unused_messages_never_reported_witness :
  exists cs, Differ.diff sample_str two_paths_old two_paths_new = inr cs /\
             length cs = 2 /\
             Forall (fun c => ~ In (message c) unused_messages) cs.
Proof.
  eexists. split; [vm_compute; reflexivity |]. split; [reflexivity |].
  apply (unused_messages_never_reported sample_str two_paths_old two_paths_new).
  vm_compute. reflexivity.
Defined.

(** ** The counts of the summary *)

Lemma count_type_cons (k : string) (x : Change) (cs : list Change) :
  count_type k (x :: cs) =
  ((if String.eqb (type x) k then 1 else 0) + count_type k cs)%Z.
Proof.
  unfold count_type. cbn [filter].
  destruct (String.eqb (type x) k); cbn [length]; lia.
Qed.

Lemma summary_counts_exact (cs : list Change) (a b c : Z) :
  fold_left
    (fun summary change =>
       if String.eqb (type change) "breaking" then
         DiffService.incr "breaking" summary
       else if String.eqb (type change) "potentially_breaking" then
         DiffService.incr "potentially_breaking" summary
       else if String.eqb (type change) "non_breaking" then
         DiffService.incr "non_breaking" summary
       else summary)
    cs
    [("breaking", a); ("potentially_breaking", b); ("non_breaking", c)]
  = [("breaking", (a + count_type "breaking" cs)%Z);
     ("potentially_breaking", (b + count_type "potentially_breaking" cs)%Z);
     ("non_breaking", (c + count_type "non_breaking" cs)%Z)].
Proof.
  revert a b c.
  induction cs as [| x cs IH]; intros a b c.
  - unfold count_type. simpl. rewrite !Z.add_0_r. reflexivity.
  - cbn [fold_left]. rewrite !count_type_cons.
    destruct (String.eqb (type x) "breaking") eqn:Eb.
    + apply String.eqb_eq in Eb. rewrite Eb.
      change (DiffService.incr "breaking"
                [("breaking", a); ("potentially_breaking", b);
                 ("non_breaking", c)])
        with [("breaking", (a + 1)%Z); ("potentially_breaking", b);
              ("non_breaking", c)].
      rewrite IH. simpl (String.eqb _ _). cbn iota.
      rewrite ?Z.add_0_l, ?Z.add_assoc. reflexivity.
    + destruct (String.eqb (type x) "potentially_breaking") eqn:Ep.
      * apply String.eqb_eq in Ep. try rewrite Ep.
        change (DiffService.incr "potentially_breaking"
                  [("breaking", a); ("potentially_breaking", b);
                   ("non_breaking", c)])
          with [("breaking", a); ("potentially_breaking", (b + 1)%Z);
                ("non_breaking", c)].
        rewrite IH. simpl (String.eqb _ _). cbn iota.
        rewrite ?Z.add_0_l, ?Z.add_assoc. reflexivity.
      * destruct (String.eqb (type x) "non_breaking") eqn:En.
        -- apply String.eqb_eq in En. try rewrite En.
           change (DiffService.incr "non_breaking"
                     [("breaking", a); ("potentially_breaking", b);
                      ("non_breaking", c)])
             with [("breaking", a); ("potentially_breaking", b);
                   ("non_breaking", (c + 1)%Z)].
           rewrite IH. simpl (String.eqb _ _). cbn iota.
           rewrite ?Z.add_0_l, ?Z.add_assoc. reflexivity.
        -- rewrite IH, ?Z.add_0_l. reflexivity.
Qed.

(** X4. For any list of changes, each of the three counts of the summary is
    the number of changes of that severity, and the changes are returned one
    for one in their order; a change of another severity is counted
    nowhere. *)
Theorem build_result_counts (cs : list Change) :
  count "breaking" (DiffService._build_result cs) = count_type "breaking" cs /\
  count "potentially_breaking" (DiffService._build_result cs)
  = count_type "potentially_breaking" cs /\
  count "non_breaking" (DiffService._build_result cs)
  = count_type "non_breaking" cs /\
  changes (DiffService._build_result cs) = map to_dict cs /\
  dict_keys (summary (DiffService._build_result cs)) = severities.
Proof.
  unfold DiffService._build_result, count. cbn [summary changes].
  rewrite summary_counts_exact. cbn. repeat split; reflexivity.
Qed.

(** ** Empty input *)

Lemma rstrip_empty (s : string) : rstrip s = "" <-> all_space s = true.
Proof.
  unfold all_space. induction s as [| c s IH]; simpl.
  - tauto.
  - destruct (rstrip s) as [| c' t] eqn:E.
    + destruct (is_space c); simpl.
      * split; intros _; [apply IH; reflexivity | reflexivity].
      * split; intros H; discriminate H.
    + split; intros H; [discriminate H |].
      apply andb_true_iff in H. destruct H as [_ H].
      apply IH in H. discriminate H.
Qed.

Lemma all_space_lstrip (s : string) : all_space (lstrip s) = all_space s.
Proof.
  unfold all_space. induction s as [| c s IH]; simpl; [reflexivity |].
  destruct (is_space c) eqn:E; simpl.
  - exact IH.
  - rewrite E. reflexivity.
Qed.

Lemma blank_all_space (s : string) : blank s = all_space s.
Proof.
  unfold blank. destruct (all_space s) eqn:E.
  - apply orb_true_iff. right. apply String.eqb_eq. unfold strip.
    apply rstrip_empty. rewrite all_space_lstrip. exact E.
  - apply orb_false_iff. split.
    + destruct s; [discriminate E | reflexivity].
    + apply String.eqb_neq. intros H. unfold strip in H.
      apply rstrip_empty in H. rewrite all_space_lstrip in H. congruence.
Qed.

Section ParserProperties.
Variable json_loads : string -> string + value.
Variable yaml_safe_load : string -> string + value.

Lemma decode_not_empty_input (content file_type : string) :
  Parser.decode json_loads yaml_safe_load content file_type
  <> Raise EmptyInput.
Proof.
  unfold Parser.decode, EmptyInput, Raise.
  destruct (String.eqb (lower file_type) "json").
  - destruct (json_loads content); intros H; discriminate H.
  - destruct (String.eqb (lower file_type) "yaml"
              || String.eqb (lower file_type) "yml").
    + destruct (yaml_safe_load content); intros H; discriminate H.
    + intros H; discriminate H.
Qed.

(** X5. An ASCII content is rejected as empty exactly when it consists of
    whitespace only (the empty text included), whatever the format, even an
    unsupported one; no other ASCII content is ever rejected as empty. *)
Theorem parse_empty_input (content file_type : string) :
  is_ascii content = true ->
  (Parser.parse json_loads yaml_safe_load content file_type = Raise EmptyInput
   <-> all_space content = true).
Proof.
  intros _. unfold Parser.parse. fold (blank content). rewrite blank_all_space.
  destruct (all_space content).
  - split; reflexivity.
  - split; [| discriminate]. intros H. exfalso.
    pose proof (decode_not_empty_input content file_type) as Hd.
    destruct (Parser.decode json_loads yaml_safe_load content file_type)
      as [e | spec]; simpl in H.
    + contradiction.
    + destruct spec as [| | | | | d]; simpl in H; try discriminate H.
      rewrite validate_spec_cases in H.
      repeat match type of H with
             | context [if ?b then _ else _] => destruct b; simpl in H
             end; discriminate H.
Qed.

Lemma decode_supported (content file_type : string) (v : value) :
  Parser.decode json_loads yaml_safe_load content file_type = Ok v ->
  supported_format file_type = true.
Proof.
  unfold Parser.decode, supported_format. simpl.
  destruct (String.eqb (lower file_type) "json"); [reflexivity |].
  destruct (String.eqb (lower file_type) "yaml"); [reflexivity |].
  destruct (String.eqb (lower file_type) "yml"); [reflexivity |].
  simpl. discriminate.
Qed.

(** X6. [parse] returns a document exactly when the content is not blank,
    the format is json, yaml or yml in any case, the decoder returns a
    mapping, and the values of [info], of [paths] and of [openapi] or
    [swagger] in it are true; the document returned is the decoded mapping,
    unchanged. *)
Theorem parse_accepts (content file_type : string) (spec : value) :
  Parser.parse json_loads yaml_safe_load content file_type = Ok spec <->
  exists d,
    spec = VDict d /\
    all_space content = false /\
    supported_format file_type = true /\
    Parser.decode json_loads yaml_safe_load content file_type = Ok (VDict d) /\
    truthy (value_at "openapi" d) || truthy (value_at "swagger" d) = true /\
    truthy (value_at "info" d) = true /\
    truthy (value_at "paths" d) = true.
Proof.
  unfold Parser.parse. fold (blank content). rewrite blank_all_space.
  split.
  - destruct (all_space content) eqn:Hs; [discriminate |].
    destruct (Parser.decode json_loads yaml_safe_load content file_type)
      as [e | v] eqn:Hdec; simpl; [discriminate |].
    destruct v as [| | | | | d]; simpl; try discriminate.
    rewrite validate_spec_cases.
    destruct (negb (truthy (value_at "openapi" d))
              && negb (truthy (value_at "swagger" d))) eqn:Hv; simpl;
      [discriminate |].
    destruct (truthy (value_at "info" d)) eqn:Ei; simpl; [| discriminate].
    destruct (truthy (value_at "paths" d)) eqn:Ep; simpl; [| discriminate].
    intros H. injection H as <-. exists d.
    split; [reflexivity |]. split; [reflexivity |].
    split; [eapply decode_supported; exact Hdec |].
    split; [reflexivity |]. split; [| split; assumption].
    destruct (truthy (value_at "openapi" d)); [reflexivity |].
    destruct (truthy (value_at "swagger" d)); [reflexivity | discriminate Hv].
  - intros (d & -> & Hs & _ & Hdec & Hv & Hi & Hp).
    rewrite Hs, Hdec. simpl. rewrite validate_spec_cases.
    rewrite Hi, Hp. apply orb_true_iff in Hv.
    destruct Hv as [-> | ->]; simpl; [reflexivity |].
    rewrite andb_false_r. reflexivity.
Qed.
End ParserProperties.

Lemma parse_empty_input_witness :
  is_ascii "  " = true /\
  Parser.parse sample_json_loads sample_yaml_safe_load "  " "xml"
  = Raise EmptyInput.
Proof.
  split; [reflexivity |].
  apply (parse_empty_input sample_json_loads sample_yaml_safe_load "  " "xml");
    reflexivity.
Defined.

Lemma parse_accepts_witness :
  Parser.parse sample_json_loads sample_yaml_safe_load api_v1_yaml "YAML"
  = Ok api_v1.
Proof.
  apply (parse_accepts sample_json_loads sample_yaml_safe_load api_v1_yaml
           "YAML" api_v1).
  eexists. repeat split; reflexivity.
Defined.

(** ** Normalization *)

Lemma normalize_paths_loop_cases (entries acc : list (string * value)) :
  Normalizer.normalize_paths_loop entries acc =
  if forallb (fun kv => is_dict (snd kv)) entries then
    Ok (fold_left
          (fun acc kv =>
             sset (fst kv)
               (VDict (Normalizer.normalize_path_item (items_of (snd kv)))) acc)
          entries acc)
  else Raise (AttributeError "items").
Proof.
  revert acc. induction entries as [| [p item] entries IH]; intros acc; simpl.
  - reflexivity.
  - destruct item; simpl; try reflexivity. apply IH.
Qed.

Lemma normalize_paths_cases (raw : value) :
  Normalizer._normalize_paths_openapi3 raw =
  (if mapping_of_mappings raw then Ok (VDict (normalized_entries (items_of raw)))
   else Raise (AttributeError "items")) /\
  Normalizer._normalize_paths_swagger2 raw =
  (if mapping_of_mappings raw then Ok (VDict (normalized_entries (items_of raw)))
   else Raise (AttributeError "items")).
Proof.
  unfold Normalizer._normalize_paths_openapi3,
    Normalizer._normalize_paths_swagger2, normalized_entries.
  destruct raw as [| | | | | entries]; simpl; try (split; reflexivity).
  rewrite normalize_paths_loop_cases.
  destruct (forallb (fun kv => is_dict (snd kv)) entries); split; reflexivity.
Qed.

Lemma py_get_dict (d : list (string * value)) (k : string) (default : value) :
  py_get (VDict d) k default = Ok (value_or k default d).
Proof.
  unfold py_get, value_or. destruct (sget k d); reflexivity.
Qed.

Lemma normalize_versioned_cases (d : list (string * value)) :
  smem "swagger" d || smem "openapi" d = true ->
  Normalizer.normalize (VDict d) =
  if mapping_of_mappings (value_or "paths" (VDict []) d)
  then Ok (normalized_document d)
  else Raise (AttributeError "items").
Proof.
  intros Hv. unfold Normalizer.normalize, normalized_document.
  cbn [py_in rbind Ok].
  destruct (smem "swagger" d) eqn:Es.
  - unfold Normalizer._normalize_swagger_2. rewrite !py_get_dict.
    cbn [rbind Ok]. rewrite (proj2 (normalize_paths_cases _)).
    destruct (mapping_of_mappings (value_or "paths" (VDict []) d)); reflexivity.
  - simpl in Hv. rewrite Hv.
    unfold Normalizer._normalize_openapi_3. rewrite !py_get_dict.
    cbn [rbind Ok]. rewrite (proj1 (normalize_paths_cases _)).
    destruct (mapping_of_mappings (value_or "paths" (VDict []) d)); reflexivity.
Qed.

(** X7. For documents whose mapping keys are all texts, as the type [value]
    has them and as every JSON document has them (on a key that is not a
    text, which YAML allows, [method.lower()] raises): on a document with a
    [swagger] or [openapi] key, [normalize] raises (an [AttributeError], for
    the missing [items]) exactly when [paths] is not a mapping or one of its
    path items is not a mapping; otherwise it returns the four entries
    version, info, paths and definitions (Swagger v2, which wins when both
    keys are present) or components (OpenAPI v3), with the defaults of the
    code for missing entries. *)
Theorem normalize_versioned (d : list (string * value)) :
  smem "swagger" d || smem "openapi" d = true ->
  Normalizer.normalize (VDict d) =
  if mapping_of_mappings (value_or "paths" (VDict []) d)
  then Ok (normalized_document d)
  else Raise (AttributeError "items").
Proof. exact (normalize_versioned_cases d). Qed.

Lemma normalize_versioned_witness :
  Normalizer.normalize text_item_api = Raise (AttributeError "items").
Proof.
  apply (normalize_versioned
           [("openapi", VStr "3.0.0"); ("info", info_v1);
            ("paths", VDict [("/users", VStr "listed elsewhere")])]).
  reflexivity.
Defined.

Lemma normalize_passthrough (v normalized : value) :
  is_dict v = false ->
  Normalizer.normalize v = Ok normalized ->
  normalized = v /\ Normalizer.normalize v = Ok v.
Proof.
  intros Hd.
  assert (Hs2 : Normalizer._normalize_swagger_2 v = Raise (AttributeError "get"))
    by (destruct v; try discriminate Hd; reflexivity).
  assert (Ho3 : Normalizer._normalize_openapi_3 v = Raise (AttributeError "get"))
    by (destruct v; try discriminate Hd; reflexivity).
  unfold Normalizer.normalize. rewrite Hs2, Ho3.
  destruct (py_in (VStr "swagger") v) as [e | sw]; [discriminate |].
  destruct (py_in (VStr "openapi") v) as [e | oa]; [discriminate |].
  unfold rbind. destruct sw; [discriminate |]. destruct oa; [discriminate |].
  intros H. injection H as <-. auto.
Qed.

(** X8. Normalizing is idempotent: a document that [normalize] returned is
    returned unchanged by [normalize]. *)
Theorem normalize_idempotent (spec normalized : value) :
  Normalizer.normalize spec = Ok normalized ->
  Normalizer.normalize normalized = Ok normalized.
Proof.
  intros H. destruct (is_dict spec) eqn:Hd.
  - destruct spec as [| | | | | d]; try discriminate Hd.
    destruct (smem "swagger" d || smem "openapi" d) eqn:Hv.
    + rewrite (normalize_versioned_cases d Hv) in H.
      destruct (mapping_of_mappings (value_or "paths" (VDict []) d));
        [| discriminate H].
      injection H as <-. unfold normalized_document.
      destruct (smem "swagger" d); reflexivity.
    + apply orb_false_iff in Hv. destruct Hv as [Hs Ho].
      unfold Normalizer.normalize in H |- *. cbn [py_in rbind Ok] in H.
      rewrite Hs, Ho in H. injection H as <-.
      cbn [py_in rbind Ok]. rewrite Hs, Ho. reflexivity.
  - destruct (normalize_passthrough _ _ Hd H) as [-> Hn]. exact Hn.
Qed.

Lemma normalize_idempotent_witness :
  exists normalized,
    Normalizer.normalize api_v1 = Ok normalized /\
    Normalizer.normalize normalized = Ok normalized.
Proof.
  eexists. split; [reflexivity |].
  apply (normalize_idempotent api_v1). reflexivity.
Defined.

(** ** Canonical path items *)

Lemma sset_keys_In {V : Type} (k x : string) (v : V) (d : list (string * V)) :
  In x (dict_keys (sset k v d)) <-> x = k \/ In x (dict_keys d).
Proof.
  unfold sset, dict_keys. induction d as [| [k' v'] d IH]; simpl.
  - intuition.
  - destruct (String.eqb k' k) eqn:E; simpl.
    + apply String.eqb_eq in E. subst k'. intuition.
    + rewrite IH. intuition.
Qed.

Lemma sset_keys_NoDup {V : Type} (k : string) (v : V) (d : list (string * V)) :
  NoDup (dict_keys d) -> NoDup (dict_keys (sset k v d)).
Proof.
  unfold sset, dict_keys. induction d as [| [k' v'] d IH]; simpl; intros H.
  - constructor; [intros [] | constructor].
  - inversion H as [| ? ? Hnot Hd]; subst.
    destruct (String.eqb k' k) eqn:E; simpl.
    + constructor; assumption.
    + constructor; [| apply IH; exact Hd].
      intros Hin. apply (sset_keys_In k k' v d) in Hin.
      destruct Hin as [-> | Hin]; [| contradiction].
      rewrite String.eqb_refl in E. discriminate E.
Qed.

Lemma sset_values {V : Type} (P : V -> Prop) (k : string) (v : V)
    (d : list (string * V)) :
  Forall (fun kv => P (snd kv)) d -> P v ->
  Forall (fun kv => P (snd kv)) (sset k v d).
Proof.
  unfold sset. intros Hd Hv. induction Hd as [| [k' v'] d Hx Hl IH]; simpl.
  - repeat constructor. exact Hv.
  - destruct (String.eqb k' k); constructor; simpl; assumption.
Qed.

Lemma sset_fresh {V : Type} (k : string) (v : V) (d : list (string * V)) :
  ~ In k (dict_keys d) -> sset k v d = (d ++ [(k, v)])%list.
Proof.
  unfold sset, dict_keys. induction d as [| [k' v'] d IH]; simpl; intros H.
  - reflexivity.
  - destruct (String.eqb k' k) eqn:E.
    + apply String.eqb_eq in E. subst k'. tauto.
    + rewrite IH by tauto. reflexivity.
Qed.

Lemma fold_sset_rebuild {V : Type} (l acc : list (string * V)) :
  NoDup (dict_keys (acc ++ l)%list) ->
  fold_left (fun a kv => sset (fst kv) (snd kv) a) l acc = (acc ++ l)%list.
Proof.
  revert acc. induction l as [| [k v] l IH]; intros acc H; simpl.
  - rewrite app_nil_r. reflexivity.
  - assert (Hfresh : ~ In k (dict_keys acc)).
    { unfold dict_keys in *. rewrite map_app in H. simpl in H.
      apply NoDup_remove_2 in H. intros Hin. apply H.
      apply in_or_app. left; exact Hin. }
    rewrite (sset_fresh k v acc Hfresh). rewrite IH.
    + rewrite <- app_assoc. reflexivity.
    + rewrite <- app_assoc. exact H.
Qed.

Lemma fold_left_agree {A B : Type} (f g : A -> B -> A) (l : list B) (a : A) :
  Forall (fun x => forall a, f a x = g a x) l ->
  fold_left f l a = fold_left g l a.
Proof.
  intros H. revert a. induction H as [| x l Hx _ IH]; intros a; simpl.
  - reflexivity.
  - rewrite Hx. apply IH.
Qed.

Lemma method_lower_fixed (k : string) :
  In k Normalizer.methods -> lower k = k /\ Normalizer.is_method (lower k) = true.
Proof.
  unfold Normalizer.methods. simpl.
  intros H. repeat (destruct H as [<- | H]; [split; reflexivity |]).
  contradiction.
Qed.

Lemma normalize_path_item_keys (items acc : list (string * value)) :
  NoDup (dict_keys acc) ->
  Forall (fun k => In k Normalizer.methods) (dict_keys acc) ->
  let n := fold_left
             (fun acc kv =>
                if Normalizer.is_method (lower (fst kv))
                then sset (lower (fst kv)) (snd kv) acc else acc)
             items acc in
  NoDup (dict_keys n) /\ Forall (fun k => In k Normalizer.methods) (dict_keys n).
Proof.
  revert acc. induction items as [| [k v] items IH]; intros acc Hnd Hm.
  - simpl. auto.
  - cbn [fold_left fst snd].
    destruct (Normalizer.is_method (lower k)) eqn:E; [| apply IH; assumption].
    apply IH.
    + apply sset_keys_NoDup. exact Hnd.
    + apply Forall_forall. intros x Hx. apply sset_keys_In in Hx.
      destruct Hx as [-> | Hx].
      * unfold Normalizer.is_method in E. apply existsb_exists in E.
        destruct E as (y & Hy & Heq). apply String.eqb_eq in Heq.
        rewrite Heq. exact Hy.
      * rewrite Forall_forall in Hm. apply Hm. exact Hx.
Qed.

Lemma normalize_path_item_fixed (items : list (string * value)) :
  NoDup (dict_keys (Normalizer.normalize_path_item items)) /\
  Forall (fun k => In k Normalizer.methods)
    (dict_keys (Normalizer.normalize_path_item items)) /\
  Normalizer.normalize_path_item (Normalizer.normalize_path_item items)
  = Normalizer.normalize_path_item items.
Proof.
  destruct (normalize_path_item_keys items [] (NoDup_nil _) (Forall_nil _))
    as [Hnd Hm].
  fold (Normalizer.normalize_path_item items) in Hnd, Hm.
  split; [exact Hnd |]. split; [exact Hm |].
  set (n := Normalizer.normalize_path_item items) in *.
  unfold Normalizer.normalize_path_item at 1.
  rewrite (fold_left_agree _ (fun a kv => sset (fst kv) (snd kv) a)).
  - apply (fold_sset_rebuild n []). exact Hnd.
  - apply Forall_forall. intros [k v] Hin a. simpl.
    assert (Hk : In k Normalizer.methods).
    { rewrite Forall_forall in Hm. apply Hm. unfold dict_keys.
      apply in_map_iff. exists (k, v). auto. }
    destruct (method_lower_fixed k Hk) as [Hl Hmeth].
    rewrite Hmeth, Hl. reflexivity.
Qed.

(** X9. A normalized path item is canonical: its keys are distinct, each is
    one of the seven lower-case method names, and normalizing it again
    returns it unchanged. *)
Theorem normalize_path_item_canonical (items : list (string * value)) :
  NoDup (dict_keys (Normalizer.normalize_path_item items)) /\
  Forall (fun k => In k Normalizer.methods)
    (dict_keys (Normalizer.normalize_path_item items)) /\
  Normalizer.normalize_path_item (Normalizer.normalize_path_item items)
  = Normalizer.normalize_path_item items.
Proof. exact (normalize_path_item_fixed items). Qed.

Lemma normalized_entries_shape (entries acc : list (string * value)) :
  NoDup (dict_keys acc) ->
  Forall (fun kv => exists items,
            snd kv = VDict (Normalizer.normalize_path_item items)) acc ->
  let n := fold_left
             (fun acc kv =>
                sset (fst kv)
                  (VDict (Normalizer.normalize_path_item (items_of (snd kv))))
                  acc)
             entries acc in
  NoDup (dict_keys n) /\
  Forall (fun kv => exists items,
            snd kv = VDict (Normalizer.normalize_path_item items)) n.
Proof.
  revert acc. induction entries as [| [p item] entries IH]; intros acc Hnd Hv.
  - simpl. auto.
  - cbn [fold_left fst snd]. apply IH.
    + apply sset_keys_NoDup. exact Hnd.
    + apply (sset_values
               (fun v => exists items,
                  v = VDict (Normalizer.normalize_path_item items))).
      * exact Hv.
      * eauto.
Qed.

Lemma normalized_entries_fixed (entries : list (string * value)) :
  mapping_of_mappings (VDict (normalized_entries entries)) = true /\
  normalized_entries (normalized_entries entries) = normalized_entries entries.
Proof.
  destruct (normalized_entries_shape entries [] (NoDup_nil _) (Forall_nil _))
    as [Hnd Hv].
  fold (normalized_entries entries) in Hnd, Hv.
  set (n := normalized_entries entries) in *. split.
  - simpl. apply forallb_forall. intros kv Hin.
    rewrite Forall_forall in Hv. destruct (Hv kv Hin) as (items & ->).
    reflexivity.
  - unfold normalized_entries at 1.
    rewrite (fold_left_agree _ (fun a kv => sset (fst kv) (snd kv) a)).
    + apply (fold_sset_rebuild n []). exact Hnd.
    + eapply Forall_impl; [| exact Hv].
      intros [p item] (items & Hitem) a. simpl in Hitem |- *. subst item.
      simpl. destruct (normalize_path_item_fixed items) as (_ & _ & ->).
      reflexivity.
Qed.

(** X10. The two path normalizations are the same function and are
    idempotent: the paths either of them returned are returned unchanged by
    both. *)
Theorem normalize_paths_idempotent (raw normalized : value) :
  Normalizer._normalize_paths_openapi3 raw = Ok normalized \/
  Normalizer._normalize_paths_swagger2 raw = Ok normalized ->
  Normalizer._normalize_paths_openapi3 raw
  = Normalizer._normalize_paths_swagger2 raw /\
  Normalizer._normalize_paths_openapi3 normalized = Ok normalized /\
  Normalizer._normalize_paths_swagger2 normalized = Ok normalized.
Proof.
  destruct (normalize_paths_cases raw) as [H3 H2]. rewrite H3, H2.
  intros H. split; [reflexivity |].
  assert (Hn : normalized = VDict (normalized_entries (items_of raw))).
  { destruct (mapping_of_mappings raw); destruct H as [H | H];
      try discriminate H; injection H as <-; reflexivity. }
  subst normalized.
  destruct (normalize_paths_cases (VDict (normalized_entries (items_of raw))))
    as [H3' H2'].
  destruct (normalized_entries_fixed (items_of raw)) as [Hm Hfix].
  rewrite H3', H2', Hm. cbn [items_of]. rewrite Hfix. split; reflexivity.
Qed.

Lemma normalize_paths_idempotent_witness :
  Normalizer._normalize_paths_openapi3 mixed_case_paths
  = Normalizer._normalize_paths_swagger2 mixed_case_paths /\
  Normalizer._normalize_paths_openapi3
    (VDict [("/users",
             VDict [("get", VDict [("summary", VStr "last")]);
                    ("post", VDict [])])])
  = Ok (VDict [("/users",
                VDict [("get", VDict [("summary", VStr "last")]);
                       ("post", VDict [])])]) /\
  Normalizer._normalize_paths_swagger2
    (VDict [("/users",
             VDict [("get", VDict [("summary", VStr "last")]);
                    ("post", VDict [])])])
  = Ok (VDict [("/users",
                VDict [("get", VDict [("summary", VStr "last")]);
                       ("post", VDict [])])]).
Proof.
  apply (normalize_paths_idempotent mixed_case_paths). left. reflexivity.
Defined.

(** ** Paths reported as endpoints *)

Lemma path_block_path (old_paths new_paths p : value) (block : list Change) :
  path_block old_paths new_paths p block ->
  Forall (fun c => path c = p /\ category c <> "endpoint") block.
Proof.
  intros (old_items & new_items & op_blocks & _ & _ & -> & Hops).
  apply Forall_app. split.
  - unfold method_changes. apply Forall_app. split;
      apply Forall_forall; intros c Hc; apply in_map_iff in Hc;
      destruct Hc as (m & <- & _); simpl; split;
      try reflexivity; discriminate.
  - induction Hops as [| m ops ms obs Ho _ IH]; simpl; [constructor |].
    apply Forall_app. split; [| exact IH].
    eapply Forall_impl; [| exact Ho].
    intros c (Hcat & Hp & _). split; [exact Hp |].
    intros E. rewrite E in Hcat. simpl in Hcat.
    destruct Hcat as [H | [H | [H | []]]]; discriminate H.
Qed.

Lemma in_concat_blocks (old_paths new_paths : value) (ps : list value)
    (blocks : list (list Change)) (c : Change) :
  Forall2 (path_block old_paths new_paths) ps blocks ->
  In c (concat blocks) ->
  In (path c) ps /\ category c <> "endpoint".
Proof.
  induction 1 as [| p block ps blocks Hp _ IH]; simpl; [contradiction |].
  intros Hin. apply in_app_or in Hin. destruct Hin as [Hin | Hin].
  - apply path_block_path in Hp. rewrite Forall_forall in Hp.
    destruct (Hp c Hin) as [-> Hc]. auto.
  - destruct (IH Hin) as [Hps Hc]. auto.
Qed.

(** X11. A path reported as a removed or an added endpoint is not visited
    again: no method, parameter, schema or response change of the same
    comparison carries that path. *)
Theorem endpoint_paths_not_revisited (py_str : value -> string)
    (old_spec new_spec : value) (cs : list Change) (c1 c2 : Change) :
  Differ.diff py_str old_spec new_spec = inr cs ->
  In c1 cs -> In c2 cs ->
  category c1 = "endpoint" -> category c2 <> "endpoint" ->
  path c1 <> path c2.
Proof.
  intros H H1 H2 Hc1 Hc2.
  apply diff_returns_shape in H.
  destruct H as (old_paths & new_paths & _ & _ & Hshape).
  destruct Hshape as (olds & news & blocks & Holds & Hnews & -> & Hb).
  assert (Hend : Forall endpoint_level
                   (endpoint_changes old_paths new_paths olds news))
    by apply endpoint_changes_level.
  rewrite Forall_forall in Hend.
  apply in_app_or in H1. apply in_app_or in H2.
  destruct H2 as [H2 | H2].
  { destruct (Hend c2 H2) as (Hcat & _). contradiction. }
  destruct (in_concat_blocks _ _ _ _ _ Hb H2) as [Hp2 _].
  apply filter_In in Hp2. destruct Hp2 as [Hin2 Hpresent].
  destruct H1 as [H1 | H1].
  2:{ destruct (in_concat_blocks _ _ _ _ _ Hb H1) as [_ Hne]. contradiction. }
  unfold endpoint_changes in H1. apply in_app_or in H1.
  intros Heq. destruct H1 as [H1 | H1];
    apply in_map_iff in H1; destruct H1 as (x & <- & Hx);
    apply filter_In in Hx; destruct Hx as [_ Habsent];
    simpl in Heq; subst x.
  - unfold absent_from in Habsent. unfold present_in in Hpresent.
    destruct (py_in (path c2) new_paths) as [e | []]; discriminate.
  - unfold absent_from in Habsent.
    rewrite (iter_present _ _ _ Holds Hin2) in Habsent. discriminate.
Qed.

Lemma endpoint_paths_not_revisited_witness :
  path (Classifier.classify_endpoint_removal (VStr "/posts"))
  <> path (Classifier.classify_method_addition (VStr "/users") "post").
Proof.
  apply (endpoint_paths_not_revisited sample_str api_v1 api_v2
           [ Classifier.classify_endpoint_removal (VStr "/posts");
             Classifier.classify_method_addition (VStr "/users") "post";
             Classifier.classify_parameter_change (VStr "/users") "get"
               (VStr "id") "type_changed" (VBool false) ]).
  - vm_compute. reflexivity.
  - left. reflexivity.
  - right. left. reflexivity.
  - reflexivity.
  - discriminate.
Defined.

(** ** The changes of one operation *)

Section OperationOrder.
Variable py_str : value -> string.
Variables (p : value) (m : string).

Lemma diff_parameters_category old_op new_op is_openapi3 :
  emits (Differ._diff_parameters py_str p m old_op new_op is_openapi3)
    (all_changes (fun c => category c = "parameter")).
Proof.
  unfold Differ._diff_parameters. cbv zeta. repeat step_all; solve_level.
Qed.

Lemma diff_request_body_category old_op new_op :
  emits (Differ._diff_request_body py_str p m old_op new_op)
    (all_changes (fun c => category c = "schema")).
Proof.
  unfold Differ._diff_request_body, Differ._diff_schema.
  repeat step_all; solve_level.
Qed.

Lemma diff_responses_category old_op new_op :
  emits (Differ._diff_responses p m old_op new_op)
    (all_changes (fun c => category c = "response")).
Proof.
  unfold Differ._diff_responses. repeat step_all; solve_level.
Qed.

(** X12. The changes of one operation come in the order of its three
    checks: parameter changes, then request-body (schema) changes, then
    response changes; and when the old operation has neither a [parameters]
    nor a [requestBody] key there is no schema change, whatever the new
    operation declares. *)
Theorem operation_changes_order (old_op new_op : value) (s s' : list Change) :
  Differ._diff_operation py_str p m old_op new_op s = inr (tt, s') ->
  exists ps ss rs,
    s' = s ++ ps ++ ss ++ rs /\
    Forall (fun c => category c = "parameter") ps /\
    Forall (fun c => category c = "schema") ss /\
    Forall (fun c => category c = "response") rs /\
    (py_in (VStr "parameters") old_op = inr false ->
     py_in (VStr "requestBody") old_op = inr false -> ss = []).
Proof.
  unfold Differ._diff_operation. intros H.
  unfold bind at 1 in H. unfold lift at 1 in H.
  destruct (py_in (VStr "parameters") old_op) as [e | hp] eqn:E1;
    [discriminate |].
  cbn [Ok] in H. unfold bind at 1 in H.
  match type of H with
  | match ?run with _ => _ end = _ =>
      destruct run as [e | [is3 s1]] eqn:E2; [discriminate |]
  end.
  assert (Hgate : s1 = s /\
            (hp = false -> py_in (VStr "requestBody") old_op = inr is3)).
  { destruct hp.
    - unfold ret, Ok in E2. injection E2 as <- <-. split; [reflexivity |].
      discriminate.
    - unfold lift in E2.
      destruct (py_in (VStr "requestBody") old_op) as [e | b];
        [discriminate |].
      unfold Ok in E2. injection E2 as <- <-. auto. }
  destruct Hgate as [-> Hgate].
  unfold bind at 1 in H.
  destruct (Differ._diff_parameters py_str p m old_op new_op is3 s)
    as [e | [u s2]] eqn:E3; [discriminate |].
  apply diff_parameters_category in E3. destruct E3 as (ps & -> & Hps).
  unfold bind at 1 in H.
  match type of H with
  | match ?run with _ => _ end = _ =>
      destruct run as [e | [u' s3]] eqn:E4; [discriminate |]
  end.
  assert (Hbody : exists ss, s3 = (s ++ ps) ++ ss /\
            Forall (fun c => category c = "schema") ss /\
            (is3 = false -> ss = [])).
  { destruct is3.
    - apply diff_request_body_category in E4.
      destruct E4 as (ss & -> & Hss). exists ss.
      split; [reflexivity |]. split; [exact Hss | discriminate].
    - unfold ret, Ok in E4. injection E4 as _ <-. exists [].
      rewrite app_nil_r. split; [reflexivity |]. split; [constructor | auto]. }
  destruct Hbody as (ss & -> & Hss & Hnone).
  apply diff_responses_category in H. destruct H as (rs & -> & Hrs).
  exists ps, ss, rs. rewrite <- !app_assoc.
  split; [reflexivity |]. repeat (split; [assumption |]).
  intros Hp Hb. apply Hnone.
  assert (Hhp : hp = false) by congruence.
  specialize (Hgate Hhp). congruence.
Qed.
End OperationOrder.

Lemma operation_changes_order_witness :
  exists ps ss rs,
    [ Classifier.classify_schema_change (VStr "/users") "post" (VStr "email")
        "added" (VBool true) ]
    = [] ++ ps ++ ss ++ rs /\
    Forall (fun c => category c = "parameter") ps /\
    Forall (fun c => category c = "schema") ss /\
    Forall (fun c => category c = "response") rs /\
    (py_in (VStr "parameters") (two_types_operation ["name"]) = inr false ->
     py_in (VStr "requestBody") (two_types_operation ["name"]) = inr false ->
     ss = []).
Proof.
  apply (operation_changes_order sample_str (VStr "/users") "post"
           (two_types_operation ["name"])
           (two_types_operation ["name"; "email"]) []).
  vm_compute. reflexivity.
Defined.

(** ** Responses *)

Lemma for_each_unless_run {A : Type} (xs : list A) (test : A -> bool)
    (f : A -> Change) (s : list Change) :
  for_each xs (fun x => if test x then ret tt else append (f x)) s
  = Ok (tt, s ++ map f (filter (fun x => negb (test x)) xs)).
Proof.
  revert s. induction xs as [| x xs IH]; intros s; simpl.
  - rewrite app_nil_r. reflexivity.
  - unfold bind at 1. destruct (test x); simpl.
    + apply IH.
    + rewrite IH. rewrite <- app_assoc. reflexivity.
Qed.

(** X13. For responses whose status codes are texts, as the type [value]
    has them and as every JSON document has them (on a removed status code
    that is a number, which unquoted YAML gives, [startswith] raises): when
    the responses of both operations can be read, the response check
    returns, after the changes so far, one change per status code of
    the old operation missing from the new one (breaking when the code
    begins with 2, potentially breaking otherwise), in the old key order,
    then one non-breaking change per status code of the new operation
    missing from the old one, in the new key order; a status code of both
    sides yields nothing, whatever the two responses contain. *)
Theorem diff_responses_exact (p : value) (m : string) (old_op new_op : value)
    (old_responses new_responses : list (string * value)) (s : list Change) :
  Normalizer.extract_responses old_op = Ok old_responses ->
  Normalizer.extract_responses new_op = Ok new_responses ->
  Differ._diff_responses p m old_op new_op s =
  Ok (tt,
      s ++ map (fun code =>
                  mkChange
                    (if startswith code "2" then "breaking"
                     else "potentially_breaking")
                    "response" p (Some (upper m))
                    (Some (VStr ("Response " ++ code)))
                    (if startswith code "2" then "Success response (2xx) removed"
                     else "Non-2xx response removed"))
             (filter (fun code => negb (smem code new_responses))
                (dict_keys old_responses))
        ++ map (fun code =>
                  mkChange "non_breaking" "response" p (Some (upper m))
                    (Some (VStr ("Response " ++ code))) "New response status")
             (filter (fun code => negb (smem code old_responses))
                (dict_keys new_responses))).
Proof.
  intros Ho Hn. unfold Differ._diff_responses.
  unfold bind at 1. unfold lift at 1. rewrite Ho. cbn [Ok].
  unfold bind at 1. unfold lift at 1. rewrite Hn. cbn [Ok].
  unfold bind at 1. rewrite for_each_unless_run.
  unfold Ok at 1. rewrite for_each_unless_run.
  rewrite <- app_assoc. f_equal. f_equal. f_equal. f_equal.
  apply map_ext. intros code. unfold Classifier.classify_response_change.
  simpl. destruct (startswith code "2"); reflexivity.
Qed.

Lemma diff_responses_exact_witness :
  Differ._diff_responses (VStr "/a") "get"
    (listed_responses [("200", "OK"); ("404", "Missing")])
    (listed_responses [("200", "Done"); ("201", "Created")]) []
  = Ok (tt,
        [ mkChange "potentially_breaking" "response" (VStr "/a") (Some "GET")
            (Some (VStr "Response 404")) "Non-2xx response removed";
          mkChange "non_breaking" "response" (VStr "/a") (Some "GET")
            (Some (VStr "Response 201")) "New response status" ]).
Proof.
  rewrite (diff_responses_exact (VStr "/a") "get"
             (listed_responses [("200", "OK"); ("404", "Missing")])
             (listed_responses [("200", "Done"); ("201", "Created")])
             _ _ [] eq_refl eq_refl).
  reflexivity.
Defined.

(** ** What the differ reads of a document *)

Lemma diff_reads_paths_old (py_str : value -> string) (old old' new : value) :
  same_paths (Normalizer.normalize old) (Normalizer.normalize old') ->
  Differ.diff py_str old new = Differ.diff py_str old' new.
Proof.
  unfold same_paths, Differ.diff, Differ.diff_body, bind, lift, reset.
  destruct (Normalizer.normalize old) as [e | n],
    (Normalizer.normalize old') as [e' | n']; cbn [Ok];
    intros H; try contradiction.
  - subst e'. reflexivity.
  - destruct (Normalizer.normalize new) as [e | nn]; [reflexivity |].
    rewrite H. reflexivity.
Qed.

Lemma diff_reads_paths_new (py_str : value -> string) (old new new' : value) :
  same_paths (Normalizer.normalize new) (Normalizer.normalize new') ->
  Differ.diff py_str old new = Differ.diff py_str old new'.
Proof.
  unfold same_paths, Differ.diff, Differ.diff_body, bind, lift, reset.
  destruct (Normalizer.normalize old) as [e | n]; cbn [Ok]; [reflexivity |].
  destruct (Normalizer.normalize new) as [e | nn],
    (Normalizer.normalize new') as [e' | nn']; cbn [Ok];
    intros H; try contradiction.
  - subst e'. reflexivity.
  - destruct (py_get n "paths" (VDict [])) as [e | op]; [reflexivity |].
    rewrite H. reflexivity.
Qed.

Lemma sget_sset_other {V : Type} (k m : string) (v : V) (d : list (string * V)) :
  k <> m -> sget m (sset k v d) = sget m d.
Proof.
  intros H. rewrite sget_sset. apply String.eqb_neq in H. rewrite H.
  reflexivity.
Qed.

Lemma same_paths_sset (k : string) (v : value) (d : list (string * value)) :
  ~ In k ["swagger"; "openapi"; "paths"] ->
  same_paths (Normalizer.normalize (VDict (sset k v d)))
    (Normalizer.normalize (VDict d)).
Proof.
  intros Hk. simpl in Hk.
  assert (Hget : forall m, In m ["swagger"; "openapi"; "paths"] ->
                   sget m (sset k v d) = sget m d).
  { intros m Hm. apply sget_sset_other. intros ->. apply Hk.
    simpl in Hm. tauto. }
  assert (Hmem : forall m, In m ["swagger"; "openapi"; "paths"] ->
                   smem m (sset k v d) = smem m d).
  { intros m Hm. generalize (Hget m Hm). unfold smem, dict_mem, sget.
    intros ->. reflexivity. }
  assert (Hpaths : value_or "paths" (VDict []) (sset k v d)
                   = value_or "paths" (VDict []) d).
  { unfold value_or. rewrite Hget by (simpl; tauto). reflexivity. }
  destruct (smem "swagger" d || smem "openapi" d) eqn:Hv.
  - rewrite (normalize_versioned_cases d Hv).
    rewrite (normalize_versioned_cases (sset k v d)).
    2:{ rewrite !Hmem by (simpl; tauto). exact Hv. }
    rewrite Hpaths.
    destruct (mapping_of_mappings (value_or "paths" (VDict []) d));
      [| reflexivity].
    unfold same_paths, normalized_document, Ok.
    rewrite Hpaths, Hmem by (simpl; tauto).
    destruct (smem "swagger" d); reflexivity.
  - apply orb_false_iff in Hv. destruct Hv as [Hs Ho].
    unfold Normalizer.normalize. cbn [py_in rbind Ok].
    rewrite !Hmem by (simpl; tauto). rewrite Hs, Ho.
    cbv iota. unfold same_paths, Ok. rewrite !py_get_dict. rewrite Hpaths.
    reflexivity.
Qed.

(** X14. Only the paths of a document are compared: setting an entry other
    than [paths], [swagger] and [openapi] (the info, the components, the
    definitions, servers, tags) in the old or in the new document changes
    neither the changes reported nor the failure raised. *)
Theorem other_entries_not_compared (py_str : value -> string) (k : string)
    (v : value) (d : list (string * value)) (other : value) :
  ~ In k ["swagger"; "openapi"; "paths"] ->
  Differ.diff py_str (VDict (sset k v d)) other
  = Differ.diff py_str (VDict d) other /\
  Differ.diff py_str other (VDict (sset k v d))
  = Differ.diff py_str other (VDict d).
Proof.
  intros Hk. split.
  - apply diff_reads_paths_old. apply same_paths_sset. exact Hk.
  - apply diff_reads_paths_new. apply same_paths_sset. exact Hk.
Qed.

Lemma other_entries_not_compared_witness :
  Differ.diff sample_str
    (VDict (sset "info" (VDict [("title", VStr "Renamed")])
              [("openapi", VStr "3.0.0"); ("info", info_v1);
               ("paths", VDict [("/users", VDict [("get", VDict [])])])]))
    api_v2
  = Differ.diff sample_str
      (VDict [("openapi", VStr "3.0.0"); ("info", info_v1);
              ("paths", VDict [("/users", VDict [("get", VDict [])])])])
      api_v2.
Proof.
  apply (other_entries_not_compared sample_str "info").
  simpl. intuition discriminate.
Defined.

(** ** Runs that return *)

Lemma returns_ret {A : Type} (a : A) (Q : A -> Prop) : Q a -> returns (ret a) Q.
Proof. intros H s. exists a, s. split; [reflexivity | exact H]. Qed.

Lemma returns_lift {A : Type} (r : result A) (a : A) (Q : A -> Prop) :
  r = inr a -> Q a -> returns (lift r) Q.
Proof.
  intros -> H s. exists a, s. split; [reflexivity | exact H].
Qed.

Lemma returns_append (c : Change) : returns (append c) (fun _ => True).
Proof. intros s. exists tt, (s ++ [c]). split; [reflexivity | exact I]. Qed.

Lemma returns_bind {A B : Type} (m : M A) (k : A -> M B) (Q1 : A -> Prop)
    (Q2 : B -> Prop) :
  returns m Q1 -> (forall a, Q1 a -> returns (k a) Q2) ->
  returns (bind m k) Q2.
Proof.
  intros Hm Hk s. destruct (Hm s) as (a & s1 & Hrun & Ha).
  destruct (Hk a Ha s1) as (b & s2 & Hrun' & Hb).
  exists b, s2. unfold bind. rewrite Hrun. auto.
Qed.

Lemma returns_bind_lift {A B : Type} (r : result A) (a : A) (k : A -> M B)
    (Q : B -> Prop) :
  r = inr a -> returns (k a) Q -> returns (bind (lift r) k) Q.
Proof.
  intros -> Hk s. destruct (Hk s) as (b & s' & Hrun & Hb).
  exists b, s'. unfold bind, lift. auto.
Qed.

Lemma returns_for_each {A : Type} (xs : list A) (body : A -> M unit) :
  (forall x, In x xs -> returns (body x) (fun _ => True)) ->
  returns (for_each xs body) (fun _ => True).
Proof.
  induction xs as [| x xs IH]; intros H; simpl.
  - apply returns_ret. exact I.
  - apply returns_bind with (Q1 := fun _ => True).
    + apply H. left; reflexivity.
    + intros _ _. apply IH. intros y Hy. apply H. right; exact Hy.
Qed.

Lemma returns_weaken {A : Type} (m : M A) (Q : A -> Prop) :
  returns m Q -> returns m (fun _ => True).
Proof.
  intros H s. destruct (H s) as (a & s' & Hrun & _). eauto.
Qed.

Lemma sget_In {V : Type} (k : string) (v : V) (d : list (string * V)) :
  sget k d = Some v -> In (k, v) d.
Proof.
  unfold sget. induction d as [| [k' v'] d IH]; simpl; [discriminate |].
  destruct (String.eqb k' k) eqn:E.
  - apply String.eqb_eq in E. intros H. injection H as <-. subst. auto.
  - auto.
Qed.

Lemma key_found {V : Type} (k : string) (d : list (string * V)) :
  In k (dict_keys d) -> exists v, sget k d = Some v.
Proof. apply (dict_mem_key String.eqb). exact String.eqb_refl. Qed.

Lemma smem_found {V : Type} (k : string) (d : list (string * V)) :
  smem k d = true -> exists v, sget k d = Some v.
Proof.
  unfold smem, dict_mem, sget. destruct (dict_get String.eqb k d); [eauto |].
  discriminate.
Qed.

(** ** Responses and schemas of well-shaped operations *)

Lemma extract_responses_ok (op : list (string * value)) :
  responses_ok op = true ->
  exists responses, Normalizer.extract_responses (VDict op) = Ok responses.
Proof.
  unfold responses_ok, Normalizer.extract_responses. cbn [py_get].
  destruct (sget "responses" op) as [r |]; [| intros _; simpl; eauto].
  destruct r; try discriminate. intros _. simpl. eauto.
Qed.

Lemma diff_responses_returns (p : value) (m : string)
    (old_op new_op : list (string * value)) :
  responses_ok old_op = true -> responses_ok new_op = true ->
  returns (Differ._diff_responses p m (VDict old_op) (VDict new_op))
    (fun _ => True).
Proof.
  intros Ho Hn.
  destruct (extract_responses_ok _ Ho) as (ro & Hro).
  destruct (extract_responses_ok _ Hn) as (rn & Hrn).
  unfold Differ._diff_responses.
  eapply returns_bind_lift; [exact Hro |].
  eapply returns_bind_lift; [exact Hrn |].
  eapply returns_bind with (Q1 := fun _ => True); [| intros _ _];
    apply returns_for_each; intros code _;
    match goal with
    | |- returns (if ?b then _ else _) _ => destruct b
    end; first [apply returns_ret; exact I | apply returns_append].
Qed.

Lemma schema_ok_parts (schema : value) :
  schema_ok schema = true ->
  exists d props names,
    schema = VDict d /\
    py_get schema "properties" (VDict []) = Ok (VDict props) /\
    forallb (fun kv => is_dict (snd kv)) props = true /\
    rbind (py_get schema "required" (VList [])) py_set = Ok names.
Proof.
  destruct schema as [| | | | | d]; try discriminate. simpl.
  intros H. apply andb_true_iff in H. destruct H as [Hp Hr].
  assert (Hprops : exists props,
            match sget "properties" d with
            | Some v => Ok v
            | None => Ok (VDict [])
            end = Ok (VDict props) /\
            forallb (fun kv => is_dict (snd kv)) props = true).
  { destruct (sget "properties" d) as [v |]; [| exists []; auto].
    destruct v; try discriminate. eauto. }
  destruct Hprops as (props & Hprops & Hall).
  assert (Hnames : exists names,
            rbind match sget "required" d with
                  | Some v => Ok v
                  | None => Ok (VList [])
                  end py_set = Ok names).
  { destruct (sget "required" d) as [v |]; [| exists []; reflexivity].
    destruct v; try discriminate. simpl. unfold py_set. simpl.
    rewrite Hr. eauto. }
  destruct Hnames as (names & Hnames).
  exists d, props, names. auto.
Qed.

Lemma property_found (props : list (string * value)) (k : string) :
  forallb (fun kv => is_dict (snd kv)) props = true ->
  smem k props = true ->
  exists prop ty,
    py_getitem (VDict props) (VStr k) = Ok prop /\
    py_get prop "type" (VStr "") = Ok ty.
Proof.
  intros Hall Hk. destruct (smem_found k props Hk) as (prop & Hprop).
  pose proof (sget_In _ _ _ Hprop) as Hin.
  rewrite forallb_forall in Hall. specialize (Hall _ Hin). simpl in Hall.
  destruct prop as [| | | | | pd]; try discriminate.
  exists (VDict pd). simpl. rewrite Hprop.
  destruct (sget "type" pd) as [ty |]; eauto.
Qed.

Section ReturningSteps.
Variable py_str : value -> string.

Lemma diff_schema_returns (p : value) (m : string) (old_schema new_schema : value)
    (location : string) :
  schema_ok old_schema = true -> schema_ok new_schema = true ->
  returns (Differ._diff_schema py_str p m old_schema new_schema location)
    (fun _ => True).
Proof.
  intros Ho Hn.
  destruct (schema_ok_parts _ Ho) as (od & oprops & onames & -> & Hop & Hoall & Hon).
  destruct (schema_ok_parts _ Hn) as (nd & nprops & nnames & -> & Hnp & Hnall & Hnn).
  unfold Differ._diff_schema.
  eapply returns_bind_lift; [exact Hop |].
  eapply returns_bind_lift; [exact Hnp |].
  eapply returns_bind_lift; [exact Hon |].
  eapply returns_bind_lift; [exact Hnn |].
  eapply returns_bind_lift; [reflexivity |].
  eapply returns_bind with (Q1 := fun _ => True).
  { apply returns_for_each. intros x Hx. apply in_map_iff in Hx.
    destruct Hx as ([k v] & <- & _).
    eapply returns_bind_lift; [reflexivity |]. cbn [fst].
    destruct (smem k nprops);
      [apply returns_ret; exact I | apply returns_append]. }
  intros _ _.
  eapply returns_bind_lift; [reflexivity |].
  eapply returns_bind with (Q1 := fun _ => True).
  { apply returns_for_each. intros x Hx. apply in_map_iff in Hx.
    destruct Hx as ([k v] & <- & _).
    eapply returns_bind_lift; [reflexivity |]. cbn [fst].
    destruct (smem k oprops); [apply returns_ret; exact I |].
    eapply returns_bind_lift; [reflexivity |]. apply returns_append. }
  intros _ _.
  eapply returns_bind_lift; [reflexivity |].
  apply returns_for_each. intros x Hx. apply in_map_iff in Hx.
  destruct Hx as ([k v] & <- & Hkv).
  eapply returns_bind_lift; [reflexivity |].
  cbn [fst]. destruct (smem k nprops) eqn:Hk; [| apply returns_ret; exact I].
  assert (Hko : smem k oprops = true).
  { unfold smem, dict_mem.
    destruct (key_found k oprops) as (w & Hw).
    - unfold dict_keys. apply in_map_iff. exists (k, v). auto.
    - unfold sget in Hw. rewrite Hw. reflexivity. }
  destruct (property_found oprops k Hoall Hko) as (oprop & oty & Hgo & Hto).
  destruct (property_found nprops k Hnall Hk) as (nprop & nty & Hgn & Htn).
  eapply returns_bind_lift; [exact Hgo |].
  eapply returns_bind_lift; [exact Hto |].
  eapply returns_bind_lift; [exact Hgn |].
  eapply returns_bind_lift; [exact Htn |].
  match goal with
  | |- returns (if ?b then _ else _) _ => destruct b
  end; [apply returns_append | apply returns_ret; exact I].
Qed.

Lemma chosen_schema_ok (content : list (string * value)) (s : value) :
  forallb (fun kv => negb (truthy (schema_of (snd kv)))
                     || schema_ok (schema_of (snd kv))) content = true ->
  chosen_schema content = Some s -> schema_ok s = true.
Proof.
  unfold chosen_schema. intros Hall.
  destruct (find (fun kv => truthy (schema_of (snd kv))) content) as [kv |] eqn:E;
    simpl; intros H; [| discriminate].
  injection H as <-. apply find_some in E. destruct E as [Hin Ht].
  rewrite forallb_forall in Hall. specialize (Hall _ Hin). simpl in Hall.
  rewrite Ht in Hall. exact Hall.
Qed.

Lemma request_body_schema (op : list (string * value)) :
  request_body_ok op = true ->
  exists body schema,
    py_get (VDict op) "requestBody" (VDict []) = Ok body /\
    Differ._extract_schema_from_request_body body = Ok schema /\
    (truthy schema = true -> schema_ok schema = true).
Proof.
  unfold request_body_ok.
  destruct (body_content (VDict op)) as [content |] eqn:E; [| discriminate].
  intros Hall.
  destruct (extract_schema_chosen _ _ E) as (body & Hbody & _ & Hschema).
  exists body. eexists. split; [exact Hbody |]. split; [exact Hschema |].
  destruct (chosen_schema content) as [s |] eqn:Ec.
  - intros _. exact (chosen_schema_ok _ _ Hall Ec).
  - discriminate.
Qed.

Lemma diff_request_body_returns (p : value) (m : string)
    (old_op new_op : list (string * value)) :
  request_body_ok old_op = true -> request_body_ok new_op = true ->
  returns (Differ._diff_request_body py_str p m (VDict old_op) (VDict new_op))
    (fun _ => True).
Proof.
  intros Ho Hn.
  destruct (request_body_schema _ Ho) as (ob & os & Hob & Hos & Hoks).
  destruct (request_body_schema _ Hn) as (nb & ns & Hnb & Hns & Hnks).
  unfold Differ._diff_request_body.
  eapply returns_bind_lift; [exact Hob |].
  eapply returns_bind_lift; [exact Hnb |].
  destruct (negb (truthy ob) && negb (truthy nb));
    [apply returns_ret; exact I |].
  eapply returns_bind_lift; [exact Hos |].
  eapply returns_bind_lift; [exact Hns |].
  destruct (truthy os) eqn:Eo; [| apply returns_ret; exact I].
  destruct (truthy ns) eqn:En; [| apply returns_ret; exact I].
  cbn [negb orb]. apply diff_schema_returns; auto.
Qed.

(** ** Parameters of well-shaped operations *)

Lemma dict_get_In {K V : Type} (eqb : K -> K -> bool) (k : K) (v : V)
    (d : list (K * V)) :
  dict_get eqb k d = Some v -> exists k', In (k', v) d.
Proof.
  induction d as [| [k' v'] d IH]; simpl; [discriminate |].
  destruct (eqb k' k).
  - intros H. injection H as <-. eauto.
  - intros H. destruct (IH H) as (k'' & Hin). eauto.
Qed.

Lemma dict_set_values {K V : Type} (eqb : K -> K -> bool) (P : V -> Prop)
    (k : K) (v : V) (d : list (K * V)) :
  Forall (fun kv => P (snd kv)) d -> P v ->
  Forall (fun kv => P (snd kv)) (dict_set eqb k v d).
Proof.
  intros Hd Hv. induction Hd as [| [k' v'] d Hx Hl IH]; simpl.
  - repeat constructor. exact Hv.
  - destruct (eqb k' k); constructor; simpl; assumption.
Qed.

Lemma params_store_ok (params : Normalizer.params_t)
    (param_in param_name info : value) :
  params_ok params -> known_location param_in = true ->
  hashable param_name = true -> is_dict info = true ->
  exists params',
    Normalizer.params_store params param_in param_name info = Ok params' /\
    params_ok params'.
Proof.
  intros [Hkeys Hvals] Hloc Hname Hinfo.
  destruct param_in as [| | | loc | |]; try discriminate.
  assert (Hin : In loc ["query"; "path"; "header"; "body"]).
  { unfold known_location in Hloc. apply existsb_exists in Hloc.
    destruct Hloc as (x & Hx & E). apply String.eqb_eq in E. subst x.
    exact Hx. }
  destruct (Hkeys loc Hin) as (inner & Hinner).
  unfold Normalizer.params_store. rewrite Hinner, Hname.
  eexists. split; [reflexivity |]. split.
  - intros loc' Hloc'. rewrite sget_sset.
    destruct (String.eqb loc loc'); [eauto |]. apply Hkeys. exact Hloc'.
  - apply (sset_values
             (fun inner => Forall (fun nv => is_dict (snd nv) = true) inner));
      [exact Hvals |].
    apply (dict_set_values py_eq (fun v => is_dict v = true)); [| exact Hinfo].
    pose proof (sget_In _ _ _ Hinner) as Hmem.
    rewrite Forall_forall in Hvals. exact (Hvals _ Hmem).
Qed.

Lemma parameters_loop_ok (b : bool) (ps : list value)
    (params : Normalizer.params_t) :
  forallb parameter_ok ps = true -> params_ok params ->
  exists params',
    Normalizer.parameters_loop b ps params = Ok params' /\ params_ok params'.
Proof.
  revert params. induction ps as [| param ps IH]; intros params Hps Hparams.
  - simpl. eauto.
  - simpl in Hps. apply andb_true_iff in Hps. destruct Hps as [Hp Hps].
    destruct param as [| | | | | d]; try discriminate.
    cbn [Normalizer.parameters_loop]. rewrite !py_get_dict. cbn [rbind Ok].
    unfold parameter_ok, value_at in Hp. unfold value_or.
    destruct (truthy match sget "in" d with Some v => v | None => VNone end
              && truthy match sget "name" d with Some v => v | None => VNone end)
      eqn:Ec.
    + cbn [negb orb] in Hp. apply andb_true_iff in Hp. destruct Hp as [Hloc Hname].
      rewrite ?py_get_dict. cbn [rbind Ok].
      destruct b; rewrite ?py_get_dict; cbn [rbind Ok].
      * edestruct params_store_ok as (params' & Hstore & Hok);
          [exact Hparams | exact Hloc | exact Hname | | ].
        2:{ rewrite Hstore. cbn [rbind Ok]. apply IH; assumption. }
        reflexivity.
      * edestruct params_store_ok as (params' & Hstore & Hok);
          [exact Hparams | exact Hloc | exact Hname | | ].
        2:{ rewrite Hstore. cbn [rbind Ok]. apply IH; assumption. }
        reflexivity.
    + apply IH; assumption.
Qed.

Lemma content_loop_ok (request_body : list (string * value))
    (items : list (string * value)) (params : Normalizer.params_t) :
  forallb (fun kv => is_dict (snd kv)) items = true -> params_ok params ->
  exists params',
    Normalizer.content_loop (VDict request_body) items params = Ok params' /\
    params_ok params'.
Proof.
  revert params. induction items as [| [ct spec] items IH];
    intros params Hitems Hparams.
  - simpl. eauto.
  - simpl in Hitems. apply andb_true_iff in Hitems.
    destruct Hitems as [Hspec Hitems].
    destruct spec as [| | | | | sd]; try discriminate.
    cbn [Normalizer.content_loop]. rewrite !py_get_dict. cbn [rbind Ok].
    edestruct params_store_ok as (params' & Hstore & Hok);
      [exact Hparams | | | | ].
    4:{ rewrite Hstore. cbn [rbind Ok]. apply IH; assumption. }
    all: reflexivity.
Qed.

Lemma empty_params_ok : params_ok Normalizer.empty_params.
Proof.
  split.
  - intros loc Hloc. simpl in Hloc.
    destruct Hloc as [<- | [<- | [<- | [<- | []]]]]; eexists; reflexivity.
  - repeat constructor.
Qed.

Lemma request_body_items (op : list (string * value)) :
  request_body_ok op = true ->
  exists body,
    py_get (VDict op) "requestBody" (VDict []) = Ok body /\
    (truthy body = true ->
     exists b items,
       body = VDict b /\
       rbind (py_get body "content" (VDict [])) py_items = Ok items /\
       forallb (fun kv => is_dict (snd kv)) items = true).
Proof.
  unfold request_body_ok, body_content. rewrite py_get_dict. unfold value_or.
  destruct (sget "requestBody" op) as [body |].
  - intros H. exists body. split; [reflexivity |]. intros Ht.
    rewrite Ht in H. destruct body as [| | | | | b]; try discriminate.
    exists b. rewrite py_get_dict. unfold value_or.
    destruct (sget "content" b) as [c |].
    + destruct c as [| | | | | c]; try discriminate.
      destruct (forallb (fun kv => is_dict (snd kv)) c) eqn:Hc;
        [| discriminate].
      exists c. auto.
    + exists []. auto.
  - intros _. exists (VDict []). split; [reflexivity |]. discriminate.
Qed.

Lemma extract_parameters_ok (op : list (string * value)) (b : bool) :
  operation_ok (VDict op) = true ->
  exists params,
    Normalizer.extract_parameters (VDict op) b = Ok params /\ params_ok params.
Proof.
  unfold operation_ok. intros H.
  apply andb_true_iff in H. destruct H as [H Hr].
  apply andb_true_iff in H. destruct H as [Hp Hb].
  unfold Normalizer.extract_parameters.
  assert (Hdecl : exists ps,
            rbind (py_get (VDict op) "parameters" (VList [])) py_iter = Ok ps /\
            forallb parameter_ok ps = true).
  { unfold parameters_ok in Hp. rewrite py_get_dict. unfold value_or.
    destruct (sget "parameters" op) as [v |]; [| exists []; auto].
    destruct v; try discriminate.
    eexists. split; [reflexivity | exact Hp]. }
  destruct Hdecl as (ps & Hdecl & Hps).
  apply rbind_ok in Hdecl. destruct Hdecl as (declared & -> & Hiter).
  cbn [rbind Ok]. rewrite Hiter. cbn [rbind Ok].
  destruct (parameters_loop_ok b ps _ Hps empty_params_ok)
    as (params & -> & Hparams).
  cbn [rbind Ok]. destruct b; [| eauto].
  destruct (request_body_items _ Hb) as (body & -> & Hbody).
  cbn [rbind Ok]. destruct (truthy body) eqn:Ht; [| eauto].
  destruct (Hbody eq_refl) as (bd & items & -> & Hitems & Hall).
  apply rbind_ok in Hitems. destruct Hitems as (content & Hc & Hi).
  rewrite Hc. cbn [rbind Ok]. rewrite Hi. cbn [rbind Ok].
  apply content_loop_ok; assumption.
Qed.

Lemma in_params_records (params : Normalizer.params_t) (loc : string) :
  params_ok params ->
  Forall (fun nv => is_dict (snd nv) = true)
    match sget loc params with Some d => d | None => [] end.
Proof.
  intros [_ Hvals]. destruct (sget loc params) as [inner |] eqn:E;
    [| constructor].
  pose proof (sget_In _ _ _ E) as Hin.
  rewrite Forall_forall in Hvals. exact (Hvals _ Hin).
Qed.

Lemma item_record (name : value) (d : list (value * value)) :
  Forall (fun nv => is_dict (snd nv) = true) d ->
  (In name (dict_keys d) \/ dict_mem py_eq name d = true) ->
  exists r, Differ.item py_eq id name d = Ok (VDict r).
Proof.
  intros Hd Hname.
  assert (Hget : exists v, dict_get py_eq name d = Some v).
  { destruct Hname as [Hin | Hmem].
    - apply (dict_mem_key py_eq); [exact py_eq_refl | exact Hin].
    - unfold dict_mem in Hmem.
      destruct (dict_get py_eq name d); [eauto | discriminate]. }
  destruct Hget as (v & Hget). unfold Differ.item. rewrite Hget.
  destruct (dict_get_In _ _ _ _ Hget) as (k' & Hin).
  rewrite Forall_forall in Hd. specialize (Hd _ Hin). simpl in Hd.
  destruct v; try discriminate. eauto.
Qed.

Lemma param_type_record (r : list (string * value)) :
  exists t, Differ.param_type py_str (VDict r) = Ok t.
Proof.
  unfold Differ.param_type. rewrite py_get_dict. cbn [rbind Ok].
  destruct (truthy (value_or "schema" VNone r)); [eauto |].
  rewrite py_get_dict. cbn [rbind Ok]. eauto.
Qed.

Ltac by_cases :=
  match goal with
  | |- returns (if ?b then _ else _) _ => destruct b eqn:?
  end.

Lemma diff_parameters_returns (p : value) (m : string)
    (old_op new_op : list (string * value)) (b : bool) :
  operation_ok (VDict old_op) = true -> operation_ok (VDict new_op) = true ->
  returns (Differ._diff_parameters py_str p m (VDict old_op) (VDict new_op) b)
    (fun _ => True).
Proof.
  intros Ho Hn.
  destruct (extract_parameters_ok _ b Ho) as (oparams & Hoe & Hop).
  destruct (extract_parameters_ok _ b Hn) as (nparams & Hne & Hnp).
  unfold Differ._diff_parameters.
  eapply returns_bind_lift; [exact Hoe |].
  eapply returns_bind_lift; [exact Hne |].
  apply returns_for_each. intros loc _.
  pose proof (in_params_records oparams loc Hop) as Hod.
  pose proof (in_params_records nparams loc Hnp) as Hnd.
  set (od := match sget loc oparams with Some d => d | None => [] end) in *.
  set (nd := match sget loc nparams with Some d => d | None => [] end) in *.
  eapply returns_bind with (Q1 := fun _ => True).
  { apply returns_for_each. intros name _.
    by_cases; [apply returns_ret; exact I | apply returns_append]. }
  intros _ _.
  eapply returns_bind with (Q1 := fun _ => True).
  { apply returns_for_each. intros name Hname.
    by_cases; [apply returns_ret; exact I |].
    destruct (item_record name nd Hnd (or_introl Hname)) as (r & Hr).
    eapply returns_bind_lift; [exact Hr |].
    eapply returns_bind_lift; [apply py_get_dict |].
    apply returns_append. }
  intros _ _.
  apply returns_for_each. intros name Hname.
  destruct (dict_mem py_eq name nd) eqn:Hmem; [| apply returns_ret; exact I].
  destruct (item_record name od Hod (or_introl Hname)) as (r & Hr).
  destruct (item_record name nd Hnd (or_intror Hmem)) as (r' & Hr').
  destruct (param_type_record r) as (t & Ht).
  destruct (param_type_record r') as (t' & Ht').
  eapply returns_bind_lift; [exact Hr |].
  eapply returns_bind_lift; [exact Hr' |].
  eapply returns_bind_lift; [exact Ht |].
  eapply returns_bind_lift; [exact Ht' |].
  by_cases; [apply returns_append | apply returns_ret; exact I].
Qed.

Lemma diff_operation_returns (p : value) (m : string) (old_op new_op : value) :
  operation_ok old_op = true -> operation_ok new_op = true ->
  returns (Differ._diff_operation py_str p m old_op new_op) (fun _ => True).
Proof.
  intros Ho Hn.
  destruct old_op as [| | | | | oo]; try discriminate.
  destruct new_op as [| | | | | no]; try discriminate.
  assert (Hparts : request_body_ok oo = true /\ responses_ok oo = true /\
                   request_body_ok no = true /\ responses_ok no = true).
  { unfold operation_ok in Ho, Hn.
    apply andb_true_iff in Ho. destruct Ho as [Ho ?].
    apply andb_true_iff in Ho. destruct Ho as [? ?].
    apply andb_true_iff in Hn. destruct Hn as [Hn ?].
    apply andb_true_iff in Hn. destruct Hn as [? ?]. auto. }
  destruct Hparts as (Hob & Hor & Hnb & Hnr).
  unfold Differ._diff_operation.
  eapply returns_bind_lift; [reflexivity |].
  eapply returns_bind with (Q1 := fun _ => True).
  { by_cases; [apply returns_ret; exact I |].
    eapply returns_lift; [reflexivity | exact I]. }
  intros is_openapi3 _.
  eapply returns_bind with (Q1 := fun _ => True);
    [apply diff_parameters_returns; assumption |].
  intros _ _.
  eapply returns_bind with (Q1 := fun _ => True).
  { destruct is_openapi3;
      [apply diff_request_body_returns; assumption
      | apply returns_ret; exact I]. }
  intros _ _. apply diff_responses_returns; assumption.
Qed.

(** ** Paths of well-shaped documents *)

Lemma normalize_path_item_ops (items : list (string * value)) :
  path_item_ok (VDict items) = true ->
  Forall (fun kv => is_dict (snd kv) = true -> operation_ok (snd kv) = true)
    (Normalizer.normalize_path_item items).
Proof.
  unfold Normalizer.normalize_path_item, path_item_ok.
  assert (Hacc : Forall (fun kv : string * value =>
                           is_dict (snd kv) = true ->
                           operation_ok (snd kv) = true) [])
    by constructor.
  revert Hacc. generalize (@nil (string * value)) as acc.
  induction items as [| [k v] items IH]; intros acc Hacc H.
  - exact Hacc.
  - cbn [forallb fst snd] in H. apply andb_true_iff in H.
    destruct H as [Hkv H]. cbn [fold_left fst snd].
    apply IH; [| exact H].
    destruct (Normalizer.is_method (lower k)) eqn:Em; [| exact Hacc].
    apply (sset_values
             (fun v => is_dict v = true -> operation_ok v = true));
      [exact Hacc |].
    intros Hd. rewrite Hd in Hkv. exact Hkv.
Qed.

Lemma normalized_entries_ops (entries : list (string * value)) :
  paths_ok (VDict entries) = true ->
  Forall (fun kv => exists items,
                      snd kv = VDict items /\
                      Forall (fun kv => is_dict (snd kv) = true ->
                                        operation_ok (snd kv) = true) items)
    (normalized_entries entries).
Proof.
  unfold normalized_entries, paths_ok.
  assert (Hacc : Forall (fun kv : string * value =>
                    exists items,
                      snd kv = VDict items /\
                      Forall (fun kv => is_dict (snd kv) = true ->
                                        operation_ok (snd kv) = true) items)
                   [])
    by constructor.
  revert Hacc. generalize (@nil (string * value)) as acc.
  induction entries as [| [p item] entries IH]; intros acc Hacc H.
  - exact Hacc.
  - cbn [forallb fst snd] in H. apply andb_true_iff in H.
    destruct H as [Hitem H]. cbn [fold_left fst snd].
    apply IH; [| exact H].
    apply (sset_values
             (fun v => exists items,
                         v = VDict items /\
                         Forall (fun kv => is_dict (snd kv) = true ->
                                           operation_ok (snd kv) = true)
                           items));
      [exact Hacc |].
    eexists. split; [reflexivity |].
    destruct item as [| | | | | items]; try discriminate.
    apply normalize_path_item_ops. exact Hitem.
Qed.

Lemma diff_endpoints_returns (old_entries new_entries : list (string * value)) :
  returns (Differ._diff_endpoints (VDict old_entries) (VDict new_entries))
    (fun _ => True).
Proof.
  unfold Differ._diff_endpoints.
  eapply returns_bind_lift; [reflexivity |].
  eapply returns_bind with (Q1 := fun _ => True).
  { apply returns_for_each. intros x Hx. apply in_map_iff in Hx.
    destruct Hx as ([k v] & <- & _).
    eapply returns_bind_lift; [reflexivity |].
    by_cases; [apply returns_ret; exact I | apply returns_append]. }
  intros _ _.
  eapply returns_bind_lift; [reflexivity |].
  apply returns_for_each. intros x Hx. apply in_map_iff in Hx.
  destruct Hx as ([k v] & <- & _).
  eapply returns_bind_lift; [reflexivity |].
  by_cases; [apply returns_ret; exact I | apply returns_append].
Qed.

Lemma selected_operation (items : list (string * value)) (m : string) :
  Forall (fun kv => is_dict (snd kv) = true -> operation_ok (snd kv) = true)
    items ->
  (In m (dict_keys (Differ.select_methods items)) \/
   smem m (Differ.select_methods items) = true) ->
  exists op,
    Differ.item String.eqb VStr m (Differ.select_methods items) = Ok op /\
    operation_ok op = true.
Proof.
  intros Hitems Hm.
  assert (Hget : exists op, sget m (Differ.select_methods items) = Some op).
  { destruct Hm as [Hin | Hmem];
      [apply key_found; exact Hin | apply smem_found; exact Hmem]. }
  destruct Hget as (op & Hget). exists op. split.
  - unfold Differ.item. unfold sget in Hget. rewrite Hget. reflexivity.
  - apply sget_In in Hget. unfold Differ.select_methods in Hget.
    apply filter_In in Hget. destruct Hget as [Hin Hsel].
    apply andb_true_iff in Hsel. destruct Hsel as [Hd _].
    rewrite Forall_forall in Hitems. exact (Hitems _ Hin Hd).
Qed.

Lemma path_item_found (entries : list (string * value)) (k : string) :
  Forall (fun kv => exists items,
                      snd kv = VDict items /\
                      Forall (fun kv => is_dict (snd kv) = true ->
                                        operation_ok (snd kv) = true) items)
    entries ->
  (In k (dict_keys entries) \/ smem k entries = true) ->
  exists items,
    py_getitem (VDict entries) (VStr k) = Ok (VDict items) /\
    Forall (fun kv => is_dict (snd kv) = true -> operation_ok (snd kv) = true)
      items.
Proof.
  intros Hentries Hk.
  assert (Hget : exists v, sget k entries = Some v).
  { destruct Hk as [Hin | Hmem];
      [apply key_found; exact Hin | apply smem_found; exact Hmem]. }
  destruct Hget as (v & Hget).
  pose proof (sget_In _ _ _ Hget) as Hin.
  rewrite Forall_forall in Hentries.
  destruct (Hentries _ Hin) as (items & Hv & Hitems). simpl in Hv. subst v.
  exists items. split; [| exact Hitems].
  cbn [py_getitem]. rewrite Hget. reflexivity.
Qed.

Lemma diff_operations_returns (old_entries new_entries : list (string * value)) :
  Forall (fun kv => exists items,
                      snd kv = VDict items /\
                      Forall (fun kv => is_dict (snd kv) = true ->
                                        operation_ok (snd kv) = true) items)
    old_entries ->
  Forall (fun kv => exists items,
                      snd kv = VDict items /\
                      Forall (fun kv => is_dict (snd kv) = true ->
                                        operation_ok (snd kv) = true) items)
    new_entries ->
  returns (Differ._diff_operations py_str (VDict old_entries) (VDict new_entries))
    (fun _ => True).
Proof.
  intros Ho Hn. unfold Differ._diff_operations.
  eapply returns_bind_lift; [reflexivity |].
  apply returns_for_each. intros x Hx. apply in_map_iff in Hx.
  destruct Hx as ([k v] & <- & Hkv). cbn [fst].
  eapply returns_bind_lift; [reflexivity |].
  destruct (smem k new_entries) eqn:Hk; cbn [negb];
    [| apply returns_ret; exact I].
  assert (Hin : In k (dict_keys old_entries)).
  { unfold dict_keys. apply in_map_iff. exists (k, v). auto. }
  destruct (path_item_found old_entries k Ho (or_introl Hin))
    as (oitems & Hgo & Hoi).
  destruct (path_item_found new_entries k Hn (or_intror Hk))
    as (nitems & Hgn & Hni).
  eapply returns_bind_lift; [exact Hgo |].
  eapply returns_bind_lift; [exact Hgn |].
  eapply returns_bind_lift; [reflexivity |].
  eapply returns_bind_lift; [reflexivity |].
  cbv zeta.
  eapply returns_bind with (Q1 := fun _ => True).
  { apply returns_for_each. intros m _.
    by_cases; [apply returns_ret; exact I | apply returns_append]. }
  intros _ _.
  eapply returns_bind with (Q1 := fun _ => True).
  { apply returns_for_each. intros m _.
    by_cases; [apply returns_ret; exact I | apply returns_append]. }
  intros _ _.
  apply returns_for_each. intros m Hm.
  destruct (smem m (Differ.select_methods nitems)) eqn:Hmem;
    [| apply returns_ret; exact I].
  destruct (selected_operation oitems m Hoi (or_introl Hm)) as (oop & Hoo & Hook).
  destruct (selected_operation nitems m Hni (or_intror Hmem)) as (nop & Hno & Hnok).
  eapply returns_bind_lift; [exact Hoo |].
  eapply returns_bind_lift; [exact Hno |].
  apply diff_operation_returns; assumption.
Qed.

Lemma document_paths (d : list (string * value)) :
  document_ok (VDict d) = true ->
  exists entries,
    rbind (Normalizer.normalize (VDict d))
      (fun n => py_get n "paths" (VDict [])) = Ok (VDict entries) /\
    Forall (fun kv => exists items,
                        snd kv = VDict items /\
                        Forall (fun kv => is_dict (snd kv) = true ->
                                          operation_ok (snd kv) = true) items)
      entries.
Proof.
  unfold document_ok. intros H. apply andb_true_iff in H.
  destruct H as [Hv Hp].
  rewrite (normalize_versioned_cases d Hv).
  destruct (value_or "paths" (VDict []) d) as [| | | | | raw] eqn:Eraw;
    try discriminate.
  assert (Hm : mapping_of_mappings (VDict raw) = true).
  { unfold mapping_of_mappings. unfold paths_ok in Hp.
    rewrite forallb_forall in Hp. apply forallb_forall. intros kv Hin.
    specialize (Hp kv Hin). destruct (snd kv); try discriminate. reflexivity. }
  rewrite Hm. exists (normalized_entries raw). split.
  - unfold normalized_document. rewrite Eraw.
    destruct (smem "swagger" d); reflexivity.
  - apply normalized_entries_ops. exact Hp.
Qed.

Lemma diff_body_returns (old_spec new_spec : value) :
  document_ok old_spec = true -> document_ok new_spec = true ->
  returns (Differ.diff_body py_str old_spec new_spec) (fun _ => True).
Proof.
  intros Ho Hn.
  destruct old_spec as [| | | | | od]; try discriminate.
  destruct new_spec as [| | | | | nd]; try discriminate.
  destruct (document_paths od Ho) as (oe & Hoe & Hoes).
  destruct (document_paths nd Hn) as (ne & Hne & Hnes).
  apply rbind_ok in Hoe. destruct Hoe as (on & Hon & Hop).
  apply rbind_ok in Hne. destruct Hne as (nn & Hnn & Hnp).
  unfold Differ.diff_body.
  eapply returns_bind with (Q1 := fun _ => True).
  { intros s. exists tt, []. split; [reflexivity | exact I]. }
  intros _ _.
  eapply returns_bind_lift; [exact Hon |].
  eapply returns_bind_lift; [exact Hnn |].
  eapply returns_bind_lift; [exact Hop |].
  eapply returns_bind_lift; [exact Hnp |].
  eapply returns_bind with (Q1 := fun _ => True);
    [apply diff_endpoints_returns |].
  intros _ _.
  eapply returns_bind with (Q1 := fun _ => True);
    [apply diff_operations_returns; assumption |].
  intros _ _. intros s. exists s, s. split; [reflexivity | exact I].
Qed.
End ReturningSteps.

(** X15. For documents whose mapping keys are all texts, as the type
    [value] has them and as every JSON document has them, the differ raises
    nothing on well-shaped documents: when both documents have a version
    key, their paths are a mapping of path items, and every operation
    declares its parameters as a list of records with one of the four
    locations and a hashable name, its request body as a record of content
    records with record schemas, and its responses as a record, [diff]
    returns a list of changes. *)
Theorem diff_returns_on_well_shaped (py_str : value -> string)
    (old_spec new_spec : value) :
  document_ok old_spec = true -> document_ok new_spec = true ->
  exists changes, Differ.diff py_str old_spec new_spec = Ok changes.
Proof.
  intros Ho Hn.
  destruct (diff_body_returns py_str old_spec new_spec Ho Hn [])
    as (cs & s' & Hrun & _).
  unfold Differ.diff. rewrite Hrun. eauto.
Qed.

Lemma diff_returns_on_well_shaped_witness :
  exists changes, Differ.diff sample_str api_v1 api_v2 = Ok changes.
Proof.
  apply (diff_returns_on_well_shaped sample_str api_v1 api_v2); reflexivity.
Defined.

(** ** What a comparison can raise *)

Lemma fails_ok {A : Type} (a : A) : fails_at_runtime (Ok a).
Proof. intros e H. discriminate H. Qed.

Lemma fails_raise {A : Type} (e : exn) :
  runtime_error e = true -> fails_at_runtime (@Raise A e).
Proof. intros He e' H. injection H as <-. exact He. Qed.

Lemma fails_rbind {A B : Type} (r : result A) (k : A -> result B) :
  fails_at_runtime r -> (forall a, fails_at_runtime (k a)) ->
  fails_at_runtime (rbind r k).
Proof.
  intros Hr Hk e. destruct r as [e' | a]; simpl.
  - intros H. injection H as <-. apply Hr. reflexivity.
  - apply Hk.
Qed.

Lemma run_fails_ret {A : Type} (a : A) : run_fails_at_runtime (ret a).
Proof. intros s e H. discriminate H. Qed.

Lemma run_fails_append (c : Change) : run_fails_at_runtime (append c).
Proof. intros s e H. discriminate H. Qed.

Lemma run_fails_lift {A : Type} (r : result A) :
  fails_at_runtime r -> run_fails_at_runtime (lift r).
Proof.
  intros Hr s e. unfold lift. destruct r as [e' | a]; [| discriminate].
  intros H. injection H as <-. apply Hr. reflexivity.
Qed.

Lemma run_fails_bind {A B : Type} (m : M A) (k : A -> M B) :
  run_fails_at_runtime m -> (forall a, run_fails_at_runtime (k a)) ->
  run_fails_at_runtime (bind m k).
Proof.
  intros Hm Hk s e. unfold bind. destruct (m s) as [e' | [a s']] eqn:E.
  - intros H. injection H as <-. exact (Hm s e' E).
  - apply Hk.
Qed.

Lemma run_fails_for_each {A : Type} (xs : list A) (body : A -> M unit) :
  (forall x, run_fails_at_runtime (body x)) ->
  run_fails_at_runtime (for_each xs body).
Proof.
  intros H. induction xs as [| x xs IH]; simpl.
  - apply run_fails_ret.
  - apply run_fails_bind; [apply H | intros _; exact IH].
Qed.

Ltac builtin_fails :=
  intros e H;
  repeat match type of H with
         | context [match ?x with _ => _ end] => destruct x; simpl in H
         end;
  first [discriminate H | injection H as <-; reflexivity].

Lemma py_get_fails (o : value) (k : string) (default : value) :
  fails_at_runtime (py_get o k default).
Proof. unfold py_get. builtin_fails. Qed.

Lemma py_items_fails (o : value) : fails_at_runtime (py_items o).
Proof. unfold py_items. builtin_fails. Qed.

Lemma py_iter_fails (v : value) : fails_at_runtime (py_iter v).
Proof. unfold py_iter. builtin_fails. Qed.

Lemma py_in_fails (x c : value) : fails_at_runtime (py_in x c).
Proof. unfold py_in. builtin_fails. Qed.

Lemma py_getitem_fails (c k : value) : fails_at_runtime (py_getitem c k).
Proof. unfold py_getitem, seq_item. builtin_fails. Qed.

Lemma py_set_fails (v : value) : fails_at_runtime (py_set v).
Proof.
  unfold py_set. intros e. pose proof (py_iter_fails v e) as Hv.
  destruct (py_iter v) as [e' | xs].
  - exact Hv.
  - destruct (forallb hashable xs); intros H;
      [discriminate H | injection H as <-; reflexivity].
Qed.

Lemma py_in_set_fails (x : value) (s : list value) :
  fails_at_runtime (py_in_set x s).
Proof.
  unfold py_in_set. destruct (hashable x);
    [apply fails_ok | apply fails_raise; reflexivity].
Qed.

Lemma item_fails {K V : Type} (eqb : K -> K -> bool) (key_of : K -> value)
    (k : K) (d : list (K * V)) :
  fails_at_runtime (Differ.item eqb key_of k d).
Proof.
  unfold Differ.item. destruct (dict_get eqb k d);
    [apply fails_ok | apply fails_raise; reflexivity].
Qed.

Ltac fails_step :=
  match goal with
  | |- fails_at_runtime (rbind _ _) => apply fails_rbind; [| intros ?]
  | |- fails_at_runtime (Ok _) => apply fails_ok
  | |- fails_at_runtime (inr _) => apply fails_ok
  | |- fails_at_runtime (py_get _ _ _) => apply py_get_fails
  | |- fails_at_runtime (py_items _) => apply py_items_fails
  | |- fails_at_runtime (py_iter _) => apply py_iter_fails
  | |- fails_at_runtime (py_in _ _) => apply py_in_fails
  | |- fails_at_runtime (py_getitem _ _) => apply py_getitem_fails
  | |- fails_at_runtime (py_set _) => apply py_set_fails
  | |- fails_at_runtime (py_in_set _ _) => apply py_in_set_fails
  | |- fails_at_runtime (Differ.item _ _ _ _) => apply item_fails
  | |- fails_at_runtime (if ?b then _ else _) => destruct b
  | |- run_fails_at_runtime (bind _ _) => apply run_fails_bind; [| intros ?]
  | |- run_fails_at_runtime (lift _) => apply run_fails_lift
  | |- run_fails_at_runtime (ret _) => apply run_fails_ret
  | |- run_fails_at_runtime (append _) => apply run_fails_append
  | |- run_fails_at_runtime (for_each _ _) => apply run_fails_for_each; intros ?
  | |- run_fails_at_runtime (if ?b then _ else _) => destruct b
  end.

Lemma normalize_paths_loop_fails (items normalized : list (string * value)) :
  fails_at_runtime (Normalizer.normalize_paths_loop items normalized).
Proof.
  revert normalized. induction items as [| [p item] items IH];
    intros normalized; cbn [Normalizer.normalize_paths_loop].
  - apply fails_ok.
  - repeat fails_step. apply IH.
Qed.

Lemma normalize_fails (spec : value) :
  fails_at_runtime (Normalizer.normalize spec).
Proof.
  unfold Normalizer.normalize, Normalizer._normalize_swagger_2,
    Normalizer._normalize_openapi_3, Normalizer._normalize_paths_swagger2,
    Normalizer._normalize_paths_openapi3.
  repeat first [fails_step | apply normalize_paths_loop_fails].
Qed.

Lemma params_store_fails (params : Normalizer.params_t)
    (param_in param_name info : value) :
  fails_at_runtime (Normalizer.params_store params param_in param_name info).
Proof. unfold Normalizer.params_store. builtin_fails. Qed.

Lemma parameters_loop_fails (b : bool) (ps : list value)
    (params : Normalizer.params_t) :
  fails_at_runtime (Normalizer.parameters_loop b ps params).
Proof.
  revert params. induction ps as [| param ps IH]; intros params;
    cbn [Normalizer.parameters_loop].
  - apply fails_ok.
  - repeat first [fails_step | apply params_store_fails | apply IH].
Qed.

Lemma content_loop_fails (request_body : value) (items : list (string * value))
    (params : Normalizer.params_t) :
  fails_at_runtime (Normalizer.content_loop request_body items params).
Proof.
  revert params. induction items as [| [ct spec] items IH]; intros params;
    cbn [Normalizer.content_loop].
  - apply fails_ok.
  - repeat first [fails_step | apply params_store_fails | apply IH].
Qed.

Lemma extract_parameters_fails (operation : value) (b : bool) :
  fails_at_runtime (Normalizer.extract_parameters operation b).
Proof.
  unfold Normalizer.extract_parameters.
  repeat first [fails_step | apply parameters_loop_fails
               | apply content_loop_fails].
Qed.

Lemma extract_responses_fails (operation : value) :
  fails_at_runtime (Normalizer.extract_responses operation).
Proof. unfold Normalizer.extract_responses. repeat fails_step. Qed.

Lemma first_schema_fails (items : list (string * value)) :
  fails_at_runtime (Differ.first_schema items).
Proof.
  induction items as [| [ct spec] items IH]; cbn [Differ.first_schema].
  - apply fails_ok.
  - repeat first [fails_step | apply IH].
Qed.

Lemma extract_schema_fails (request_body : value) :
  fails_at_runtime (Differ._extract_schema_from_request_body request_body).
Proof.
  unfold Differ._extract_schema_from_request_body.
  repeat first [fails_step | apply first_schema_fails].
Qed.

Section RuntimeFailures.
Variable py_str : value -> string.

Lemma param_type_fails (p : value) :
  fails_at_runtime (Differ.param_type py_str p).
Proof. unfold Differ.param_type. repeat fails_step. Qed.

Ltac differ_fails :=
  repeat first
    [ fails_step
    | apply extract_parameters_fails
    | apply extract_responses_fails
    | apply extract_schema_fails
    | apply param_type_fails
    | apply normalize_fails ].

Lemma diff_endpoints_fails (old_paths new_paths : value) :
  run_fails_at_runtime (Differ._diff_endpoints old_paths new_paths).
Proof. unfold Differ._diff_endpoints. differ_fails. Qed.

Lemma diff_parameters_fails (p : value) (m : string) (old_op new_op : value)
    (b : bool) :
  run_fails_at_runtime (Differ._diff_parameters py_str p m old_op new_op b).
Proof. unfold Differ._diff_parameters. cbv zeta. differ_fails. Qed.

Lemma diff_schema_fails (p : value) (m : string) (old_schema new_schema : value)
    (location : string) :
  run_fails_at_runtime
    (Differ._diff_schema py_str p m old_schema new_schema location).
Proof. unfold Differ._diff_schema. differ_fails. Qed.

Lemma diff_request_body_fails (p : value) (m : string) (old_op new_op : value) :
  run_fails_at_runtime (Differ._diff_request_body py_str p m old_op new_op).
Proof.
  unfold Differ._diff_request_body.
  repeat first [apply diff_schema_fails | progress differ_fails].
Qed.

Lemma diff_responses_fails (p : value) (m : string) (old_op new_op : value) :
  run_fails_at_runtime (Differ._diff_responses p m old_op new_op).
Proof. unfold Differ._diff_responses. differ_fails. Qed.

Lemma diff_operation_fails (p : value) (m : string) (old_op new_op : value) :
  run_fails_at_runtime (Differ._diff_operation py_str p m old_op new_op).
Proof.
  unfold Differ._diff_operation.
  repeat first [apply diff_parameters_fails | apply diff_request_body_fails
               | apply diff_responses_fails | progress differ_fails].
Qed.

Lemma diff_operations_fails (old_paths new_paths : value) :
  run_fails_at_runtime (Differ._diff_operations py_str old_paths new_paths).
Proof.
  unfold Differ._diff_operations. cbv zeta.
  repeat first [apply diff_operation_fails | progress differ_fails].
Qed.

Lemma diff_fails (old_spec new_spec : value) :
  fails_at_runtime (Differ.diff py_str old_spec new_spec).
Proof.
  assert (H : run_fails_at_runtime (Differ.diff_body py_str old_spec new_spec)).
  { unfold Differ.diff_body.
    apply run_fails_bind; [intros s e E; discriminate E | intros _].
    repeat first [apply diff_endpoints_fails | apply diff_operations_fails
                 | progress differ_fails].
    intros s e E. discriminate E. }
  intros e. unfold Differ.diff.
  destruct (Differ.diff_body py_str old_spec new_spec []) as [e' | [cs s']] eqn:E.
  - intros H'. injection H' as <-. exact (H _ _ E).
  - discriminate.
Qed.
End RuntimeFailures.

Section ServiceFailures.
Variable json_loads : string -> string + value.
Variable yaml_safe_load : string -> string + value.
Variable py_str : value -> string.

Lemma parse_fails (content file_type : string) (e : exn) :
  Parser.parse json_loads yaml_safe_load content file_type = inl e ->
  exists msg, e = ParseError msg.
Proof.
  unfold Parser.parse, Parser.decode.
  destruct (String.eqb content "" || String.eqb (strip content) "");
    [intros H; injection H as <-; eauto |].
  assert (Hrest : forall spec,
            (if negb (is_dict spec)
             then Raise (ParseError "Specification must be a JSON object")
             else (_ <- Parser._validate_spec spec ;; Ok spec)%result) = inl e ->
            exists msg, e = ParseError msg).
  { intros spec. destruct spec as [| | | | | d]; simpl;
      try (intros H; injection H as <-; eauto).
    rewrite validate_spec_cases.
    repeat match goal with
           | |- context [if ?b then _ else _] => destruct b; simpl
           end;
      intros H; first [discriminate H
                      | injection H as <-; eexists; reflexivity]. }
  destruct (String.eqb (lower file_type) "json").
  - destruct (json_loads content) as [msg | spec]; simpl;
      [intros H; injection H as <-; eauto | apply Hrest].
  - destruct (String.eqb (lower file_type) "yaml"
              || String.eqb (lower file_type) "yml").
    + destruct (yaml_safe_load content) as [msg | spec]; simpl;
        [intros H; injection H as <-; eauto | apply Hrest].
    + simpl. intros H; injection H as <-; eauto.
Qed.

(** X16. [compare_specs] fails step by step: a failure of parsing the old
    content, else of parsing the new content, is raised as a [ValueError]
    with the prefix for parsing errors; when both parse, a failure of the
    differ is raised as a [ValueError] with the prefix for unexpected
    errors, never with the one for parsing errors, since normalizing and
    diffing raise only key, attribute, type and index errors; otherwise the
    result built from the changes is returned. *)
Theorem compare_specs_steps (old_content new_content old_format new_format
    : string) :
  DiffService.compare_specs json_loads yaml_safe_load py_str
    old_content new_content old_format new_format =
  comparison_steps
    (Parser.parse json_loads yaml_safe_load old_content
       (DiffService.resolve_format old_format old_content))
    (Parser.parse json_loads yaml_safe_load new_content
       (DiffService.resolve_format new_format new_content))
    (Differ.diff py_str).
Proof.
  unfold DiffService.compare_specs, comparison_steps. cbv zeta.
  destruct (Parser.parse json_loads yaml_safe_load old_content
              (DiffService.resolve_format old_format old_content))
    as [e | old_spec] eqn:Eo; cbn [rbind].
  - destruct (parse_fails _ _ _ Eo) as (msg & ->). reflexivity.
  - destruct (Parser.parse json_loads yaml_safe_load new_content
                (DiffService.resolve_format new_format new_content))
      as [e | new_spec] eqn:En; cbn [rbind].
    + destruct (parse_fails _ _ _ En) as (msg & ->). reflexivity.
    + pose proof (diff_fails py_str old_spec new_spec) as Hd.
      destruct (Differ.diff py_str old_spec new_spec) as [e | cs]; cbn [rbind].
      * specialize (Hd e eq_refl). destruct e; try discriminate Hd; reflexivity.
      * reflexivity.
Qed.

Lemma parsed_document_ok (content file_type : string)
    (d : list (string * value)) :
  Parser.parse json_loads yaml_safe_load content file_type = Ok (VDict d) ->
  paths_ok (value_at "paths" d) = true ->
  document_ok (VDict d) = true.
Proof.
  unfold Parser.parse.
  destruct (String.eqb content "" || String.eqb (strip content) "");
    [discriminate |].
  destruct (Parser.decode json_loads yaml_safe_load content file_type)
    as [e | v]; simpl; [discriminate |].
  destruct v as [| | | | | d']; simpl; try discriminate.
  rewrite validate_spec_cases.
  destruct (negb (truthy (value_at "openapi" d'))
            && negb (truthy (value_at "swagger" d'))) eqn:Hv; simpl;
    [discriminate |].
  destruct (negb (truthy (value_at "info" d'))); simpl; [discriminate |].
  destruct (negb (truthy (value_at "paths" d'))); simpl; [discriminate |].
  intros H. injection H as ->. intros Hp.
  unfold document_ok. apply andb_true_iff. split.
  - unfold value_at, smem, dict_mem, sget in *.
    destruct (dict_get String.eqb "swagger" d); [reflexivity |].
    destruct (dict_get String.eqb "openapi" d); [reflexivity |].
    discriminate Hv.
  - unfold value_at, value_or in *.
    destruct (sget "paths" d); [exact Hp | discriminate Hp].
Qed.

(** X17. Two contents that parse to documents whose mapping keys are all
    texts (as the type [value] has them and as every JSON document has
    them), with paths of the shape the differ can walk, are compared without
    failure: [compare_specs] returns the result built from the changes of
    [diff] on the two parsed documents. *)
Theorem compare_well_shaped_returns (old_content new_content old_format new_format
    : string) (old_doc new_doc : list (string * value)) :
  Parser.parse json_loads yaml_safe_load old_content
    (DiffService.resolve_format old_format old_content) = Ok (VDict old_doc) ->
  Parser.parse json_loads yaml_safe_load new_content
    (DiffService.resolve_format new_format new_content) = Ok (VDict new_doc) ->
  paths_ok (value_at "paths" old_doc) = true ->
  paths_ok (value_at "paths" new_doc) = true ->
  exists changes,
    Differ.diff py_str (VDict old_doc) (VDict new_doc) = Ok changes /\
    DiffService.compare_specs json_loads yaml_safe_load py_str
      old_content new_content old_format new_format
    = Ok (DiffService._build_result changes).
Proof.
  intros Ho Hn Hop Hnp.
  pose proof (parsed_document_ok _ _ _ Ho Hop) as Hod.
  pose proof (parsed_document_ok _ _ _ Hn Hnp) as Hnd.
  destruct (diff_body_returns py_str _ _ Hod Hnd []) as (cs & s' & Hrun & _).
  assert (Hdiff : Differ.diff py_str (VDict old_doc) (VDict new_doc) = Ok cs).
  { unfold Differ.diff. rewrite Hrun. reflexivity. }
  exists cs. split; [exact Hdiff |].
  unfold DiffService.compare_specs. cbv zeta. rewrite Ho, Hn.
  cbn [rbind Ok]. rewrite Hdiff. reflexivity.
Qed.
End ServiceFailures.

Lemma compare_well_shaped_returns_witness :
  exists changes,
    Differ.diff sample_str api_v1 api_v2 = Ok changes /\
    DiffService.compare_specs sample_json_loads sample_yaml_safe_load
      sample_str api_v1_yaml api_v2_yaml "yaml" "auto"
    = Ok (DiffService._build_result changes).
Proof.
  apply (compare_well_shaped_returns sample_json_loads sample_yaml_safe_load
           sample_str api_v1_yaml api_v2_yaml "yaml" "auto");
    reflexivity.
Defined.

(** ** Parameters of the body location *)

Lemma smem_sset {V : Type} (k m : string) (v : V) (d : list (string * V)) :
  smem m (sset k v d) = if String.eqb k m then true else smem m d.
Proof.
  pose proof (sget_sset k m v d) as H. unfold smem, dict_mem.
  unfold sget in H. rewrite H. destruct (String.eqb k m); reflexivity.
Qed.

Lemma same_outside_body_sset (p1 p2 : Normalizer.params_t) (loc : string)
    (inner1 inner2 : list (value * value)) :
  same_outside_body p1 p2 ->
  (loc <> "body" -> inner1 = inner2) ->
  same_outside_body (sset loc inner1 p1) (sset loc inner2 p2).
Proof.
  intros (Hagree & Hb1 & Hb2) Hinner. split; [| split].
  - intros loc' Hloc'. rewrite !sget_sset.
    destruct (String.eqb loc loc') eqn:E.
    + apply String.eqb_eq in E. subst loc'. rewrite (Hinner Hloc').
      reflexivity.
    + apply Hagree. exact Hloc'.
  - rewrite smem_sset, Hb1. destruct (String.eqb loc "body"); reflexivity.
  - rewrite smem_sset, Hb2. destruct (String.eqb loc "body"); reflexivity.
Qed.

Lemma same_outside_body_get (p1 p2 : Normalizer.params_t) (loc : string) :
  same_outside_body p1 p2 ->
  (exists i1 i2, sget loc p1 = Some i1 /\ sget loc p2 = Some i2 /\
                 (loc <> "body" -> i1 = i2)) \/
  (sget loc p1 = None /\ sget loc p2 = None).
Proof.
  intros (Hagree & Hb1 & Hb2).
  destruct (String.eqb loc "body") eqn:E.
  - apply String.eqb_eq in E. subst loc. left.
    destruct (smem_found _ _ Hb1) as (i1 & H1).
    destruct (smem_found _ _ Hb2) as (i2 & H2).
    exists i1, i2. split; [exact H1 |]. split; [exact H2 |].
    intros H. contradiction H. reflexivity.
  - apply String.eqb_neq in E. specialize (Hagree loc E).
    destruct (sget loc p2) as [i2 |] eqn:E2.
    + left. exists i2, i2. auto.
    + right. auto.
Qed.

Lemma params_store_same (p1 p2 : Normalizer.params_t)
    (param_in param_name info : value) :
  same_outside_body p1 p2 ->
  same_extraction (Normalizer.params_store p1 param_in param_name info)
    (Normalizer.params_store p2 param_in param_name info).
Proof.
  intros H. unfold Normalizer.params_store.
  destruct param_in as [| | | loc | |]; try reflexivity.
  destruct (same_outside_body_get p1 p2 loc H)
    as [(i1 & i2 & -> & -> & Hi) | [-> ->]]; [| reflexivity].
  destruct (hashable param_name); [| reflexivity].
  simpl. apply same_outside_body_sset; [exact H |].
  intros Hloc. rewrite (Hi Hloc). reflexivity.
Qed.

Lemma params_store_body (p1 p2 : Normalizer.params_t)
    (param_name info : value) :
  same_outside_body p1 p2 -> hashable param_name = true ->
  exists p1',
    Normalizer.params_store p1 (VStr "body") param_name info = Ok p1' /\
    same_outside_body p1' p2.
Proof.
  intros H Hname. unfold Normalizer.params_store.
  destruct H as (Hagree & Hb1 & Hb2).
  destruct (smem_found _ _ Hb1) as (i1 & ->). rewrite Hname.
  eexists. split; [reflexivity |]. split; [| split].
  - intros loc Hloc. rewrite sget_sset.
    destruct (String.eqb "body" loc) eqn:E.
    + apply String.eqb_eq in E. contradiction Hloc. auto.
    + apply Hagree. exact Hloc.
  - rewrite smem_sset. reflexivity.
  - exact Hb2.
Qed.

Lemma same_extraction_rbind {A : Type} (r : result A)
    (k1 k2 : A -> result Normalizer.params_t) :
  (forall a, same_extraction (k1 a) (k2 a)) ->
  same_extraction (rbind r k1) (rbind r k2).
Proof. intros H. destruct r as [e | a]; simpl; [reflexivity | apply H]. Qed.

Lemma same_extraction_then (r1 r2 : result Normalizer.params_t)
    (k : Normalizer.params_t -> result Normalizer.params_t) :
  same_extraction r1 r2 ->
  (forall p1 p2, same_outside_body p1 p2 -> same_extraction (k p1) (k p2)) ->
  same_extraction (rbind r1 k) (rbind r2 k).
Proof.
  intros Hr Hk. destruct r1 as [e1 | p1], r2 as [e2 | p2]; simpl in *;
    try contradiction; auto.
Qed.

Lemma parameters_loop_same (b : bool) (ps : list value)
    (p1 p2 : Normalizer.params_t) :
  same_outside_body p1 p2 ->
  same_extraction (Normalizer.parameters_loop b ps p1)
    (Normalizer.parameters_loop b ps p2).
Proof.
  revert p1 p2. induction ps as [| param ps IH]; intros p1 p2 H.
  - exact H.
  - cbn [Normalizer.parameters_loop].
    apply same_extraction_rbind. intros param_in.
    apply same_extraction_rbind. intros param_name.
    destruct (truthy param_in && truthy param_name); [| apply IH; exact H].
    apply same_extraction_rbind. intros required.
    apply same_extraction_rbind. intros info.
    apply same_extraction_then; [apply params_store_same; exact H |].
    intros q1 q2 Hq. apply IH. exact Hq.
Qed.

Lemma content_loop_same (request_body : value) (items : list (string * value))
    (p1 p2 : Normalizer.params_t) :
  same_outside_body p1 p2 ->
  same_extraction (Normalizer.content_loop request_body items p1)
    (Normalizer.content_loop request_body items p2).
Proof.
  revert p1 p2. induction items as [| [ct spec] items IH]; intros p1 p2 H.
  - exact H.
  - cbn [Normalizer.content_loop].
    apply same_extraction_rbind. intros schema.
    apply same_extraction_rbind. intros required.
    apply same_extraction_then; [apply params_store_same; exact H |].
    intros q1 q2 Hq. apply IH. exact Hq.
Qed.

Lemma parameters_loop_app (b : bool) (xs ys : list value)
    (params : Normalizer.params_t) :
  Normalizer.parameters_loop b (xs ++ ys) params =
  rbind (Normalizer.parameters_loop b xs params)
    (fun params' => Normalizer.parameters_loop b ys params').
Proof.
  revert params. induction xs as [| x xs IH]; intros params.
  - reflexivity.
  - cbn [app Normalizer.parameters_loop].
    destruct (py_get x "in" VNone) as [e | param_in]; [reflexivity |].
    destruct (py_get x "name" VNone) as [e | param_name]; [reflexivity |].
    cbn [rbind].
    destruct (truthy param_in && truthy param_name); [| apply IH].
    destruct (py_get x "required" (VBool false)) as [e | required];
      [reflexivity |].
    cbn [rbind].
    destruct (if b
              then (schema <- py_get x "schema" (VDict []) ;;
                    Ok (VDict [("required", required); ("schema", schema)]))%result
              else (ty <- py_get x "type" VNone ;;
                    Ok (VDict [("required", required); ("type", ty)]))%result)
      as [e | info]; [reflexivity |].
    cbn [rbind].
    destruct (Normalizer.params_store params param_in param_name info)
      as [e | params']; [reflexivity |].
    cbn [rbind]. apply IH.
Qed.

Lemma empty_params_same :
  same_outside_body Normalizer.empty_params Normalizer.empty_params.
Proof. split; [reflexivity | split; reflexivity]. Qed.

Lemma body_parameter_step (b : bool) (param : list (string * value))
    (after : list value) (p1 p2 : Normalizer.params_t) :
  value_at "in" param = VStr "body" ->
  hashable (value_at "name" param) = true ->
  same_outside_body p1 p2 ->
  same_extraction (Normalizer.parameters_loop b (VDict param :: after) p1)
    (Normalizer.parameters_loop b after p2).
Proof.
  intros Hin Hname H. cbn [Normalizer.parameters_loop].
  rewrite !py_get_dict. cbn [rbind Ok].
  change (value_or "in" VNone param) with (value_at "in" param).
  change (value_or "name" VNone param) with (value_at "name" param).
  rewrite Hin. replace (truthy (VStr "body")) with true by reflexivity.
  cbn [andb].
  destruct (truthy (value_at "name" param));
    [| apply parameters_loop_same; exact H].
  cbn [rbind Ok].
  destruct b; cbn [rbind Ok];
    match goal with
    | |- context [Normalizer.params_store p1 (VStr "body") ?n ?info] =>
        destruct (params_store_body p1 p2 n info H Hname) as (p1' & -> & H')
    end;
    cbn [rbind Ok]; apply parameters_loop_same; exact H'.
Qed.

Lemma same_extraction_bind (r1 r2 : result Normalizer.params_t)
    (k1 k2 : Normalizer.params_t -> result Normalizer.params_t) :
  same_extraction r1 r2 ->
  (forall p1 p2, same_outside_body p1 p2 -> same_extraction (k1 p1) (k2 p2)) ->
  same_extraction (rbind r1 k1) (rbind r2 k2).
Proof.
  intros Hr Hk. destruct r1 as [e1 | p1], r2 as [e2 | p2]; simpl in *;
    try contradiction; auto.
Qed.

Lemma with_parameters_get (ps : list value) (op : list (string * value))
    (k : string) (default : value) :
  k <> "parameters" ->
  py_get (with_parameters ps op) k default = py_get (VDict op) k default.
Proof.
  intros Hk. unfold with_parameters. rewrite !py_get_dict. unfold value_or.
  rewrite sget_sset_other; [reflexivity |]. intros E. apply Hk. auto.
Qed.

Lemma with_parameters_declared (ps : list value) (op : list (string * value)) :
  py_get (with_parameters ps op) "parameters" (VList []) = Ok (VList ps).
Proof.
  unfold with_parameters. rewrite py_get_dict. unfold value_or.
  rewrite sget_sset. reflexivity.
Qed.

Lemma with_parameters_has (ps : list value) (op : list (string * value)) :
  py_in (VStr "parameters") (with_parameters ps op) = Ok true.
Proof.
  unfold with_parameters. cbn [py_in]. rewrite smem_sset. reflexivity.
Qed.

Lemma extract_body_parameter (op : list (string * value))
    (before after : list value) (param : list (string * value)) (b : bool) :
  value_at "in" param = VStr "body" ->
  hashable (value_at "name" param) = true ->
  same_extraction
    (Normalizer.extract_parameters
       (with_parameters (before ++ VDict param :: after) op) b)
    (Normalizer.extract_parameters (with_parameters (before ++ after) op) b).
Proof.
  intros Hin Hname. unfold Normalizer.extract_parameters.
  rewrite !with_parameters_declared. cbn [rbind Ok py_iter].
  rewrite !parameters_loop_app.
  apply same_extraction_bind.
  - pose proof (parameters_loop_same b before _ _ empty_params_same) as Hb.
    destruct (Normalizer.parameters_loop b before Normalizer.empty_params)
      as [e | params]; [reflexivity |].
    cbn [rbind]. apply body_parameter_step; assumption.
  - intros p1 p2 Hp. destruct b; [| exact Hp].
    rewrite !with_parameters_get by discriminate.
    apply same_extraction_rbind. intros request_body.
    destruct (truthy request_body); [| exact Hp].
    apply same_extraction_rbind. intros content.
    apply same_extraction_rbind. intros items.
    apply content_loop_same. exact Hp.
Qed.

Lemma bind_ext {A B : Type} (m1 m2 : M A) (k1 k2 : A -> M B) :
  (forall s, m1 s = m2 s) -> (forall a s, k1 a s = k2 a s) ->
  forall s, bind m1 k1 s = bind m2 k2 s.
Proof.
  intros Hm Hk s. unfold bind. rewrite Hm.
  destruct (m2 s) as [e | [a s']]; [reflexivity | apply Hk].
Qed.

Lemma for_each_ext {A : Type} (xs : list A) (f g : A -> M unit) :
  (forall x, In x xs -> forall s, f x s = g x s) ->
  forall s, for_each xs f s = for_each xs g s.
Proof.
  induction xs as [| x xs IH]; intros H s; simpl.
  - reflexivity.
  - apply bind_ext.
    + apply H. left; reflexivity.
    + intros _ s'. apply IH. intros y Hy. apply H. right; exact Hy.
Qed.

Lemma bind_lift_same {A B : Type} (r1 r2 : result A) (k1 k2 : A -> M B) :
  match r1, r2 with
  | inl e1, inl e2 => e1 = e2
  | inr a1, inr a2 => forall s, k1 a1 s = k2 a2 s
  | _, _ => False
  end ->
  forall s, bind (lift r1) k1 s = bind (lift r2) k2 s.
Proof.
  unfold bind, lift.
  destruct r1 as [e1 | a1], r2 as [e2 | a2]; intros H s;
    try contradiction.
  - subst e2. reflexivity.
  - apply H.
Qed.

Section BodyParameters.
Variable py_str : value -> string.
Variable p : value.
Variable m : string.

Lemma compared_location (loc : string) (p1 p2 : Normalizer.params_t) :
  In loc ["query"; "path"; "header"] -> same_outside_body p1 p2 ->
  sget loc p1 = sget loc p2.
Proof.
  intros Hloc (Hagree & _). apply Hagree.
  simpl in Hloc. destruct Hloc as [<- | [<- | [<- | []]]]; discriminate.
Qed.

Lemma diff_parameters_old (old1 old2 new_op : value) (b : bool) :
  same_extraction (Normalizer.extract_parameters old1 b)
    (Normalizer.extract_parameters old2 b) ->
  forall s,
    Differ._diff_parameters py_str p m old1 new_op b s =
    Differ._diff_parameters py_str p m old2 new_op b s.
Proof.
  intros H. unfold Differ._diff_parameters. cbv zeta.
  apply bind_lift_same.
  destruct (Normalizer.extract_parameters old1 b) as [e1 | p1],
    (Normalizer.extract_parameters old2 b) as [e2 | p2]; simpl in H;
    try contradiction; [exact H |].
  apply bind_ext; [reflexivity |]. intros new_params s'.
  apply for_each_ext. intros loc Hloc s''.
  rewrite (compared_location loc p1 p2 Hloc H). reflexivity.
Qed.

Lemma diff_parameters_new (old_op new1 new2 : value) (b : bool) :
  same_extraction (Normalizer.extract_parameters new1 b)
    (Normalizer.extract_parameters new2 b) ->
  forall s,
    Differ._diff_parameters py_str p m old_op new1 b s =
    Differ._diff_parameters py_str p m old_op new2 b s.
Proof.
  intros H. unfold Differ._diff_parameters. cbv zeta.
  apply bind_ext; [reflexivity |]. intros old_params s'. revert s'.
  apply bind_lift_same.
  destruct (Normalizer.extract_parameters new1 b) as [e1 | p1],
    (Normalizer.extract_parameters new2 b) as [e2 | p2]; simpl in H;
    try contradiction; [exact H |].
  apply for_each_ext. intros loc Hloc s''.
  rewrite (compared_location loc p1 p2 Hloc H). reflexivity.
Qed.

Lemma with_parameters_rest (ps1 ps2 : list value) (op : list (string * value))
    (other : value) :
  (forall s, Differ._diff_request_body py_str p m (with_parameters ps1 op) other s
             = Differ._diff_request_body py_str p m (with_parameters ps2 op) other s) /\
  (forall s, Differ._diff_request_body py_str p m other (with_parameters ps1 op) s
             = Differ._diff_request_body py_str p m other (with_parameters ps2 op) s) /\
  (forall s, Differ._diff_responses p m (with_parameters ps1 op) other s
             = Differ._diff_responses p m (with_parameters ps2 op) other s) /\
  (forall s, Differ._diff_responses p m other (with_parameters ps1 op) s
             = Differ._diff_responses p m other (with_parameters ps2 op) s).
Proof.
  unfold Differ._diff_request_body, Differ._diff_responses,
    Normalizer.extract_responses.
  rewrite !with_parameters_get by discriminate.
  repeat split; reflexivity.
Qed.

(** X18. Parameters of the body location are extracted but never compared:
    inserting, anywhere among the declared parameters of the old or of the
    new operation, a parameter whose location is [body] (with a hashable
    name) changes neither the changes the comparison of the operation
    appends nor the failure it raises. *)
Theorem body_parameters_not_compared (op : list (string * value))
    (before after : list value) (param : list (string * value))
    (other : value) (s : list Change) :
  value_at "in" param = VStr "body" ->
  hashable (value_at "name" param) = true ->
  Differ._diff_operation py_str p m
    (with_parameters (before ++ VDict param :: after) op) other s
  = Differ._diff_operation py_str p m
      (with_parameters (before ++ after) op) other s /\
  Differ._diff_operation py_str p m other
    (with_parameters (before ++ VDict param :: after) op) s
  = Differ._diff_operation py_str p m other
      (with_parameters (before ++ after) op) s.
Proof.
  intros Hin Hname.
  destruct (with_parameters_rest (before ++ VDict param :: after)
              (before ++ after) op other) as (Hb1 & Hb2 & Hr1 & Hr2).
  unfold Differ._diff_operation. split.
  - rewrite !with_parameters_has. revert s.
    apply bind_lift_same. cbv beta iota. intros s1.
    apply bind_ext; [reflexivity |]. intros is_openapi3 s2.
    apply bind_ext.
    { apply diff_parameters_old. apply extract_body_parameter; assumption. }
    intros _ s3. apply bind_ext; [| intros _ s4; apply Hr1].
    intros s4. destruct is_openapi3; [apply Hb1 | reflexivity].
  - apply bind_ext; [reflexivity |]. intros has_parameters s1.
    apply bind_ext; [reflexivity |]. intros is_openapi3 s2.
    apply bind_ext.
    { apply diff_parameters_new. apply extract_body_parameter; assumption. }
    intros _ s3. apply bind_ext; [| intros _ s4; apply Hr2].
    intros s4. destruct is_openapi3; [apply Hb2 | reflexivity].
Qed.
End BodyParameters.

Lemma body_parameters_not_compared_witness :
  Differ._diff_operation sample_str (VStr "/users") "post"
    (create_user ([id_parameter "string"]
                  ++ VDict (body_parameter ["name"; "email"]) :: []))
    (create_user [id_parameter "string"]) []
  = Differ._diff_operation sample_str (VStr "/users") "post"
      (create_user ([id_parameter "string"] ++ []))
      (create_user [id_parameter "string"]) [] /\
  Differ._diff_operation sample_str (VStr "/users") "post"
    (create_user [id_parameter "string"])
    (create_user ([id_parameter "string"]
                  ++ VDict (body_parameter ["name"; "email"]) :: [])) []
  = Differ._diff_operation sample_str (VStr "/users") "post"
      (create_user [id_parameter "string"])
      (create_user ([id_parameter "string"] ++ [])) [].
Proof.
  apply (body_parameters_not_compared sample_str (VStr "/users") "post");
    reflexivity.
Defined.

(** ** What the schema check reads *)

Lemma smem_keys {V : Type} (k : string) (d : list (string * V)) :
  smem k d = existsb (fun k' => String.eqb k' k) (dict_keys d).
Proof.
  unfold smem, dict_mem, dict_keys.
  induction d as [| [k' v] d IH]; simpl; [reflexivity |].
  destruct (String.eqb k' k); [reflexivity | exact IH].
Qed.

Lemma py_iter_keys (d : list (string * value)) :
  py_iter (VDict d) = Ok (map VStr (dict_keys d)).
Proof. unfold dict_keys. cbn [py_iter]. rewrite map_map. reflexivity. Qed.

Lemma py_in_keys (x : value) (d1 d2 : list (string * value)) :
  dict_keys d1 = dict_keys d2 -> py_in x (VDict d1) = py_in x (VDict d2).
Proof.
  intros H. destruct x; try reflexivity. cbn [py_in].
  rewrite !smem_keys, H. reflexivity.
Qed.

Lemma bind_lift_rbind {A B C : Type} (r : result A) (f : A -> result B)
    (k : B -> M C) (s : list Change) :
  bind (lift r) (fun a => bind (lift (f a)) k) s = bind (lift (rbind r f)) k s.
Proof. unfold bind, lift. destruct r as [e | a]; reflexivity. Qed.

Lemma declared_types_reads (props1 props2 : list (string * value)) :
  map (fun kv => (fst kv, py_get (snd kv) "type" (VStr ""))) props1
  = map (fun kv => (fst kv, py_get (snd kv) "type" (VStr ""))) props2 ->
  dict_keys props1 = dict_keys props2 /\
  forall k, property_type props1 k = property_type props2 k.
Proof.
  revert props2. induction props1 as [| [k1 v1] props1 IH];
    intros [| [k2 v2] props2] H; try discriminate H.
  - split; reflexivity.
  - cbn [map fst snd] in H. injection H as Hk Hv Hrest.
    destruct (IH _ Hrest) as [Hkeys Htypes]. subst k2. split.
    + unfold dict_keys in *. cbn [map fst]. rewrite Hkeys. reflexivity.
    + intros k. specialize (Htypes k). unfold property_type in *.
      cbn [py_getitem] in *. unfold sget in *. cbn [dict_get].
      destruct (String.eqb k1 k); [exact Hv | exact Htypes].
Qed.

Lemma same_names_and_types_reads (s1 s2 : list (string * value)) :
  same_names_and_types s1 s2 ->
  sget "required" s1 = sget "required" s2 /\
  exists props1 props2,
    value_or "properties" (VDict []) s1 = VDict props1 /\
    value_or "properties" (VDict []) s2 = VDict props2 /\
    dict_keys props1 = dict_keys props2 /\
    forall k, property_type props1 k = property_type props2 k.
Proof.
  unfold same_names_and_types, declared_types.
  intros (H1 & H2 & Htypes & Hreq). split; [exact Hreq |].
  destruct (value_or "properties" (VDict []) s1) as [| | | | | props1];
    try discriminate H1.
  destruct (value_or "properties" (VDict []) s2) as [| | | | | props2];
    try discriminate H2.
  exists props1, props2. split; [reflexivity |]. split; [reflexivity |].
  apply declared_types_reads. exact Htypes.
Qed.

Section SchemaReads.
Variable py_str : value -> string.
Variable p : value.
Variable m : string.
Variable location : string.

Lemma diff_schema_old (s1 s2 : list (string * value)) (other : value) :
  same_names_and_types s1 s2 ->
  forall s,
    Differ._diff_schema py_str p m (VDict s1) other location s =
    Differ._diff_schema py_str p m (VDict s2) other location s.
Proof.
  intros H. apply same_names_and_types_reads in H.
  destruct H as (Hreq & props1 & props2 & Hp1 & Hp2 & Hkeys & Htypes).
  unfold Differ._diff_schema.
  rewrite !(py_get_dict s1), !(py_get_dict s2), Hp1, Hp2.
  unfold value_or. rewrite Hreq.
  apply bind_lift_same. cbv beta iota delta [Ok].
  apply bind_ext; [reflexivity |]. intros new_props s.
  apply bind_ext; [reflexivity |]. intros old_required s'.
  apply bind_ext; [reflexivity |]. intros new_required s''.
  rewrite !py_iter_keys, Hkeys.
  apply bind_ext; [reflexivity |]. intros olds s3.
  apply bind_ext; [reflexivity |]. intros _ s4.
  apply bind_ext; [reflexivity |]. intros news s5.
  apply bind_ext.
  { apply for_each_ext. intros x _ s6.
    rewrite (py_in_keys x props1 props2 Hkeys). reflexivity. }
  intros _ s6.
  apply bind_ext; [reflexivity |]. intros olds' s7.
  apply for_each_ext. intros x _ s8.
  apply bind_ext; [reflexivity |]. intros present s9.
  destruct present; [| reflexivity].
  destruct x as [| | | k | |];
    try (unfold bind, lift; cbn [py_getitem]; reflexivity).
  rewrite !bind_lift_rbind.
  change (rbind (py_getitem (VDict props1) (VStr k))
            (fun a => py_get a "type" (VStr "")))
    with (property_type props1 k).
  change (rbind (py_getitem (VDict props2) (VStr k))
            (fun a => py_get a "type" (VStr "")))
    with (property_type props2 k).
  rewrite Htypes. reflexivity.
Qed.

Lemma diff_schema_new (s1 s2 : list (string * value)) (other : value) :
  same_names_and_types s1 s2 ->
  forall s,
    Differ._diff_schema py_str p m other (VDict s1) location s =
    Differ._diff_schema py_str p m other (VDict s2) location s.
Proof.
  intros H. apply same_names_and_types_reads in H.
  destruct H as (Hreq & props1 & props2 & Hp1 & Hp2 & Hkeys & Htypes).
  unfold Differ._diff_schema.
  rewrite !(py_get_dict s1), !(py_get_dict s2), Hp1, Hp2.
  unfold value_or. rewrite Hreq.
  apply bind_ext; [reflexivity |]. intros old_props s.
  revert s. apply bind_lift_same. cbv beta iota delta [Ok].
  apply bind_ext; [reflexivity |]. intros old_required s'.
  apply bind_ext; [reflexivity |]. intros new_required s''.
  apply bind_ext; [reflexivity |]. intros olds s3.
  apply bind_ext.
  { apply for_each_ext. intros x _ s4.
    rewrite (py_in_keys x props1 props2 Hkeys). reflexivity. }
  intros _ s4.
  rewrite !py_iter_keys, Hkeys.
  apply bind_ext; [reflexivity |]. intros news s5.
  apply bind_ext; [reflexivity |]. intros _ s6.
  apply bind_ext; [reflexivity |]. intros olds' s7.
  apply for_each_ext. intros x _ s8.
  rewrite (py_in_keys x props1 props2 Hkeys).
  apply bind_ext; [reflexivity |]. intros present s9.
  destruct present; [| reflexivity].
  apply bind_ext; [reflexivity |]. intros old_prop s10.
  apply bind_ext; [reflexivity |]. intros old_prop_type s11.
  destruct x as [| | | k | |];
    try (unfold bind, lift; cbn [py_getitem]; reflexivity).
  rewrite !bind_lift_rbind.
  change (rbind (py_getitem (VDict props1) (VStr k))
            (fun a => py_get a "type" (VStr "")))
    with (property_type props1 k).
  change (rbind (py_getitem (VDict props2) (VStr k))
            (fun a => py_get a "type" (VStr "")))
    with (property_type props2 k).
  rewrite Htypes. reflexivity.
Qed.

(** X19. The schema check reads only the names and the types of the
    properties and the [required] entry: two schemas whose [properties] are
    mappings with the same names in the same order and the same types, and
    whose [required] entries are the same, give the same changes (or the
    same failure) on either side of a comparison, whatever else they hold
    (descriptions, formats, enum values, nested properties). *)
Theorem schema_names_and_types_only (s1 s2 : list (string * value))
    (other : value) (s : list Change) :
  same_names_and_types s1 s2 ->
  Differ._diff_schema py_str p m (VDict s1) other location s
  = Differ._diff_schema py_str p m (VDict s2) other location s /\
  Differ._diff_schema py_str p m other (VDict s1) location s
  = Differ._diff_schema py_str p m other (VDict s2) location s.
Proof.
  intros H. split; [apply diff_schema_old | apply diff_schema_new]; exact H.
Qed.
End SchemaReads.

Lemma schema_names_and_types_only_witness :
  Differ._diff_schema sample_str (VStr "/users") "post"
    (VDict described_user) (user_schema ["name"]) "body" []
  = Differ._diff_schema sample_str (VStr "/users") "post"
      (VDict plain_user) (user_schema ["name"]) "body" [] /\
  Differ._diff_schema sample_str (VStr "/users") "post"
    (user_schema ["name"]) (VDict described_user) "body" []
  = Differ._diff_schema sample_str (VStr "/users") "post"
      (user_schema ["name"]) (VDict plain_user) "body" [].
Proof.
  apply (schema_names_and_types_only sample_str (VStr "/users") "post" "body").
  repeat split; reflexivity.
Defined.

(** ** Detected formats *)

Lemma lstrip_head (s : string) :
  lstrip s = EmptyString \/
  exists c t, lstrip s = String c t /\ is_space c = false.
Proof.
  induction s as [| c s IH]; simpl; [left; reflexivity |].
  destruct (is_space c) eqn:E; [exact IH |]. right. eauto.
Qed.

Lemma rstrip_head (c : ascii) (t : string) :
  is_space c = false -> exists t', rstrip (String c t) = String c t'.
Proof.
  intros H. simpl. rewrite H. destruct (rstrip t); eauto.
Qed.

Lemma startswith_strip (content prefix : string) :
  String.length prefix = 1%nat ->
  startswith (strip content) prefix = startswith (lstrip content) prefix.
Proof.
  intros Hp. unfold strip.
  destruct (lstrip_head content) as [-> | (c & t & -> & Hc)]; [reflexivity |].
  destruct (rstrip_head c t Hc) as (t' & ->).
  destruct prefix as [| a [| b rest]]; try discriminate Hp.
  unfold startswith. simpl. destruct (ascii_dec a c); [| reflexivity].
  destruct t, t'; reflexivity.
Qed.

(** X20. On an ASCII content, the detected format depends only on the
    first character after the leading whitespace (trailing whitespace plays
    no part): json when that character is an opening brace, yaml otherwise;
    either way it is a format the parser supports. *)
Theorem detected_format_first_character (content : string) :
  is_ascii content = true ->
  Parser.detect_format content
  = (if startswith (lstrip content) "{" then "json" else "yaml") /\
  supported_format (Parser.detect_format content) = true.
Proof.
  intros _. unfold Parser.detect_format.
  rewrite startswith_strip by reflexivity.
  destruct (startswith (lstrip content) "{"); split; reflexivity.
Qed.

Lemma detected_format_first_character_witness :
  is_ascii "  { }  " = true /\
  Parser.detect_format "  { }  "
  = (if startswith (lstrip "  { }  ") "{" then "json" else "yaml") /\
  supported_format (Parser.detect_format "  { }  ") = true.
Proof.
  split; [reflexivity |].
  apply (detected_format_first_character "  { }  "). reflexivity.
Defined.

Section WellShapedSelfComparison.
Variable json_loads : string -> string + value.
Variable yaml_safe_load : string -> string + value.
Variable py_str : value -> string.

End WellShapedSelfComparison.


(** ** Changes of what is required *)

Section RequiredList.
Variable py_str : value -> string.
Variable p : value.
Variable m : string.
Variable location : string.

Lemma old_required_unread (schema : list (string * value))
    (names1 names2 : list value) (other : value) :
  forallb hashable names1 = true -> forallb hashable names2 = true ->
  forall s,
    Differ._diff_schema py_str p m
      (VDict (sset "required" (VList names1) schema)) other location s
    = Differ._diff_schema py_str p m
        (VDict (sset "required" (VList names2) schema)) other location s.
Proof.
  intros H1 H2. unfold Differ._diff_schema.
  rewrite !py_get_dict. unfold value_or.
  rewrite !sget_sset. cbn [String.eqb Ascii.eqb Bool.eqb].
  cbn [rbind Ok]. unfold py_set. cbn [py_iter Ok].
  apply bind_ext; [reflexivity |]. intros old_props s.
  apply bind_ext; [reflexivity |]. intros new_props s'.
  rewrite H1, H2. revert s'. apply bind_lift_same.
  cbv beta iota delta [Ok]. reflexivity.
Qed.

(** X22. A change of the [required] list of a schema alone is never
    reported: the list of the old schema is computed and never used, so
    comparing a schema with one list of hashable names against the same
    schema with another list appends no change, whenever the check
    returns. *)
Theorem required_list_change_not_reported (schema : list (string * value))
    (names1 names2 : list value) (s s' : list Change) :
  forallb hashable names1 = true -> forallb hashable names2 = true ->
  Differ._diff_schema py_str p m
    (VDict (sset "required" (VList names1) schema))
    (VDict (sset "required" (VList names2) schema)) location s
  = Ok (tt, s') ->
  s' = s.
Proof.
  intros H1 H2 Hrun.
  rewrite (old_required_unread schema names1 names2 _ H1 H2) in Hrun.
  destruct (self_schema py_str p m _ location _ _ _ Hrun) as (out & -> & Hout).
  rewrite (nothing_emitted out Hout). apply app_nil_r.
Qed.
End RequiredList.

Lemma required_list_change_not_reported_witness :
  Differ._diff_schema sample_str (VStr "/users") "post"
    (VDict (sset "required" (VList [VStr "name"]) described_user))
    (VDict (sset "required" (VList [VStr "name"; VStr "role"]) described_user))
    "body" []
  = Ok (tt, []) /\
  @nil Change = [].
Proof.
  split; [reflexivity |].
  apply (required_list_change_not_reported sample_str (VStr "/users") "post"
           "body" described_user [VStr "name"] [VStr "name"; VStr "role"]);
    reflexivity.
Defined.

(** ** What the parameter check reads *)

Section Related.
Context {K V : Type} (eqb : K -> K -> bool) (P : V -> V -> Prop).

Lemma dict_set_related (k : K) (v1 v2 : V) (d1 d2 : list (K * V)) :
  Forall2 (fun a b => fst a = fst b /\ P (snd a) (snd b)) d1 d2 ->
  P v1 v2 ->
  Forall2 (fun a b => fst a = fst b /\ P (snd a) (snd b))
    (dict_set eqb k v1 d1) (dict_set eqb k v2 d2).
Proof.
  intros Hd Hv. induction Hd as [| [k1 x1] [k2 x2] d1 d2 [Hk Hx] Hd IH];
    simpl in *.
  - constructor; [split; [reflexivity | exact Hv] | constructor].
  - subst k2. destruct (eqb k1 k).
    + constructor; [split; [reflexivity | exact Hv] | exact Hd].
    + constructor; [split; [reflexivity | exact Hx] | exact IH].
Qed.

Lemma dict_get_related (k : K) (d1 d2 : list (K * V)) :
  Forall2 (fun a b => fst a = fst b /\ P (snd a) (snd b)) d1 d2 ->
  match dict_get eqb k d1, dict_get eqb k d2 with
  | Some x1, Some x2 => P x1 x2
  | None, None => True
  | _, _ => False
  end.
Proof.
  intros Hd. induction Hd as [| [k1 x1] [k2 x2] d1 d2 [Hk Hx] Hd IH];
    simpl in *; [exact I |].
  subst k2. destruct (eqb k1 k); [exact Hx | exact IH].
Qed.

Lemma dict_keys_related (d1 d2 : list (K * V)) :
  Forall2 (fun a b => fst a = fst b /\ P (snd a) (snd b)) d1 d2 ->
  dict_keys d1 = dict_keys d2.
Proof.
  intros Hd. unfold dict_keys.
  induction Hd as [| a b d1 d2 [Hk _] Hd IH]; simpl; [reflexivity |].
  rewrite Hk, IH. reflexivity.
Qed.

Lemma dict_mem_related (k : K) (d1 d2 : list (K * V)) :
  Forall2 (fun a b => fst a = fst b /\ P (snd a) (snd b)) d1 d2 ->
  dict_mem eqb k d1 = dict_mem eqb k d2.
Proof.
  intros Hd. pose proof (dict_get_related k d1 d2 Hd) as H.
  unfold dict_mem.
  destruct (dict_get eqb k d1), (dict_get eqb k d2);
    try contradiction; reflexivity.
Qed.
End Related.

Section ParameterReads.
Variable py_str : value -> string.

Lemma same_types_refl (d : list (value * value)) : same_types py_str d d.
Proof. induction d; constructor; auto. Qed.

Lemma same_typed_params_refl (params : Normalizer.params_t) :
  same_typed_params py_str params params.
Proof.
  induction params; constructor; auto. split; [reflexivity |].
  apply same_types_refl.
Qed.

Lemma params_store_typed (p1 p2 : Normalizer.params_t)
    (param_in param_name info1 info2 : value) :
  same_typed_params py_str p1 p2 ->
  Differ.param_type py_str info1 = Differ.param_type py_str info2 ->
  same_typed_extraction py_str
    (Normalizer.params_store p1 param_in param_name info1)
    (Normalizer.params_store p2 param_in param_name info2).
Proof.
  intros Hp Hinfo. unfold Normalizer.params_store.
  destruct param_in as [| | | loc | |]; try reflexivity.
  pose proof (dict_get_related String.eqb (same_types py_str) loc p1 p2 Hp)
    as Hloc.
  unfold sget.
  destruct (dict_get String.eqb loc p1) as [i1 |],
    (dict_get String.eqb loc p2) as [i2 |]; try contradiction;
    [| reflexivity].
  destruct (hashable param_name); [| reflexivity].
  simpl. unfold sset.
  apply (dict_set_related String.eqb (same_types py_str)); [exact Hp |].
  apply (dict_set_related py_eq
           (fun a b => Differ.param_type py_str a = Differ.param_type py_str b));
    assumption.
Qed.

Lemma typed_rbind {A : Type} (r : result A)
    (k1 k2 : A -> result Normalizer.params_t) :
  (forall a, same_typed_extraction py_str (k1 a) (k2 a)) ->
  same_typed_extraction py_str (rbind r k1) (rbind r k2).
Proof. intros H. destruct r as [e | a]; simpl; [reflexivity | apply H]. Qed.

Lemma typed_bind (r1 r2 : result Normalizer.params_t)
    (k1 k2 : Normalizer.params_t -> result Normalizer.params_t) :
  same_typed_extraction py_str r1 r2 ->
  (forall p1 p2, same_typed_params py_str p1 p2 ->
                 same_typed_extraction py_str (k1 p1) (k2 p2)) ->
  same_typed_extraction py_str (rbind r1 k1) (rbind r2 k2).
Proof.
  intros Hr Hk. destruct r1 as [e1 | p1], r2 as [e2 | p2]; simpl in *;
    try contradiction; auto.
Qed.

Lemma parameters_loop_typed (b : bool) (ps : list value)
    (p1 p2 : Normalizer.params_t) :
  same_typed_params py_str p1 p2 ->
  same_typed_extraction py_str (Normalizer.parameters_loop b ps p1)
    (Normalizer.parameters_loop b ps p2).
Proof.
  revert p1 p2. induction ps as [| param ps IH]; intros p1 p2 H.
  - exact H.
  - cbn [Normalizer.parameters_loop].
    apply typed_rbind. intros param_in.
    apply typed_rbind. intros param_name.
    destruct (truthy param_in && truthy param_name); [| apply IH; exact H].
    apply typed_rbind. intros required.
    apply typed_rbind. intros info.
    apply typed_bind; [apply params_store_typed; [exact H | reflexivity] |].
    intros q1 q2 Hq. apply IH. exact Hq.
Qed.

Lemma content_loop_typed (request_body : value) (items : list (string * value))
    (p1 p2 : Normalizer.params_t) :
  same_typed_params py_str p1 p2 ->
  same_typed_extraction py_str (Normalizer.content_loop request_body items p1)
    (Normalizer.content_loop request_body items p2).
Proof.
  revert p1 p2. induction items as [| [ct spec] items IH]; intros p1 p2 H.
  - exact H.
  - cbn [Normalizer.content_loop].
    apply typed_rbind. intros schema.
    apply typed_rbind. intros required.
    apply typed_bind; [apply params_store_typed; [exact H | reflexivity] |].
    intros q1 q2 Hq. apply IH. exact Hq.
Qed.

Lemma parameter_step_typed (b : bool) (param1 param2 : list (string * value))
    (after : list value) (p1 p2 : Normalizer.params_t) :
  same_location_name_type param1 param2 ->
  same_typed_params py_str p1 p2 ->
  same_typed_extraction py_str
    (Normalizer.parameters_loop b (VDict param1 :: after) p1)
    (Normalizer.parameters_loop b (VDict param2 :: after) p2).
Proof.
  intros Hsame H. unfold same_location_name_type in Hsame.
  inversion Hsame as [| ? ? Hin Hsame1]; subst.
  inversion Hsame1 as [| ? ? Hname Hsame2]; subst.
  inversion Hsame2 as [| ? ? Hschema Hsame3]; subst.
  inversion Hsame3 as [| ? ? Htype _]; subst.
  cbn [Normalizer.parameters_loop]. rewrite !py_get_dict. unfold value_or.
  rewrite Hin, Hname, Hschema, Htype. cbn [rbind Ok].
  destruct (truthy match sget "in" param2 with Some v => v | None => VNone end
            && truthy match sget "name" param2 with
                      | Some v => v
                      | None => VNone
                      end);
    [| apply parameters_loop_typed; exact H].
  destruct b; cbn [rbind Ok];
    (apply typed_bind;
     [ apply params_store_typed; [exact H |];
       unfold Differ.param_type; rewrite !py_get_dict; reflexivity
     | intros q1 q2 Hq; apply parameters_loop_typed; exact Hq ]).
Qed.

Lemma extract_parameter_typed (op : list (string * value))
    (before after : list value) (param1 param2 : list (string * value))
    (b : bool) :
  same_location_name_type param1 param2 ->
  same_typed_extraction py_str
    (Normalizer.extract_parameters
       (with_parameters (before ++ VDict param1 :: after) op) b)
    (Normalizer.extract_parameters
       (with_parameters (before ++ VDict param2 :: after) op) b).
Proof.
  intros Hsame. unfold Normalizer.extract_parameters.
  rewrite !with_parameters_declared. cbn [rbind Ok py_iter].
  rewrite !parameters_loop_app.
  apply typed_bind.
  - destruct (Normalizer.parameters_loop b before Normalizer.empty_params)
      as [e | params]; [reflexivity |].
    cbn [rbind]. apply parameter_step_typed; [exact Hsame |].
    apply same_typed_params_refl.
  - intros p1 p2 Hp. destruct b; [| exact Hp].
    rewrite !with_parameters_get by discriminate.
    apply typed_rbind. intros request_body.
    destruct (truthy request_body); [| exact Hp].
    apply typed_rbind. intros content.
    apply typed_rbind. intros items.
    apply content_loop_typed. exact Hp.
Qed.

Variable p : value.
Variable m : string.

Lemma typed_location (loc : string) (p1 p2 : Normalizer.params_t) :
  same_typed_params py_str p1 p2 ->
  same_types py_str
    match sget loc p1 with Some d => d | None => [] end
    match sget loc p2 with Some d => d | None => [] end.
Proof.
  intros H.
  pose proof (dict_get_related String.eqb (same_types py_str) loc p1 p2 H)
    as Hloc.
  unfold sget.
  destruct (dict_get String.eqb loc p1), (dict_get String.eqb loc p2);
    try contradiction; [exact Hloc | constructor].
Qed.

Lemma diff_parameters_old_typed (old1 old2 new_op : value) (b : bool) :
  same_typed_extraction py_str (Normalizer.extract_parameters old1 b)
    (Normalizer.extract_parameters old2 b) ->
  forall s,
    Differ._diff_parameters py_str p m old1 new_op b s =
    Differ._diff_parameters py_str p m old2 new_op b s.
Proof.
  intros H. unfold Differ._diff_parameters. cbv zeta.
  apply bind_lift_same.
  destruct (Normalizer.extract_parameters old1 b) as [e1 | p1],
    (Normalizer.extract_parameters old2 b) as [e2 | p2]; simpl in H;
    try contradiction; [exact H |].
  apply bind_ext; [reflexivity |]. intros new_params s'.
  apply for_each_ext. intros loc _.
  pose proof (typed_location loc p1 p2 H) as Hloc.
  set (od1 := match sget loc p1 with Some d => d | None => [] end) in *.
  set (od2 := match sget loc p2 with Some d => d | None => [] end) in *.
  set (nd := match sget loc new_params with Some d => d | None => [] end).
  pose proof (dict_keys_related
                (fun a b => Differ.param_type py_str a = Differ.param_type py_str b) od1 od2 Hloc) as Hkeys.
  rewrite Hkeys.
  apply bind_ext; [reflexivity |]. intros _ s1.
  apply bind_ext.
  { apply for_each_ext. intros name _ s2.
    rewrite (dict_mem_related py_eq
               (fun a b => Differ.param_type py_str a = Differ.param_type py_str b) name od1 od2 Hloc).
    reflexivity. }
  intros _ s2. apply for_each_ext. intros name _ s3.
  destruct (dict_mem py_eq name nd); [| reflexivity].
  revert s3. apply bind_lift_same.
  pose proof (dict_get_related py_eq
                (fun a b => Differ.param_type py_str a = Differ.param_type py_str b) name od1 od2 Hloc) as Hget.
  unfold Differ.item.
  destruct (dict_get py_eq name od1) as [i1 |],
    (dict_get py_eq name od2) as [i2 |]; try contradiction;
    [| reflexivity].
  cbv beta iota delta [Ok].
  apply bind_ext; [reflexivity |]. intros new_param s4.
  rewrite Hget. reflexivity.
Qed.

(** X23. A change of the [required] flag of a declared parameter alone is
    never reported: when the old and the new operation differ only in
    entries of one parameter other than its location, name, schema and
    type, the comparison of the operation appends no change, whenever it
    returns. *)
Theorem required_flag_change_not_reported (op : list (string * value))
    (before after : list value) (param1 param2 : list (string * value))
    (s s' : list Change) :
  same_location_name_type param1 param2 ->
  Differ._diff_operation py_str p m
    (with_parameters (before ++ VDict param1 :: after) op)
    (with_parameters (before ++ VDict param2 :: after) op) s
  = Ok (tt, s') ->
  s' = s.
Proof.
  intros Hsame Hrun.
  assert (Hself : Differ._diff_operation py_str p m
                    (with_parameters (before ++ VDict param2 :: after) op)
                    (with_parameters (before ++ VDict param2 :: after) op) s
                  = Ok (tt, s')).
  { rewrite <- Hrun. symmetry.
    destruct (with_parameters_rest py_str p m
                (before ++ VDict param1 :: after)
                (before ++ VDict param2 :: after) op
                (with_parameters (before ++ VDict param2 :: after) op))
      as (Hb1 & _ & Hr1 & _).
    unfold Differ._diff_operation.
    rewrite !with_parameters_has. clear Hrun. revert s.
    apply bind_lift_same. cbv beta iota delta [Ok]. intros s1.
    apply bind_ext; [reflexivity |]. intros is_openapi3 s2.
    apply bind_ext.
    { apply diff_parameters_old_typed. apply extract_parameter_typed.
      exact Hsame. }
    intros _ s3. apply bind_ext; [| intros _ s4; apply Hr1].
    intros s4. destruct is_openapi3; [apply Hb1 | reflexivity]. }
  destruct (self_operation py_str p m _ _ _ _ Hself) as (out & -> & Hout).
  rewrite (nothing_emitted out Hout). apply app_nil_r.
Qed.
End ParameterReads.

Lemma required_flag_change_not_reported_witness :
  Differ._diff_operation sample_str (VStr "/users") "get"
    (create_user ([id_parameter "string"] ++ [VDict (limit_parameter false)]))
    (create_user ([id_parameter "string"] ++ [VDict (limit_parameter true)]))
    []
  = Ok (tt, []) /\
  @nil Change = [].
Proof.
  split; [reflexivity |].
  apply (required_flag_change_not_reported sample_str (VStr "/users") "get"
           [("responses", ok_response)] [id_parameter "string"] []
           (limit_parameter false) (limit_parameter true) [] []);
    [repeat constructor | reflexivity].
Defined.

(** ** Path items, and the records the differ visits *)

Lemma sget_map_values {V W : Type} (g : V -> W) (k : string)
    (d : list (string * V)) :
  sget k (map (fun entry => (fst entry, g (snd entry))) d)
  = option_map g (sget k d).
Proof.
  unfold sget. induction d as [| [k' v] d IH]; simpl; [reflexivity |].
  destruct (String.eqb k' k); [reflexivity | exact IH].
Qed.

Lemma dict_keys_map_values {V W : Type} (g : V -> W) (d : list (string * V)) :
  dict_keys (map (fun entry => (fst entry, g (snd entry))) d) = dict_keys d.
Proof.
  unfold dict_keys. rewrite map_map. reflexivity.
Qed.

Lemma select_methods_records (items : list (string * value)) :
  Differ.select_methods (filter (fun kv => is_dict (snd kv)) items)
  = Differ.select_methods items.
Proof.
  unfold Differ.select_methods.
  induction items as [| [k v] items IH]; simpl; [reflexivity |].
  destruct (is_dict v) eqn:Ev; simpl; rewrite ?Ev; simpl; rewrite IH;
    reflexivity.
Qed.

Lemma records_only_iter (paths : value) :
  py_iter (records_only paths) = py_iter paths.
Proof.
  destruct paths as [| | | | | entries]; try reflexivity.
  unfold records_only. rewrite !py_iter_keys, dict_keys_map_values.
  reflexivity.
Qed.

Lemma records_only_in (x paths : value) :
  py_in x (records_only paths) = py_in x paths.
Proof.
  destruct paths as [| | | | | entries]; try reflexivity.
  unfold records_only. apply py_in_keys. apply dict_keys_map_values.
Qed.

Lemma records_only_getitem (entries : list (string * value)) (x : value) :
  match py_getitem (VDict entries) x,
        py_getitem (records_only (VDict entries)) x with
  | inl e1, inl e2 => e1 = e2
  | inr item, inr item' => item' = records_of_item item
  | _, _ => False
  end.
Proof.
  unfold records_only. destruct x as [| | | p | |]; try reflexivity.
  cbn [py_getitem]. rewrite sget_map_values.
  destruct (sget p entries); reflexivity.
Qed.

Lemma records_of_item_items (item : value) :
  match py_items item, py_items (records_of_item item) with
  | inl e1, inl e2 => e1 = e2
  | inr items, inr items' =>
      Differ.select_methods items' = Differ.select_methods items
  | _, _ => False
  end.
Proof.
  destruct item as [| | | | | items]; try reflexivity.
  cbn [records_of_item py_items]. apply select_methods_records.
Qed.

Section RecordsOnly.
Variable py_str : value -> string.

Lemma diff_operations_old_records (old_paths new_paths : value) :
  forall s,
    Differ._diff_operations py_str (records_only old_paths) new_paths s
    = Differ._diff_operations py_str old_paths new_paths s.
Proof.
  destruct old_paths as [| | | | | entries]; try reflexivity.
  unfold Differ._diff_operations. rewrite records_only_iter.
  apply bind_ext; [reflexivity |]. intros olds s.
  apply for_each_ext. intros x _.
  apply bind_ext; [reflexivity |]. intros present s1.
  destruct (negb present); [reflexivity |]. revert s1.
  apply bind_lift_same.
  pose proof (records_only_getitem entries x) as Hitem.
  destruct (py_getitem (VDict entries) x) as [e | item],
    (py_getitem (records_only (VDict entries)) x) as [e' | item'];
    try contradiction; [symmetry; exact Hitem |].
  subst item'.
  apply bind_ext; [reflexivity |]. intros new_item s2. revert s2.
  apply bind_lift_same.
  pose proof (records_of_item_items item) as Hitems.
  destruct (py_items item) as [e | items],
    (py_items (records_of_item item)) as [e' | items'];
    try contradiction; [symmetry; exact Hitems |].
  apply bind_ext; [reflexivity |]. intros new_items s3.
  cbv zeta. rewrite Hitems. reflexivity.
Qed.

Lemma diff_operations_new_records (old_paths new_paths : value) :
  forall s,
    Differ._diff_operations py_str old_paths (records_only new_paths) s
    = Differ._diff_operations py_str old_paths new_paths s.
Proof.
  destruct new_paths as [| | | | | entries]; try reflexivity.
  unfold Differ._diff_operations.
  apply bind_ext; [reflexivity |]. intros olds s.
  apply for_each_ext. intros x _.
  rewrite records_only_in.
  apply bind_ext; [reflexivity |]. intros present s1.
  destruct (negb present); [reflexivity |].
  apply bind_ext; [reflexivity |]. intros old_item s2. revert s2.
  apply bind_lift_same.
  pose proof (records_only_getitem entries x) as Hitem.
  destruct (py_getitem (VDict entries) x) as [e | item],
    (py_getitem (records_only (VDict entries)) x) as [e' | item'];
    try contradiction; [symmetry; exact Hitem |].
  subst item'.
  apply bind_ext; [reflexivity |]. intros old_items s3. revert s3.
  apply bind_lift_same.
  pose proof (records_of_item_items item) as Hitems.
  destruct (py_items item) as [e | items],
    (py_items (records_of_item item)) as [e' | items'];
    try contradiction; [symmetry; exact Hitems |].
  intros s3. cbv zeta. rewrite Hitems. reflexivity.
Qed.
End RecordsOnly.

(** C9, as the code has it.  Both dialects normalize the paths of a mapping
    the same way: the item of a path keeps exactly the lower-cased keys that
    are method names, whatever their values, each with the value of the last
    source item whose lower-cased key it is; every other key is dropped.
    The restriction to records is the differ's: comparing operations gives
    the same changes, or the same failure, when the entries that are not
    records are removed from every item of the normalized paths, on either
    side of the comparison. *)
Theorem normalized_path_items (raw normalized : value) :
  Normalizer._normalize_paths_openapi3 raw = inr normalized \/
  Normalizer._normalize_paths_swagger2 raw = inr normalized ->
  (exists entries n,
     raw = VDict entries /\ normalized = VDict n /\
     forall p,
       match sget p (rev entries) with
       | None => sget p n = None
       | Some item =>
           exists items, item = VDict items /\
             sget p n = Some (VDict (Normalizer.normalize_path_item items)) /\
             forall m,
               sget m (Normalizer.normalize_path_item items) =
               if Normalizer.is_method m then last_with_lower m items else None
       end) /\
  (forall (py_str : value -> string) (other : value) (s : list Change),
     Differ._diff_operations py_str (records_only normalized) other s
     = Differ._diff_operations py_str normalized other s /\
     Differ._diff_operations py_str other (records_only normalized) s
     = Differ._diff_operations py_str other normalized s).
Proof.
  intros H. split.
  2:{ intros py_str other s. split;
        [apply diff_operations_old_records | apply diff_operations_new_records]. }
  revert H.
  unfold Normalizer._normalize_paths_openapi3,
    Normalizer._normalize_paths_swagger2.
  intros H.
  assert (H' : rbind (py_items raw) (fun items =>
                 rbind (Normalizer.normalize_paths_loop items [])
                   (fun normalized => Ok (VDict normalized))) = inr normalized)
    by (destruct H; assumption).
  clear H. apply rbind_ok in H'. destruct H' as (entries & Hraw & H).
  apply rbind_ok in H. destruct H as (n & Hloop & H).
  destruct raw; try discriminate. simpl in Hraw. inversion Hraw; subst.
  inversion H; subst. exists entries, n. split; [reflexivity |].
  split; [reflexivity |]. intros p.
  pose proof (normalize_paths_loop_lookup _ _ _ Hloop p) as Hp.
  destruct (sget p (rev entries)) as [item |].
  - destruct Hp as (items & -> & Hn). exists items.
    split; [reflexivity |]. split; [exact Hn |].
    intros m. apply normalize_path_item_lookup.
  - exact Hp.
Qed.

Lemma normalized_path_items_witness :
  Normalizer._normalize_paths_openapi3 mixed_case_paths
  = inr (VDict [("/users",
                 VDict [("get", VDict [("summary", VStr "last")]);
                        ("post", VDict [])])]) /\
  (exists entries n,
     mixed_case_paths = VDict entries /\
     VDict [("/users",
             VDict [("get", VDict [("summary", VStr "last")]);
                    ("post", VDict [])])] = VDict n /\
     forall p,
       match sget p (rev entries) with
       | None => sget p n = None
       | Some item =>
           exists items, item = VDict items /\
             sget p n = Some (VDict (Normalizer.normalize_path_item items)) /\
             forall m,
               sget m (Normalizer.normalize_path_item items) =
               if Normalizer.is_method m then last_with_lower m items else None
       end) /\
  (forall (py_str : value -> string) (other : value) (s : list Change),
     Differ._diff_operations py_str
       (records_only
          (VDict [("/users",
                   VDict [("get", VDict [("summary", VStr "last")]);
                          ("post", VDict [])])])) other s
     = Differ._diff_operations py_str
         (VDict [("/users",
                  VDict [("get", VDict [("summary", VStr "last")]);
                         ("post", VDict [])])]) other s /\
     Differ._diff_operations py_str other
       (records_only
          (VDict [("/users",
                   VDict [("get", VDict [("summary", VStr "last")]);
                          ("post", VDict [])])])) s
     = Differ._diff_operations py_str other
         (VDict [("/users",
                  VDict [("get", VDict [("summary", VStr "last")]);
                         ("post", VDict [])])]) s).
Proof.
  split; [reflexivity |].
  apply (normalized_path_items mixed_case_paths). left. reflexivity.
Defined.
